(** * rtengine/array2D.h: flexible 2D arrays and their batch companion

    A shallow embedding of [array2D<T>] and [multi_array2D<T,num>].  The
    C++ free store is an explicit heap that every member function threads
    through; a member function that would have undefined behaviour (or trip
    an [assert]) returns a [Fault]. *)

From Stdlib Require Import ZArith Lia Znumtheory.
From stdpp Require Import base numbers option list.

Open Scope Z_scope.

(** ** Machine integers *)

(** [size_t] is 64 bits wide: products and sums of extents wrap. *)
Definition wrap (x : Z) : Z := x mod 2 ^ 64.
Definition mul64 (a b : Z) : Z := wrap (a * b).
Definition add64 (a b : Z) : Z := wrap (a + b).

(** Narrowing of a [size_t] to the 32-bit [int] parameter [offset]. *)
Definition to_int (x : Z) : Z := (x + 2 ^ 31) mod 2 ^ 32 - 2 ^ 31.

(** ** Flags *)

Definition ARRAY2D_CLEAR_DATA : Z := 1.
Definition ARRAY2D_BYREFERENCE : Z := 2.

(** [flags & bit] used as a condition. *)
Definition has_flag (flags bit : Z) : bool := negb (Z.land flags bit =? 0).

(** ** Pointers, results *)

(** A pointer is null or a position inside an allocation.  Allocations are
    numbered in the order [new] produced them and a number is never used
    again, so two pointers are equal exactly when they designate the same
    cell of the same allocation. *)
Inductive ptr : Type :=
  | Null
  | Ptr (b : nat) (o : Z).

Global Instance ptr_eq_dec : EqDecision ptr.
Proof. solve_decision. Defined.

Definition is_null (p : ptr) : bool :=
  match p with Null => true | Ptr _ _ => false end.

(** [p + k].  Arithmetic on the null pointer is kept null: whatever is
    then accessed through it is a null dereference. *)
Definition ptr_add (p : ptr) (k : Z) : ptr :=
  match p with Null => Null | Ptr b o => Ptr b (o + k) end.

Inductive fault : Type :=
  | NullDeref
  | OutOfBounds
  | Dangling
  | Uninitialised
  | BadCell
  | InvalidDelete
  | AssertFailed.

Inductive res (A : Type) : Type :=
  | Ok (a : A)
  | Fault (e : fault).
Arguments Ok {A} a.
Arguments Fault {A} e.

Global Instance res_ret : MRet res := fun A a => Ok a.
Global Instance res_bind : MBind res := fun A B f m =>
  match m with Ok a => f a | Fault e => Fault e end.

(** [for (i : l) body] with the state threaded through; the first fault
    ends the loop. *)
Fixpoint for_each {S : Type} (l : list Z) (body : Z -> S -> res S) (s : S)
  : res S :=
  match l with
  | [] => Ok s
  | i :: l' => s' ← body i s; for_each l' body s'
  end.

(** [for (size_t i = 0; i < n; ++i) body] *)
Definition for_range {S : Type} (n : Z) (body : Z -> S -> res S) (s : S)
  : res S :=
  for_each (seqZ 0 n) body s.

(** ** The instance *)

Record array2D : Type := mk_array2D {
  width : Z;
  height : Z;
  rows : ptr;
  data : ptr
}.

(** What one cell of an allocation holds: nothing yet ([new T[n]] leaves
    trivially constructible elements indeterminate), an element, or a row
    pointer (the cells of a [T*[n]]). *)
Inductive cell (T : Type) : Type :=
  | Indet
  | Elem (v : T)
  | Row (p : ptr).
Arguments Indet {T}.
Arguments Elem {T} v.
Arguments Row {T} p.

(** The free store: allocation [b] is the [b]-th entry, [None] once it has
    been released with [delete[]]. *)
Abbreviation heap T := (list (option (list (cell T)))).

Section Heap.

Context {T : Type}.
Local Abbreviation heap := (heap T).
Local Abbreviation cell := (cell T).

Definition load (hp : heap) (p : ptr) : res cell :=
  match p with
  | Null => Fault NullDeref
  | Ptr b o =>
      match hp !! b with
      | Some (Some cells) =>
          if 0 <=? o then
            match cells !! Z.to_nat o with
            | Some c => Ok c
            | None => Fault OutOfBounds
            end
          else Fault OutOfBounds
      | _ => Fault Dangling
      end
  end.

Definition store (hp : heap) (p : ptr) (c : cell) : res heap :=
  match p with
  | Null => Fault NullDeref
  | Ptr b o =>
      match hp !! b with
      | Some (Some cells) =>
          if (0 <=? o) && (o <? Z.of_nat (length cells)) then
            Ok (<[b := Some (<[Z.to_nat o := c]> cells)]> hp)
          else Fault OutOfBounds
      | _ => Fault Dangling
      end
  end.

(** Reading a [T] lvalue / a [T*] lvalue. *)
Definition load_elem (hp : heap) (p : ptr) : res T :=
  c ← load hp p;
  match c with
  | Elem v => Ok v
  | Indet => Fault Uninitialised
  | Row _ => Fault BadCell
  end.

Definition load_row (hp : heap) (p : ptr) : res ptr :=
  c ← load hp p;
  match c with
  | Row q => Ok q
  | Indet => Fault Uninitialised
  | Elem _ => Fault BadCell
  end.

(** [new T[n]] and [new T*[n]]: a fresh allocation of [n] indeterminate
    cells.  Allocation itself is taken to succeed ([std::bad_alloc] is not
    caught anywhere in the class and ends the program). *)
Definition new_array (n : Z) (hp : heap) : ptr * heap :=
  (Ptr (length hp) 0, hp ++ [Some (replicate (Z.to_nat n) Indet)]).

(** [delete[] p]: nothing for a null pointer; otherwise [p] must be what
    [new] returned for an allocation that is still live. *)
Definition delete_array (p : ptr) (hp : heap) : res heap :=
  match p with
  | Null => Ok hp
  | Ptr b o =>
      match hp !! b with
      | Some (Some _) =>
          if o =? 0 then Ok (<[b := None]> hp) else Fault InvalidDelete
      | _ => Fault InvalidDelete
      end
  end.

(** [memset(p, 0, n * sizeof(T))], counted in elements: each of the [n]
    elements from [p] on becomes the all-zero-bytes value [zero]. *)
Definition memset0 (zero : T) (p : ptr) (n : Z) (hp : heap) : res heap :=
  for_range n (fun i hp => store hp (ptr_add p i) (Elem zero)) hp.

End Heap.

(** ** array2D<T> *)

Section Class.

Context {T : Type}.

(** The value whose object representation is all zero bytes (what
    [memset(.., 0, ..)] leaves in an element). *)
Variable zero : T.

Local Abbreviation heap := (heap T).

(** [if (cond) { delete[] p; p = nullptr; }] *)
Definition release_if (cond : bool) (p : ptr) (hp : heap) : res (ptr * heap) :=
  if cond then hp' ← delete_array p hp; Ok (Null, hp') else Ok (p, hp).

(** [if (!p) { p = new ..[n]; }] *)
Definition alloc_if_null (p : ptr) (n : Z) (hp : heap) : ptr * heap :=
  if is_null p then new_array n hp else (p, hp).

Definition ar_realloc (a : array2D) (w h offset : Z) (hp : heap)
  : res (array2D * heap) :=
  '(rows1, hp) ← release_if
      (negb (is_null (rows a)) && ((height a <? h) || (mul64 4 h <? height a)))
      (rows a) hp;
  let '(rows2, hp) := alloc_if_null rows1 h hp in
  '(data1, hp) ← release_if
      (negb (is_null (data a)) &&
       ((mul64 (width a) (height a) <? mul64 h w) ||
        (mul64 h w <? mul64 (width a) (height a) / 4)))
      (data a) hp;
  let '(data2, hp) :=
    alloc_if_null data1 (add64 (mul64 h w) (wrap offset)) hp in
  hp ← for_range h (fun i hp =>
         store hp (ptr_add rows2 i)
               (Row (ptr_add (ptr_add data2 offset) (mul64 w i)))) hp;
  Ok (mk_array2D w h rows2 data2, hp).

(** [array2D()] *)
Definition array2D_default : array2D := mk_array2D 0 0 Null Null.

(** [array2D(w, h, flags)] *)
Definition array2D_sized (w h flags : Z) (hp : heap) : res (array2D * heap) :=
  let '(d, hp) := new_array (mul64 h w) hp in
  let '(r, hp) := new_array h hp in
  hp ← for_range h (fun i hp =>
         store hp (ptr_add r i) (Row (ptr_add d (mul64 i w)))) hp;
  hp ← (if has_flag flags ARRAY2D_CLEAR_DATA
        then memset0 zero d (mul64 w h) hp else Ok hp);
  Ok (mk_array2D w h r d, hp).

(** [array2D(w, h, source, flags)].  In [rows[i][j] = source[i][j]] the
    right-hand side is evaluated first. *)
Definition array2D_from (w h : Z) (source : ptr) (flags : Z) (hp : heap)
  : res (array2D * heap) :=
  let owner := negb (has_flag flags ARRAY2D_BYREFERENCE) in
  let '(d, hp) := if owner then new_array (mul64 h w) hp else (Null, hp) in
  let '(r, hp) := new_array h hp in
  hp ← for_range h (fun i hp =>
         if owner then
           hp ← store hp (ptr_add r i) (Row (ptr_add d (mul64 i w)));
           for_range w (fun j hp =>
             si ← load_row hp (ptr_add source i);
             v ← load_elem hp (ptr_add si j);
             ri ← load_row hp (ptr_add r i);
             store hp (ptr_add ri j) (Elem v)) hp
         else
           si ← load_row hp (ptr_add source i);
           store hp (ptr_add r i) (Row si)) hp;
  Ok (mk_array2D w h r d, hp).

(** [~array2D()] *)
Definition array2D_dtor (a : array2D) (hp : heap) : res heap :=
  hp ← delete_array (data a) hp;
  delete_array (rows a) hp.

(** [fill(val, multiThread)].  The sequential loop visits [0 .. w*h) in
    order.  Under [#pragma omp parallel for if(multiThread)] every
    iteration of the range is run once by some thread; [sched] is the
    order in which the runtime happens to complete them.  (Built without
    OpenMP the loop is the sequential one whatever [multiThread] is.) *)
Definition fill (a : array2D) (val : T) (multiThread : bool)
    (sched : list Z) (hp : heap) : res heap :=
  for_each (if multiThread then sched
            else seqZ 0 (mul64 (width a) (height a)))
           (fun i hp => store hp (ptr_add (data a) i) (Elem val)) hp.

Definition free (a : array2D) (hp : heap) : res (array2D * heap) :=
  hp ← delete_array (data a) hp;
  hp ← delete_array (rows a) hp;
  Ok (mk_array2D (width a) (height a) Null Null, hp).

(** [operator[](index)] *)
Definition op_index (a : array2D) (index : Z) (hp : heap) : res ptr :=
  if (0 <=? index) && (index <? height a)
  then load_row hp (ptr_add (rows a) index)
  else Fault AssertFailed.

(** [operator T**()] and [operator T*()] *)
Definition op_rows (a : array2D) : ptr := rows a.
Definition op_flat (a : array2D) : ptr := data a.

(** [operator()(w, h, flags, offset)] *)
Definition op_call (a : array2D) (w h flags offset : Z) (hp : heap)
  : res (array2D * heap) :=
  '(a, hp) ← ar_realloc a w h offset hp;
  if has_flag flags ARRAY2D_CLEAR_DATA
  then hp ← memset0 zero (ptr_add (data a) offset)
                    (mul64 (width a) (height a)) hp;
       Ok (a, hp)
  else Ok (a, hp).

Definition getWidth (a : array2D) : Z := width a.
Definition getHeight (a : array2D) : Z := height a.

(** [operator bool()] *)
Definition op_bool (a : array2D) : bool := (0 <? width a) && (0 <? height a).

(** The client expressions [a[y][x]], [a[y][x] = v] and
    [static_cast<T*>(a)[i]]. *)
Definition get (a : array2D) (y x : Z) (hp : heap) : res T :=
  p ← op_index a y hp; load_elem hp (ptr_add p x).

Definition set (a : array2D) (y x : Z) (v : T) (hp : heap) : res heap :=
  p ← op_index a y hp; store hp (ptr_add p x) (Elem v).

Definition flat_get (a : array2D) (i : Z) (hp : heap) : res T :=
  load_elem hp (ptr_add (op_flat a) i).

(** The same two-level expressions on a raw [T**]: [source[y][x]] and
    [source[y][x] = v]. *)
Definition src_get (source : ptr) (y x : Z) (hp : heap) : res T :=
  p ← load_row hp (ptr_add source y); load_elem hp (ptr_add p x).

Definition src_set (source : ptr) (y x : Z) (v : T) (hp : heap) : res heap :=
  p ← load_row hp (ptr_add source y); store hp (ptr_add p x) (Elem v).

(** ** multi_array2D<T, num> *)

(** The argument [(i + 1) * offset] of the [i]-th call: the product is
    formed in [size_t] and narrowed to the [int] parameter. *)
Definition slot_offset (i offset : Z) : Z :=
  to_int (mul64 (add64 i 1) (wrap offset)).

(** [int flags] converted to the [unsigned int] parameter. *)
Definition to_uint (x : Z) : Z := x mod 2 ^ 32.

(** [multi_array2D(width, height, flags, offset)]: the [num] members of
    [list] are default-constructed, then resized one after the other. *)
Definition multi_array2D_ctor (num w h flags offset : Z) (hp : heap)
  : res (list array2D * heap) :=
  for_range num (fun i '(l, hp) =>
      match l !! Z.to_nat i with
      | Some a =>
          '(a', hp') ← op_call a w h (to_uint flags) (slot_offset i offset) hp;
          Ok (<[Z.to_nat i := a']> l, hp')
      | None => Fault OutOfBounds
      end)
    (replicate (Z.to_nat num) array2D_default, hp).

(** [multi_array2D::operator[](int index)]: the assertion compares
    [static_cast<size_t>(index)] with [num]. *)
Definition multi_index (num : Z) (l : list array2D) (index : Z)
  : res array2D :=
  if wrap index <? num then
    if 0 <=? index then
      match l !! Z.to_nat index with
      | Some a => Ok a
      | None => Fault OutOfBounds
      end
    else Fault OutOfBounds
  else Fault AssertFailed.

End Class.

(** ** Vocabulary of the statements *)

Section Vocabulary.

Context {T : Type}.
Local Abbreviation heap := (heap T).
Local Abbreviation cell := (cell T).

(** The cells of an allocation after a sequence of stores into it. *)
Definition upd_all (loc : Z -> Z) (val : Z -> cell) (cells : list cell)
    (l : list Z) : list cell :=
  foldl (fun cs i => <[Z.to_nat (loc i) := val i]> cs) cells l.

(** What [delete[]] accepts: null, or the start of a live allocation. *)
Definition deletable (p : ptr) (hp : heap) : Prop :=
  p = Null \/ exists b cells, p = Ptr b 0 /\ hp !! b = Some (Some cells).

(** The states the member functions leave an instance in: both pointers
    null or owned by the instance, in different allocations, and a row
    table with room for [height] entries. *)
Definition inst_ok (a : array2D) (hp : heap) : Prop :=
  deletable (rows a) hp /\ deletable (data a) hp /\
  (rows a = Null \/ rows a <> data a) /\
  (forall r R, rows a = Ptr r 0 -> hp !! r = Some (Some R) ->
     height a <= Z.of_nat (length R)).

(** The two reuse decisions of [ar_realloc], as the conditions under which
    the allocation is kept. *)
Definition keeps_rows (a : array2D) (h : Z) : bool :=
  negb (is_null (rows a)) && (h <=? height a) && (height a <=? mul64 4 h).

Definition keeps_data (a : array2D) (w h : Z) : bool :=
  negb (is_null (data a)) &&
  (mul64 h w <=? mul64 (width a) (height a)) &&
  (mul64 (width a) (height a) / 4 <=? mul64 h w).

(** Row [i] of the table starts at [data + off + i * width]. *)
Definition rows_inv (a : array2D) (off : Z) (hp : heap) : Prop :=
  exists d r R,
    data a = Ptr d 0 /\ rows a = Ptr r 0 /\ d <> r /\
    hp !! r = Some (Some R) /\
    forall i, 0 <= i < height a ->
      R !! Z.to_nat i = Some (Row (Ptr d (off + i * width a))).

(** An owning instance whose [width * height] elements, placed [off]
    cells into the buffer, all lie inside it. *)
Definition owning (a : array2D) (off : Z) (hp : heap) : Prop :=
  rows_inv a off hp /\
  0 <= width a /\ 0 <= height a /\ 0 <= off /\
  exists d D, data a = Ptr d 0 /\ hp !! d = Some (Some D) /\
    off + width a * height a <= Z.of_nat (length D).

(** A referencing instance: no buffer of its own, and a row table (its
    own) whose entries are the rows of [source]. *)
Definition referencing (a : array2D) (source : ptr) (hp : heap) : Prop :=
  data a = Null /\
  exists r R, rows a = Ptr r 0 /\ hp !! r = Some (Some R) /\
    height a <= Z.of_nat (length R) /\
    forall i, 0 <= i < height a ->
      exists p, load_row hp (ptr_add source i) = Ok p /\
                R !! Z.to_nat i = Some (Row p).

(** [source] really is an [h]-entry table of rows of [w] elements. *)
Definition source_ok (source : ptr) (w h : Z) (hp : heap) : Prop :=
  forall y, 0 <= y < h ->
    exists p, load_row hp (ptr_add source y) = Ok p /\
      forall x, 0 <= x < w -> exists v : T, load_elem hp (ptr_add p x) = Ok v.

(** The start of an allocation that [hp] does not have yet. *)
Definition fresh_in (p : ptr) (hp : heap) : Prop :=
  exists b, p = Ptr b 0 /\ (length hp <= b)%nat.

(** When [operator()] is asked to clear, the region it clears,
    [w * h] elements from [offset] on, is empty or lies in the buffer the
    call ends up with.  A buffer that [ar_realloc] allocates has room for
    it whenever the offset is not negative; only a buffer that the call
    keeps ([keeps_data]) has to be long enough already. *)
Definition clear_fits (a : array2D) (w h flags off : Z) (hp : heap) : Prop :=
  has_flag flags ARRAY2D_CLEAR_DATA = true ->
  w * h = 0 \/
  (0 <= off /\ w * h + off < 2 ^ 64 /\
   (keeps_data a w h = true ->
    forall d D, data a = Ptr d 0 -> hp !! d = Some (Some D) ->
      off + w * h <= Z.of_nat (length D))).

(** Two instances that share no allocation. *)
Definition disjoint_slots (a b : array2D) : Prop :=
  data a <> data b /\ rows a <> rows b /\ data a <> rows b /\ rows a <> data b.

(** A pointer into memory that exists in [hp]. *)
Definition points_into (p : ptr) (hp : heap) : Prop :=
  exists b o, p = Ptr b o /\ (b < length hp)%nat.

End Vocabulary.

(** ** A small instance to run the statements on *)

(** [array2D<int> a(2, 3)] built on an empty free store. *)
Definition ex_arr : array2D := mk_array2D 2 3 (Ptr 1 0) (Ptr 0 0).

Definition ex_heap : heap Z :=
  [Some (replicate 6 Indet); Some [Row (Ptr 0 0); Row (Ptr 0 2); Row (Ptr 0 4)]].

(** A 2-by-2 table of rows owned by somebody else, [source] being the
    table, and the instance [array2D<int> r(2, 2, source,
    ARRAY2D_BYREFERENCE)] built over it. *)
Definition ex_src_heap : heap Z :=
  [Some [Elem 10; Elem 11]; Some [Elem 20; Elem 21];
   Some [Row (Ptr 0 0); Row (Ptr 1 0)]].

Definition ex_source : ptr := Ptr 2 0.

Definition ex_ref : array2D := mk_array2D 2 2 (Ptr 3 0) Null.

Definition ex_ref_heap : heap Z :=
  ex_src_heap ++ [Some [Row (Ptr 0 0); Row (Ptr 1 0)]].

(** * Loops *)

Section Loops.

Context {S : Type}.
Implicit Types (body : Z -> S -> res S) (l : list Z).

Lemma for_each_ext l body1 body2 s :
  (forall i s, i ∈ l -> body1 i s = body2 i s) ->
  for_each l body1 s = for_each l body2 s.
Proof.
  revert s. induction l as [|i l IH]; intros s Hb; simpl; [done|].
  rewrite Hb by apply list_elem_of_here.
  destruct (body2 i s) as [s'|e]; simpl; [|done].
  apply IH. intros j s'' Hj. apply Hb. by apply list_elem_of_further.
Qed.

(** Loop rule for a counted loop: an invariant indexed by the counter. *)
Lemma for_each_seqZ_inv (I : Z -> S -> Prop) body (k : nat) :
  forall m s,
    I m s ->
    (forall i s, m <= i < m + Z.of_nat k -> I i s ->
       exists s', body i s = Ok s' /\ I (i + 1) s') ->
    exists s', for_each (seqZ m (Z.of_nat k)) body s = Ok s' /\
               I (m + Z.of_nat k) s'.
Proof.
  induction k as [|k IH]; intros m s Hm Hstep.
  - exists s. simpl. rewrite Z.add_0_r. done.
  - rewrite seqZ_cons by lia. simpl.
    destruct (Hstep m s) as (s1 & -> & H1); [lia|done|]. simpl.
    replace (Z.pred (Z.of_nat (Datatypes.S k))) with (Z.of_nat k) by lia.
    destruct (IH (Z.succ m) s1) as (s2 & Hrun & H2).
    + by replace (Z.succ m) with (m + 1) by lia.
    + intros i s' Hi. apply Hstep. lia.
    + exists s2. split; [done|].
      by replace (m + Z.of_nat (Datatypes.S k)) with (Z.succ m + Z.of_nat k) by lia.
Qed.

Lemma for_range_inv (I : Z -> S -> Prop) body n s :
  0 <= n ->
  I 0 s ->
  (forall i s, 0 <= i < n -> I i s ->
     exists s', body i s = Ok s' /\ I (i + 1) s') ->
  exists s', for_range n body s = Ok s' /\ I n s'.
Proof.
  intros Hn H0 Hstep. unfold for_range.
  destruct (for_each_seqZ_inv I body (Z.to_nat n) 0 s) as (s' & Hrun & Hs').
  - done.
  - intros i s1 Hi. apply Hstep. lia.
  - rewrite Z2Nat.id in Hrun, Hs' by done. eauto.
Qed.

End Loops.

(** * The free store *)

Section HeapLemmas.

Context {T : Type}.
Local Abbreviation heap := (heap T).
Local Abbreviation cell := (cell T).
Implicit Types (hp : heap) (c : cell) (p q : ptr).
Implicit Types (loc : Z -> Z) (val : Z -> cell) (cells : list cell).

Lemma ptr_add_0 p : ptr_add p 0 = p.
Proof. destruct p; simpl; [done|]. by rewrite Z.add_0_r. Qed.

Lemma ptr_add_add p j k : ptr_add (ptr_add p j) k = ptr_add p (j + k).
Proof. destruct p; simpl; [done|]. by rewrite Z.add_assoc. Qed.

Lemma load_block hp b o cells :
  hp !! b = Some (Some cells) -> 0 <= o ->
  load hp (Ptr b o) =
    match cells !! Z.to_nat o with Some c => Ok c | None => Fault OutOfBounds end.
Proof.
  intros Hb Ho. unfold load. rewrite Hb.
  destruct (Z.leb_spec 0 o); [done|lia].
Qed.

Lemma load_cell hp b o cells c :
  hp !! b = Some (Some cells) -> 0 <= o -> cells !! Z.to_nat o = Some c ->
  load hp (Ptr b o) = Ok c.
Proof. intros Hb Ho Hc. rewrite (load_block _ _ _ _ Hb Ho). by rewrite Hc. Qed.

Lemma store_block hp b o cells c :
  hp !! b = Some (Some cells) -> 0 <= o < Z.of_nat (length cells) ->
  store hp (Ptr b o) c = Ok (<[b := Some (<[Z.to_nat o := c]> cells)]> hp).
Proof.
  intros Hb Ho. unfold store. rewrite Hb.
  destruct (Z.leb_spec 0 o); [|lia].
  destruct (Z.ltb_spec o (Z.of_nat (length cells))); [done|lia].
Qed.

(** A store succeeds only inside a live allocation, and changes that cell
    only. *)
Lemma store_inv hp p c hp' :
  store hp p c = Ok hp' ->
  exists b o cells,
    p = Ptr b o /\ hp !! b = Some (Some cells) /\
    0 <= o < Z.of_nat (length cells) /\
    hp' = <[b := Some (<[Z.to_nat o := c]> cells)]> hp.
Proof.
  unfold store. destruct p as [|b o]; [done|].
  destruct (hp !! b) as [[cells|]|] eqn:Hb; try done.
  destruct (Z.leb_spec 0 o); simpl; [|done].
  destruct (Z.ltb_spec o (Z.of_nat (length cells))); [|done].
  intros [= <-]. exists b, o, cells. repeat split; done || lia.
Qed.

Lemma load_store_same hp p c hp' :
  store hp p c = Ok hp' -> load hp' p = Ok c.
Proof.
  intros (b & o & cells & -> & Hb & Ho & ->)%store_inv.
  apply lookup_lt_Some in Hb as Hlt.
  eapply load_cell; [by apply list_lookup_insert_eq|lia|].
  apply list_lookup_insert_eq. lia.
Qed.

Lemma load_store_other hp p c hp' q :
  store hp p c = Ok hp' -> p <> q -> load hp' q = load hp q.
Proof.
  intros (b & o & cells & -> & Hb & Ho & ->)%store_inv Hne.
  destruct q as [|b' o']; [done|]. unfold load.
  destruct (decide (b = b')) as [<-|Hbb].
  - apply lookup_lt_Some in Hb as Hlt.
    rewrite list_lookup_insert_eq by done. rewrite Hb.
    destruct (Z.leb_spec 0 o'); [|done].
    rewrite list_lookup_insert_ne; [done|].
    intros Heq. apply Hne. f_equal. lia.
  - by rewrite list_lookup_insert_ne.
Qed.

Lemma store_length hp p c hp' :
  store hp p c = Ok hp' -> length hp' = length hp.
Proof.
  intros (b & o & cells & -> & Hb & Ho & ->)%store_inv. apply length_insert.
Qed.

Lemma store_lookup_other hp b o c hp' b' :
  store hp (Ptr b o) c = Ok hp' -> b <> b' -> hp' !! b' = hp !! b'.
Proof.
  intros (b0 & o0 & cells & [= <- <-] & Hb & Ho & ->)%store_inv Hne.
  by apply list_lookup_insert_ne.
Qed.

Lemma upd_all_length loc val cells l :
  length (upd_all loc val cells l) = length cells.
Proof.
  revert cells. induction l as [|i l IH]; intros cells; simpl; [done|].
  unfold upd_all in *. simpl. rewrite IH. apply length_insert.
Qed.

Lemma upd_all_snoc loc val cells l i :
  upd_all loc val cells (l ++ [i]) =
  <[Z.to_nat (loc i) := val i]> (upd_all loc val cells l).
Proof. unfold upd_all. by rewrite foldl_app. Qed.

Lemma upd_all_lookup_notin loc val cells l (k : nat) :
  (forall i, i ∈ l -> Z.to_nat (loc i) <> k) ->
  upd_all loc val cells l !! k = cells !! k.
Proof.
  induction l as [|i l IH] using rev_ind; intros Hk; [done|].
  rewrite upd_all_snoc, list_lookup_insert_ne.
  - apply IH. intros j Hj. apply Hk. apply elem_of_app. by left.
  - apply Hk. apply elem_of_app. right. apply list_elem_of_here.
Qed.

Lemma upd_all_lookup_in loc val cells l i :
  i ∈ l ->
  (forall j, j ∈ l -> 0 <= loc j < Z.of_nat (length cells)) ->
  (forall j, j ∈ l -> loc j = loc i -> val j = val i) ->
  upd_all loc val cells l !! Z.to_nat (loc i) = Some (val i).
Proof.
  induction l as [|j l IH] using rev_ind; intros Hi Hrange Hval.
  - by apply elem_of_nil in Hi.
  - rewrite upd_all_snoc.
    assert (Hj : j ∈ l ++ [j])
      by (apply elem_of_app; right; apply list_elem_of_here).
    destruct (decide (loc j = loc i)) as [Heq|Hne].
    + rewrite Heq, (Hval j Hj Heq). apply list_lookup_insert_eq.
      rewrite upd_all_length. specialize (Hrange j Hj). lia.
    + rewrite list_lookup_insert_ne.
      2:{ pose proof (Hrange j Hj). pose proof (Hrange i Hi). lia. }
      apply IH.
      * apply elem_of_app in Hi as [Hi|Hi]; [done|].
        apply list_elem_of_singleton in Hi. by subst.
      * intros k Hk. apply Hrange, elem_of_app. by left.
      * intros k Hk. apply Hval, elem_of_app. by left.
Qed.

(** A loop whose body is one store into allocation [d]. *)
Lemma store_loop hp d loc val (body : Z -> heap -> res heap) l :
  forall cells,
    (d < length hp)%nat ->
    (forall i, i ∈ l -> 0 <= loc i < Z.of_nat (length cells)) ->
    (forall i cs, i ∈ l -> length cs = length cells ->
       body i (<[d := Some cs]> hp) =
       store (<[d := Some cs]> hp) (Ptr d (loc i)) (val i)) ->
    for_each l body (<[d := Some cells]> hp) =
    Ok (<[d := Some (upd_all loc val cells l)]> hp).
Proof.
  induction l as [|i l IH]; intros cells Hd Hrange Hbody; [done|].
  simpl. rewrite Hbody by (done || apply list_elem_of_here).
  rewrite (store_block _ d (loc i) cells).
  - simpl. rewrite list_insert_insert_eq.
    rewrite IH; [done|done| |].
    + intros j Hj. rewrite length_insert. apply Hrange.
      by apply list_elem_of_further.
    + intros j cs Hj Hlen. apply Hbody; [by apply list_elem_of_further|].
      by rewrite Hlen, length_insert.
  - by apply list_lookup_insert_eq.
  - apply Hrange, list_elem_of_here.
Qed.

End HeapLemmas.

(** * Arithmetic of extents *)

Lemma wrap_small x : 0 <= x < 2 ^ 64 -> wrap x = x.
Proof. intros H. unfold wrap. by apply Z.mod_small. Qed.

Lemma mul64_small a b : 0 <= a * b < 2 ^ 64 -> mul64 a b = a * b.
Proof. apply wrap_small. Qed.

Lemma mul_le_area w h i : 0 <= w -> 0 <= i < h -> 0 <= w * i <= w * h.
Proof. intros Hw Hi. split; nia. Qed.

(** * Member functions on the free store *)

Section ClassLemmas.

Context {T : Type}.
Variable zero : T.
Local Abbreviation heap := (heap T).
Local Abbreviation cell := (cell T).
Implicit Types (hp : heap) (a : array2D) (p q : ptr).

Lemma res_bind_Ok {A B : Type} (x : A) (f : A -> res B) : (Ok x ≫= f) = f x.
Proof. reflexivity. Qed.

Lemma lookup_seqZ_range (n i : Z) : i ∈ seqZ 0 n <-> 0 <= i < n.
Proof. rewrite elem_of_seqZ. lia. Qed.

(** The loop that fills the first [h] entries of row table [r]. *)
Lemma rows_loop hp r (R : list cell) (f : Z -> ptr) h :
  hp !! r = Some (Some R) -> 0 <= h <= Z.of_nat (length R) ->
  exists R',
    for_range h (fun i hp => store hp (ptr_add (Ptr r 0) i) (Row (f i))) hp
      = Ok (<[r := Some R']> hp) /\
    length R' = length R /\
    (forall i, 0 <= i < h -> R' !! Z.to_nat i = Some (Row (f i))) /\
    (forall k, h <= Z.of_nat k -> R' !! k = R !! k).
Proof.
  intros Hr Hh.
  exists (upd_all (fun i => 0 + i) (fun i => Row (f i)) R (seqZ 0 h)).
  split; [|split; [|split]].
  - unfold for_range. rewrite <- (list_insert_id hp r (Some R)) at 1 by done.
    apply store_loop.
    + by apply lookup_lt_Some in Hr.
    + intros i Hi%lookup_seqZ_range. lia.
    + done.
  - apply upd_all_length.
  - intros i Hi. replace i with (0 + i) at 1 by lia.
    apply (upd_all_lookup_in (fun i => 0 + i) (fun i => Row (f i))).
    + apply lookup_seqZ_range. lia.
    + intros j Hj%lookup_seqZ_range. lia.
    + intros j _ Hj. f_equal. f_equal. lia.
  - intros k Hk. apply upd_all_lookup_notin.
    intros i Hi%lookup_seqZ_range. lia.
Qed.

(** A loop that stores the same element at [base + i] for every [i] of a
    schedule. *)
Lemma elems_loop hp d (D : list cell) (v : T) base l :
  hp !! d = Some (Some D) ->
  (forall i, i ∈ l -> 0 <= base + i < Z.of_nat (length D)) ->
  for_each l (fun i hp => store hp (ptr_add (Ptr d base) i) (Elem v)) hp
    = Ok (<[d := Some (upd_all (fun i => base + i) (fun _ => Elem v) D l)]> hp).
Proof.
  intros Hd Hl. rewrite <- (list_insert_id hp d (Some D)) at 1 by done.
  apply store_loop; [by apply lookup_lt_Some in Hd|done|done].
Qed.

Lemma upd_all_const_range (D : list cell) (v : T) base n (k : nat) :
  0 <= base -> 0 <= n -> base + n <= Z.of_nat (length D) ->
  forall l, (forall i, i ∈ l <-> 0 <= i < n) ->
  upd_all (fun i => base + i) (fun _ => Elem v) D l !! k =
  if decide (base <= Z.of_nat k < base + n) then Some (Elem v) else D !! k.
Proof.
  intros Hb Hn Hlen l Hl. case_decide as Hk.
  - replace k with (Z.to_nat (base + (Z.of_nat k - base))) by lia.
    apply (upd_all_lookup_in (fun i => base + i) (fun _ => Elem v)).
    + apply Hl. lia.
    + intros j Hj%Hl. lia.
    + done.
  - apply upd_all_lookup_notin. intros i Hi%Hl. lia.
Qed.

(** One reuse decision of [ar_realloc]: release under [cond], then
    allocate if nothing is held. *)
Lemma phase_spec cond p n hp :
  deletable p hp ->
  exists p1 hp1 b (cells : list cell) hp2,
    release_if cond p hp = Ok (p1, hp1) /\
    alloc_if_null p1 n hp1 = (Ptr b 0, hp2) /\
    hp2 !! b = Some (Some cells) /\
    (length hp <= length hp2)%nat /\
    (forall b', p <> Ptr b' 0 -> (b' < length hp)%nat -> hp2 !! b' = hp !! b') /\
    ((p = Ptr b 0 /\ hp2 = hp /\ cond = false) \/
     (b = length hp /\ cells = replicate (Z.to_nat n) Indet /\
      (p = Null \/ cond = true) /\ length hp2 = Datatypes.S (length hp))).
Proof.
  intros [->|(b0 & c0 & -> & Hb0)].
  - exists Null, hp, (length hp), (replicate (Z.to_nat n) Indet),
      (hp ++ [Some (replicate (Z.to_nat n) Indet)]).
    split; [by destruct cond|]. split; [done|].
    split; [by apply list_lookup_middle|].
    split; [rewrite length_app; lia|].
    split; [intros b' _ Hb'; by apply lookup_app_l|].
    right. rewrite length_app. simpl. repeat split; auto with lia.
  - destruct cond.
    + exists Null, (<[b0 := None]> hp), (length hp),
        (replicate (Z.to_nat n) Indet),
        (<[b0 := None]> hp ++ [Some (replicate (Z.to_nat n) Indet)]).
      split; [unfold release_if; simpl; by rewrite Hb0|].
      split; [unfold alloc_if_null, new_array; simpl; by rewrite length_insert|].
      split; [apply list_lookup_middle; by rewrite length_insert|].
      split; [rewrite length_app, length_insert; lia|].
      split.
      * intros b' Hne Hb'. rewrite lookup_app_l by (by rewrite length_insert).
        apply list_lookup_insert_ne. congruence.
      * right. rewrite length_app, length_insert. simpl.
        repeat split; auto with lia.
    + exists (Ptr b0 0), hp, b0, c0, hp.
      repeat split; auto.
Qed.

Lemma keeps_rows_cond a h :
  keeps_rows a h =
  negb (is_null (rows a)) &&
  negb ((height a <? h) || (mul64 4 h <? height a)).
Proof.
  unfold keeps_rows. rewrite negb_orb, <- !Z.leb_antisym.
  by rewrite andb_assoc.
Qed.

Lemma keeps_data_cond a w h :
  keeps_data a w h =
  negb (is_null (data a)) &&
  negb ((mul64 (width a) (height a) <? mul64 h w) ||
        (mul64 h w <? mul64 (width a) (height a) / 4)).
Proof.
  unfold keeps_data. rewrite negb_orb, <- !Z.leb_antisym.
  by rewrite andb_assoc.
Qed.

(** What [ar_realloc] leaves behind, from any state the class can be in. *)
Lemma ar_realloc_spec a w h off hp :
  inst_ok a hp -> 0 <= w -> 0 <= h -> w * h < 2 ^ 64 ->
  exists r d (R D : list cell) hp',
    ar_realloc a w h off hp = Ok (mk_array2D w h (Ptr r 0) (Ptr d 0), hp') /\
    r <> d /\
    hp' !! r = Some (Some R) /\ hp' !! d = Some (Some D) /\
    h <= Z.of_nat (length R) /\
    (forall i, 0 <= i < h ->
       R !! Z.to_nat i = Some (Row (Ptr d (off + i * w)))) /\
    (if keeps_rows a h then rows a = Ptr r 0 else (length hp <= r)%nat) /\
    (if keeps_data a w h
     then data a = Ptr d 0 /\ hp !! d = Some (Some D)
     else (length hp <= d)%nat /\
          D = replicate (Z.to_nat (add64 (mul64 h w) (wrap off))) Indet) /\
    (length hp <= length hp')%nat /\
    (forall b, (b < length hp)%nat -> rows a <> Ptr b 0 -> data a <> Ptr b 0 ->
       hp' !! b = hp !! b).
Proof.
  intros (Hrows & Hdata & Hdist & Hcap) Hw Hh Hwh.
  set (c1 := negb (is_null (rows a)) &&
             ((height a <? h) || (mul64 4 h <? height a))).
  set (c2 := negb (is_null (data a)) &&
             ((mul64 (width a) (height a) <? mul64 h w) ||
              (mul64 h w <? mul64 (width a) (height a) / 4))).
  destruct (phase_spec c1 (rows a) h hp Hrows)
    as (p1 & hp1 & r & R1 & hp2 & E1 & E2 & HR1 & Hlen1 & Hfr1 & Hid1).
  assert (Hdata2 : deletable (data a) hp2).
  { destruct Hdata as [->|(d0 & D0 & Hd & HD0)]; [by left|right].
    exists d0, D0. split; [done|]. rewrite Hfr1; [done| |by eapply lookup_lt_Some].
    destruct Hdist as [->|Hne]; [done|congruence]. }
  destruct (phase_spec c2 (data a) (add64 (mul64 h w) (wrap off)) hp2 Hdata2)
    as (q1 & hp3 & d & D & hp4 & E3 & E4 & HD & Hlen2 & Hfr2 & Hid2).
  assert (Hrlt : (r < length hp2)%nat) by (by eapply lookup_lt_Some).
  assert (Hdr : data a <> Ptr r 0).
  { destruct Hid1 as [(Hr & _ & _)|(-> & _ & _ & _)].
    - destruct Hdist as [Hn|Hne]; congruence.
    - destruct Hdata as [->|(d0 & D0 & -> & HD0)]; [done|].
      apply lookup_lt_Some in HD0. intros [= ->]. lia. }
  assert (Hrd : r <> d).
  { destruct Hid2 as [(Hd & _ & _)|(-> & _ & _ & _)]; [congruence|lia]. }
  assert (HR4 : hp4 !! r = Some (Some R1)) by (by rewrite Hfr2).
  assert (HhR : h <= Z.of_nat (length R1)).
  { destruct Hid1 as [(Hr & -> & Hc)|(_ & -> & _ & _)].
    - specialize (Hcap _ _ Hr HR1). subst c1. rewrite Hr in Hc. simpl in Hc.
      apply orb_false_iff in Hc as [Hc _]. apply Z.ltb_ge in Hc. lia.
    - rewrite length_replicate. lia. }
  destruct (rows_loop hp4 r R1
              (fun i => ptr_add (ptr_add (Ptr d 0) off) (mul64 w i)) h HR4)
    as (R' & Hloop & HlenR & Hent & _); [lia|].
  exists r, d, R', D, (<[r := Some R']> hp4).
  split.
  { unfold ar_realloc. fold c1 c2.
    rewrite E1, res_bind_Ok. cbv beta iota. rewrite E2.
    rewrite E3, res_bind_Ok. cbv beta iota. rewrite E4.
    by rewrite Hloop. }
  split; [done|].
  split; [apply list_lookup_insert_eq; lia|].
  split; [by rewrite list_lookup_insert_ne|].
  split; [lia|].
  split.
  { intros i Hi. rewrite (Hent i Hi). simpl. do 3 f_equal.
    rewrite mul64_small by (pose proof (mul_le_area w h i); lia). lia. }
  split.
  { rewrite keeps_rows_cond.
    destruct Hid1 as [(Hr & _ & Hc)|(-> & _ & Hc & _)].
    - unfold c1 in Hc. rewrite Hr in Hc |- *. simpl in Hc |- *.
      by rewrite Hc.
    - destruct Hc as [Hn|Hc].
      + rewrite Hn. simpl. lia.
      + unfold c1 in Hc. apply andb_true_iff in Hc as [H1 H2].
        rewrite H1, H2. simpl. lia. }
  split.
  { rewrite keeps_data_cond.
    destruct Hid2 as [(Hd & -> & Hc)|(-> & -> & Hc & _)].
    - unfold c2 in Hc. rewrite Hd in Hc |- *. simpl in Hc |- *.
      rewrite Hc. simpl. split; [done|].
      rewrite <- Hfr1; [done| |].
      + destruct Hdist as [->|Hne]; [done|congruence].
      + destruct Hdata as [Hn|(d0 & D0 & Hd0 & HD0)]; [congruence|].
        rewrite Hd in Hd0. injection Hd0 as <-. by eapply lookup_lt_Some.
    - destruct Hc as [Hn|Hc].
      + rewrite Hn. simpl. split; [lia|done].
      + unfold c2 in Hc. apply andb_true_iff in Hc as [H1 H2].
        rewrite H1, H2. simpl. split; [lia|done]. }
  split; [rewrite length_insert; lia|].
  intros b Hb Hbr Hbd.
  destruct (decide (b = r)) as [->|Hne].
  - exfalso. destruct Hid1 as [(Hr & _ & _)|(-> & _ & _ & _)]; [done|lia].
  - rewrite list_lookup_insert_ne by done.
    rewrite Hfr2; [|done|lia]. by apply Hfr1.
Qed.

Lemma memset0_spec hp d (D : list cell) off n :
  hp !! d = Some (Some D) -> 0 <= off -> 0 <= n ->
  off + n <= Z.of_nat (length D) ->
  exists D',
    memset0 zero (Ptr d off) n hp = Ok (<[d := Some D']> hp) /\
    length D' = length D /\
    forall k : nat, D' !! k =
      if decide (off <= Z.of_nat k < off + n) then Some (Elem zero) else D !! k.
Proof.
  intros Hd Hoff Hn Hlen.
  exists (upd_all (fun i => off + i) (fun _ => Elem zero) D (seqZ 0 n)).
  split; [|split].
  - unfold memset0, for_range. apply elems_loop; [done|].
    intros i Hi%lookup_seqZ_range. lia.
  - apply upd_all_length.
  - intros k. apply upd_all_const_range; try done.
    intros i. apply lookup_seqZ_range.
Qed.

(** What [operator()] leaves behind. *)
Lemma op_call_spec a w h flags off hp :
  inst_ok a hp -> 0 <= w -> 0 <= h -> w * h < 2 ^ 64 ->
  clear_fits a w h flags off hp ->
  exists r d (R D : list cell) hp',
    op_call zero a w h flags off hp
      = Ok (mk_array2D w h (Ptr r 0) (Ptr d 0), hp') /\
    r <> d /\
    hp' !! r = Some (Some R) /\ hp' !! d = Some (Some D) /\
    h <= Z.of_nat (length R) /\
    (forall i, 0 <= i < h ->
       R !! Z.to_nat i = Some (Row (Ptr d (off + i * w)))) /\
    (if keeps_rows a h then rows a = Ptr r 0 else (length hp <= r)%nat) /\
    (if keeps_data a w h
     then data a = Ptr d 0 /\
          exists D0, hp !! d = Some (Some D0) /\ length D = length D0
     else (length hp <= d)%nat /\
          length D = Z.to_nat (add64 (mul64 h w) (wrap off))) /\
    (has_flag flags ARRAY2D_CLEAR_DATA = true ->
     forall k : nat, off <= Z.of_nat k < off + w * h ->
       D !! k = Some (Elem zero)) /\
    (length hp <= length hp')%nat /\
    (forall b, (b < length hp)%nat -> rows a <> Ptr b 0 -> data a <> Ptr b 0 ->
       hp' !! b = hp !! b).
Proof.
  intros Hok Hw Hh Hwh Hclear.
  destruct (ar_realloc_spec a w h off hp Hok Hw Hh Hwh)
    as (r & d & R & D & hp1 & Hrun & Hrd & HR & HD & HhR & Hent & Hkr & Hkd
        & Hlen & Hfr).
  assert (Hkd' : if keeps_data a w h
     then data a = Ptr d 0 /\
          exists D0, hp !! d = Some (Some D0) /\ length D = length D0
     else (length hp <= d)%nat /\
          length D = Z.to_nat (add64 (mul64 h w) (wrap off))).
  { destruct (keeps_data a w h).
    - destruct Hkd as [Hd HD0]. split; [done|]. by exists D.
    - destruct Hkd as [Hd ->]. split; [done|]. apply length_replicate. }
  unfold op_call. rewrite Hrun, res_bind_Ok. cbv beta iota.
  destruct (has_flag flags ARRAY2D_CLEAR_DATA) eqn:Hflag.
  - assert (0 <= w * h) by nia.
    simpl ptr_add. simpl width. simpl height.
    rewrite (mul64_small w h) by lia.
    destruct Hclear as [Hz|(Hoff & Hsum & Hfit)]; [done| |].
    { (* nothing to clear: [memset] of no element *)
      rewrite Hz. exists r, d, R, D, hp1.
      split; [done|]. split_and!; try done.
      intros _ k Hk. lia. }
    assert (HlenD : off + w * h <= Z.of_nat (length D)).
    { destruct (keeps_data a w h) eqn:Hk.
      - destruct Hkd as [Hd HD0]. by apply (Hfit eq_refl d).
      - destruct Hkd as [_ ->]. rewrite length_replicate.
        unfold add64. rewrite (mul64_small h w) by lia.
        rewrite (wrap_small off) by lia. rewrite wrap_small by lia. lia. }
    destruct (memset0_spec hp1 d D (0 + off) (w * h) HD)
      as (D' & Hset & HlenD' & HD'); [lia|lia|lia|].
    rewrite Hset. simpl.
    exists r, d, R, D', (<[d := Some D']> hp1).
    split; [done|]. split; [done|].
    split; [by rewrite list_lookup_insert_ne|].
    split; [apply list_lookup_insert_eq; by eapply lookup_lt_Some|].
    split; [done|]. split; [done|]. split; [done|].
    split.
    { destruct (keeps_data a w h).
      - destruct Hkd' as (Hd & D0 & HD0 & HlenD0). split; [done|].
        exists D0. split; [done|]. congruence.
      - destruct Hkd' as [Hd HlenD0]. split; [done|]. congruence. }
    split.
    { intros _ k Hk. rewrite HD'. case_decide; [done|lia]. }
    split; [rewrite length_insert; lia|].
    intros b Hb Hbr Hbd. rewrite <- (Hfr b Hb Hbr Hbd).
    apply list_lookup_insert_ne. intros ->.
    destruct (keeps_data a w h).
    + destruct Hkd as [Hd _]. congruence.
    + destruct Hkd as [Hd _]. lia.
  - exists r, d, R, D, hp1. split_and!; done.
Qed.

Lemma inst_ok_default hp : inst_ok array2D_default hp.
Proof.
  unfold inst_ok, array2D_default. simpl.
  split; [by left|]. split; [by left|]. split; [by left|]. done.
Qed.

(** [a[y][x]] is the cell [off + y * width + x] of the flat view. *)
Lemma get_flat a off hp y x :
  rows_inv a off hp -> 0 <= y < height a ->
  get a y x hp = flat_get a (off + y * width a + x) hp.
Proof.
  intros (d & r & R & Hd & Hr & Hdr & HR & Hent) Hy.
  unfold get, flat_get, op_index, op_flat.
  destruct (Z.leb_spec 0 y); [|lia].
  destruct (Z.ltb_spec y (height a)); [|lia]. simpl.
  rewrite Hr, Hd. unfold load_row. simpl ptr_add.
  rewrite (load_cell hp r (0 + y) R (Row (Ptr d (off + y * width a))));
    [|done|lia|].
  - simpl. by rewrite Z.add_0_l.
  - by rewrite <- (Hent y Hy).
Qed.

Lemma set_flat a off hp y x (v : T) :
  rows_inv a off hp -> 0 <= y < height a ->
  set a y x v hp = store hp (ptr_add (op_flat a) (off + y * width a + x)) (Elem v).
Proof.
  intros (d & r & R & Hd & Hr & Hdr & HR & Hent) Hy.
  unfold set, op_index, op_flat.
  destruct (Z.leb_spec 0 y); [|lia].
  destruct (Z.ltb_spec y (height a)); [|lia]. simpl.
  rewrite Hr, Hd. unfold load_row. simpl ptr_add.
  rewrite (load_cell hp r (0 + y) R (Row (Ptr d (off + y * width a))));
    [|done|lia|].
  - simpl. by rewrite Z.add_0_l.
  - by rewrite <- (Hent y Hy).
Qed.

(** What the sized constructor builds: two new allocations, the buffer
    first, and a row table whose entry [i] is [data + i * width]. *)
Lemma array2D_sized_spec w h flags hp :
  0 <= w -> 0 <= h -> w * h < 2 ^ 64 ->
  exists (R D : list cell) hp',
    array2D_sized zero w h flags hp
      = Ok (mk_array2D w h (Ptr (Datatypes.S (length hp)) 0)
                       (Ptr (length hp) 0), hp') /\
    hp' !! Datatypes.S (length hp) = Some (Some R) /\
    hp' !! length hp = Some (Some D) /\
    length R = Z.to_nat h /\ length D = Z.to_nat (w * h) /\
    (forall i, 0 <= i < h ->
       R !! Z.to_nat i = Some (Row (Ptr (length hp) (i * w)))) /\
    (forall k : nat, (k < length D)%nat ->
       D !! k = Some (if has_flag flags ARRAY2D_CLEAR_DATA
                      then Elem zero else Indet)) /\
    length hp' = Datatypes.S (Datatypes.S (length hp)) /\
    (forall b, (b < length hp)%nat -> hp' !! b = hp !! b).
Proof.
  intros Hw Hh Hwh. assert (0 <= w * h) by nia.
  unfold array2D_sized, new_array. cbv beta iota zeta.
  rewrite (mul64_small h w) by lia.
  set (D0 := replicate (Z.to_nat (h * w)) (@Indet T)).
  set (R0 := replicate (Z.to_nat h) (@Indet T)).
  set (hp1 := hp ++ [Some D0]). set (hp2 := hp1 ++ [Some R0]).
  assert (Hl1 : length hp1 = Datatypes.S (length hp))
    by (unfold hp1; rewrite length_app; simpl; lia).
  assert (HR0 : hp2 !! length hp1 = Some (Some R0))
    by (by apply list_lookup_middle).
  destruct (rows_loop hp2 (length hp1) R0
              (fun i => ptr_add (Ptr (length hp) 0) (mul64 i w)) h HR0)
    as (R' & Hloop & HlenR & Hent & _).
  { unfold R0. rewrite length_replicate. lia. }
  rewrite Hloop, res_bind_Ok.
  set (hp3 := <[length hp1 := Some R']> hp2).
  assert (HD3 : hp3 !! length hp = Some (Some D0)).
  { unfold hp3. rewrite list_lookup_insert_ne by lia.
    unfold hp2. rewrite lookup_app_l by lia. by apply list_lookup_middle. }
  assert (HR3 : hp3 !! length hp1 = Some (Some R')).
  { unfold hp3. apply list_lookup_insert_eq. unfold hp2.
    rewrite length_app. simpl. lia. }
  assert (Hl3 : length hp3 = Datatypes.S (Datatypes.S (length hp))).
  { unfold hp3, hp2. rewrite length_insert, length_app. simpl. lia. }
  assert (Hfr3 : forall b, (b < length hp)%nat -> hp3 !! b = hp !! b).
  { intros b Hb. unfold hp3, hp2.
    rewrite list_lookup_insert_ne by lia.
    rewrite lookup_app_l by lia. unfold hp1.
    by rewrite lookup_app_l by lia. }
  assert (HentR : forall i, 0 <= i < h ->
            R' !! Z.to_nat i = Some (Row (Ptr (length hp) (i * w)))).
  { intros i Hi. rewrite (Hent i Hi). simpl.
    rewrite mul64_small by (pose proof (mul_le_area w h i); lia). done. }
  rewrite <- Hl1.
  destruct (has_flag flags ARRAY2D_CLEAR_DATA).
  - rewrite (mul64_small w h) by lia.
    destruct (memset0_spec hp3 (length hp) D0 0 (w * h) HD3)
      as (D' & Hset & HlenD' & HD'); [lia|lia| |].
    { unfold D0. rewrite length_replicate. lia. }
    rewrite Hset, res_bind_Ok.
    exists R', D', (<[length hp := Some D']> hp3). split_and!.
    + done.
    + by rewrite list_lookup_insert_ne by lia.
    + apply list_lookup_insert_eq. lia.
    + rewrite HlenR. unfold R0. apply length_replicate.
    + rewrite HlenD'. unfold D0. rewrite length_replicate. f_equal. lia.
    + done.
    + intros k Hk. rewrite HD'. case_decide as Hd; [done|].
      rewrite HlenD' in Hk. unfold D0 in Hk. rewrite length_replicate in Hk. lia.
    + rewrite length_insert. lia.
    + intros b Hb. rewrite list_lookup_insert_ne by lia. by apply Hfr3.
  - rewrite res_bind_Ok. exists R', D0, hp3. split_and!; try done; try lia.
    + rewrite HlenR. unfold R0. apply length_replicate.
    + unfold D0. rewrite length_replicate. f_equal. lia.
    + intros k Hk. unfold D0 in *. rewrite length_replicate in Hk.
      by apply lookup_replicate_2.
Qed.

Lemma array2D_sized_owning w h flags hp :
  0 <= w -> 0 <= h -> w * h < 2 ^ 64 ->
  exists a hp',
    array2D_sized zero w h flags hp = Ok (a, hp') /\
    getWidth a = w /\ getHeight a = h /\ owning a 0 hp'.
Proof.
  intros Hw Hh Hwh.
  destruct (array2D_sized_spec w h flags hp Hw Hh Hwh)
    as (R & D & hp' & Hrun & HR & HD & HlenR & HlenD & Hent & _ & _ & _).
  eexists _, hp'. split; [exact Hrun|]. split_and!; try done.
  split.
  - exists (length hp), (Datatypes.S (length hp)), R.
    split_and!; done || lia.
  - split_and!; try done. exists (length hp), D. simpl.
    split_and!; done || nia.
Qed.

(** Owning instances are states of the class. *)
Lemma owning_inst_ok a off hp : owning a off hp -> inst_ok a hp.
Proof.
  intros ((d & r & R & Hd & Hr & Hdr & HR & Hent) & Hw & Hh & Hoff
          & d' & D & Hd' & HD & Hlen).
  rewrite Hd in Hd'. injection Hd' as <-.
  unfold inst_ok. rewrite Hd, Hr. split_and!.
  - right. by exists r, R.
  - right. by exists d, D.
  - right. congruence.
  - intros r' R' [= <-] HR'. rewrite HR in HR'. injection HR' as <-.
    destruct (decide (height a <= Z.of_nat (length R))) as [|Hgt]; [done|].
    exfalso. assert (Hi : 0 <= Z.of_nat (length R) < height a) by lia.
    apply Hent in Hi. rewrite Nat2Z.id in Hi.
    apply lookup_lt_Some in Hi. lia.
Qed.

Lemma delete_array_ok p hp :
  deletable p hp ->
  exists hp',
    delete_array p hp = Ok hp' /\ length hp' = length hp /\
    (forall b, p <> Ptr b 0 -> hp' !! b = hp !! b) /\
    (forall b, p = Ptr b 0 -> hp' !! b = Some None).
Proof.
  intros [->|(b0 & c0 & -> & Hb0)].
  - exists hp. by split_and!.
  - exists (<[b0 := None]> hp). simpl. rewrite Hb0. split_and!.
    + done.
    + apply length_insert.
    + intros b Hb. apply list_lookup_insert_ne. congruence.
    + intros b [= <-]. apply list_lookup_insert_eq. by eapply lookup_lt_Some.
Qed.

Lemma deletable_frame p hp hp' :
  deletable p hp ->
  (forall b, p = Ptr b 0 -> hp' !! b = hp !! b) ->
  deletable p hp'.
Proof.
  intros [->|(b & c & -> & Hb)] Hfr; [by left|right].
  exists b, c. split; [done|]. by rewrite Hfr.
Qed.

(** [free()] and the destructor succeed on every state of the class, and
    touch nothing but the two allocations of the instance. *)
Lemma release_both a hp :
  inst_ok a hp ->
  exists hp1 hp2,
    delete_array (data a) hp = Ok hp1 /\
    delete_array (rows a) hp1 = Ok hp2 /\
    length hp2 = length hp /\
    (forall b, data a <> Ptr b 0 -> rows a <> Ptr b 0 -> hp2 !! b = hp !! b).
Proof.
  intros (Hrows & Hdata & Hdist & _).
  destruct (delete_array_ok _ _ Hdata) as (hp1 & E1 & Hl1 & Hfr1 & _).
  assert (Hrows1 : deletable (rows a) hp1).
  { apply (deletable_frame _ hp); [done|]. intros b Hb. apply Hfr1.
    destruct Hdist as [Hn|Hne]; congruence. }
  destruct (delete_array_ok _ _ Hrows1) as (hp2 & E2 & Hl2 & Hfr2 & _).
  exists hp1, hp2. split_and!; [done|done|congruence|].
  intros b Hd Hr. rewrite Hfr2 by done. by apply Hfr1.
Qed.

(** Both allocations of the instance are dead once the two [delete[]]
    have run. *)
Lemma release_both_dead a hp hp1 hp2 :
  inst_ok a hp ->
  delete_array (data a) hp = Ok hp1 ->
  delete_array (rows a) hp1 = Ok hp2 ->
  forall b, data a = Ptr b 0 \/ rows a = Ptr b 0 -> hp2 !! b = Some None.
Proof.
  intros (Hrows & Hdata & Hdist & _) E1 E2.
  destruct (delete_array_ok _ _ Hdata) as (hp1' & E1' & _ & Hfr1 & Hdead1).
  rewrite E1 in E1'. injection E1' as <-.
  assert (Hrows1 : deletable (rows a) hp1).
  { apply (deletable_frame _ hp); [done|]. intros b Hb. apply Hfr1.
    destruct Hdist as [Hn|Hne]; congruence. }
  destruct (delete_array_ok _ _ Hrows1) as (hp2' & E2' & _ & Hfr2 & Hdead2).
  rewrite E2 in E2'. injection E2' as <-.
  intros b [Hb|Hb]; [|by apply Hdead2].
  rewrite Hfr2; [by apply Hdead1|].
  destruct Hdist as [Hn|Hne]; congruence.
Qed.

Lemma ex_owning : owning ex_arr 0 ex_heap.
Proof.
  split; [|split_and!; simpl; try lia].
  - exists 0%nat, 1%nat, [Row (Ptr 0 0); Row (Ptr 0 2); Row (Ptr 0 4)].
    split_and!; try done. simpl. intros i Hi.
    assert (i = 0 \/ i = 1 \/ i = 2) as [->|[->| ->]] by lia; reflexivity.
  - exists 0%nat, (replicate 6 Indet). split_and!; done || (simpl; lia).
Qed.

(** [fill] on an instance that holds a buffer of at least [w * h] cells:
    the cells it leaves, whatever order the iterations ran in. *)
Lemma fill_cells a d (D : list cell) (v : T) hp l :
  data a = Ptr d 0 -> hp !! d = Some (Some D) ->
  0 <= width a * height a <= Z.of_nat (length D) ->
  (forall i, i ∈ l <-> 0 <= i < width a * height a) ->
  exists D',
    for_each l (fun i hp => store hp (ptr_add (data a) i) (Elem v)) hp
      = Ok (<[d := Some D']> hp) /\
    length D' = length D /\
    forall k : nat, D' !! k =
      if decide (0 <= Z.of_nat k < 0 + width a * height a)
      then Some (Elem v) else D !! k.
Proof.
  intros Hd HD Hlen Hl.
  exists (upd_all (fun i => 0 + i) (fun _ => Elem v) D l). split_and!.
  - rewrite Hd. apply elems_loop; [done|]. intros i Hi%Hl. lia.
  - apply upd_all_length.
  - intros k. apply upd_all_const_range; done || lia.
Qed.

(** ** Construction from a table of rows *)

Lemma load_agree hp hp' p :
  (forall b o, p = Ptr b o -> hp' !! b = hp !! b) -> load hp' p = load hp p.
Proof.
  destruct p as [|b o]; [done|]. intros H. unfold load.
  by rewrite (H b o eq_refl).
Qed.

Lemma load_Ok_points_into hp p (c : cell) : load hp p = Ok c -> points_into p hp.
Proof.
  destruct p as [|b o]; [done|]. unfold load.
  destruct (hp !! b) as [[cells|]|] eqn:Hb; try done.
  intros _. exists b, o. split; [done|]. by eapply lookup_lt_Some.
Qed.

Lemma load_row_Ok hp p q :
  load_row hp p = Ok q <-> load hp p = Ok (Row q).
Proof.
  unfold load_row. destruct (load hp p) as [[|v|q']|e]; simpl; split;
    intros; simplify_eq; done.
Qed.

Lemma load_elem_Ok hp p (v : T) :
  load_elem hp p = Ok v <-> load hp p = Ok (Elem v).
Proof.
  unfold load_elem. destruct (load hp p) as [[|v'|q']|e]; simpl; split;
    intros; simplify_eq; done.
Qed.

Lemma insert_last (hp : heap) x y :
  <[length hp := y]> (hp ++ [x]) = hp ++ [y].
Proof. rewrite insert_app_r_alt by lia. by rewrite Nat.sub_diag. Qed.

Lemma insert_last_two_l (hp : heap) x y z :
  <[length hp := z]> (hp ++ [x; y]) = hp ++ [z; y].
Proof. rewrite insert_app_r_alt by lia. by rewrite Nat.sub_diag. Qed.

Lemma insert_last_two_r (hp : heap) x y z :
  <[Datatypes.S (length hp) := z]> (hp ++ [x; y]) = hp ++ [x; z].
Proof.
  rewrite insert_app_r_alt by lia.
  by replace (Datatypes.S (length hp) - length hp)%nat with 1%nat by lia.
Qed.

(** Loads of memory older than the allocations appended by a constructor
    do not see them. *)
Lemma load_old (hp0 hp : heap) p :
  points_into p hp0 ->
  (forall b, (b < length hp0)%nat -> hp !! b = hp0 !! b) ->
  load hp p = load hp0 p.
Proof.
  intros (b & o & -> & Hb) Hfr. apply load_agree.
  intros b' o' [= <- <-]. by apply Hfr.
Qed.

Lemma array2D_from_ref_spec w h source flags hp0 :
  has_flag flags ARRAY2D_BYREFERENCE = true -> 0 <= h ->
  (forall y, 0 <= y < h -> exists p, load_row hp0 (ptr_add source y) = Ok p) ->
  exists R : list cell,
    array2D_from w h source flags hp0
      = Ok (mk_array2D w h (Ptr (length hp0) 0) Null, hp0 ++ [Some R]) /\
    length R = Z.to_nat h /\
    forall y, 0 <= y < h ->
      exists p, load_row hp0 (ptr_add source y) = Ok p /\
                R !! Z.to_nat y = Some (Row p).
Proof.
  intros Hflag Hh Hsrc.
  set (val := fun i => match load_row hp0 (ptr_add source i) with
                       | Ok p => @Row T p | Fault _ => Indet end).
  set (R0 := replicate (Z.to_nat h) (@Indet T)).
  exists (upd_all (fun i => 0 + i) val R0 (seqZ 0 h)). split_and!.
  - unfold array2D_from, new_array. rewrite Hflag. cbv beta iota zeta.
    simpl negb. cbv iota. fold R0. unfold for_range.
    rewrite <- (list_insert_id (hp0 ++ [Some R0]) (length hp0) (Some R0)) at 1
      by (by apply list_lookup_middle).
    rewrite (store_loop _ (length hp0) (fun i => 0 + i) val).
    + rewrite res_bind_Ok. by rewrite insert_last.
    + rewrite length_app. simpl. lia.
    + intros i Hi%lookup_seqZ_range. unfold R0. rewrite length_replicate. lia.
    + intros i cs Hi%lookup_seqZ_range Hlen. rewrite insert_last.
      destruct (Hsrc i Hi) as (p & Hp). unfold val. rewrite Hp.
      assert (Hp' : load_row (hp0 ++ [Some cs]) (ptr_add source i) = Ok p).
      { apply load_row_Ok. apply load_row_Ok in Hp.
        rewrite (load_old hp0); [done| |].
        - by eapply load_Ok_points_into.
        - intros b Hb. by apply lookup_app_l. }
      by rewrite Hp'.
  - rewrite upd_all_length. unfold R0. apply length_replicate.
  - intros y Hy. destruct (Hsrc y Hy) as (p & Hp). exists p. split; [done|].
    replace (Row p) with (val y) by (unfold val; by rewrite Hp).
    replace y with (0 + y) at 1 by lia.
    apply (upd_all_lookup_in (fun i => 0 + i) val).
    + by apply lookup_seqZ_range.
    + intros j Hj%lookup_seqZ_range. unfold R0. rewrite length_replicate. lia.
    + intros j _ Hj. f_equal. lia.
Qed.

Lemma lookup_last_two_l (hp : heap) x y : (hp ++ [x; y]) !! length hp = Some x.
Proof. by apply list_lookup_middle. Qed.

Lemma lookup_last_two_r (hp : heap) x y :
  (hp ++ [x; y]) !! Datatypes.S (length hp) = Some y.
Proof.
  rewrite lookup_app_r by lia.
  by replace (Datatypes.S (length hp) - length hp)%nat with 1%nat by lia.
Qed.

Lemma lookup_older (hp k : heap) b :
  (b < length hp)%nat -> (hp ++ k) !! b = hp !! b.
Proof. apply lookup_app_l. Qed.

(** The inner loop of the copying constructor: row [i] of the source is
    copied to the cells [i * w .. i * w + w) of the new buffer. *)
Lemma copy_row_loop hp0 source w h i (R D : list cell) p :
  0 <= w -> 0 <= i < h -> w * h < 2 ^ 64 ->
  length D = Z.to_nat (w * h) ->
  load_row hp0 (ptr_add source i) = Ok p ->
  (forall x, 0 <= x < w -> exists v : T, load_elem hp0 (ptr_add p x) = Ok v) ->
  R !! Z.to_nat i = Some (Row (Ptr (length hp0) (i * w))) ->
  exists D',
    for_range w (fun j hp =>
        si ← load_row hp (ptr_add source i);
        v ← load_elem hp (ptr_add si j);
        ri ← load_row hp (ptr_add (Ptr (Datatypes.S (length hp0)) 0) i);
        store hp (ptr_add ri j) (Elem v))
      (hp0 ++ [Some D; Some R])
    = Ok (hp0 ++ [Some D'; Some R]) /\
    length D' = length D /\
    (forall x, 0 <= x < w ->
       exists v, load_elem hp0 (ptr_add p x) = Ok v /\
                 D' !! Z.to_nat (i * w + x) = Some (Elem v)) /\
    (forall k : nat, ~ (i * w <= Z.of_nat k < i * w + w) -> D' !! k = D !! k).
Proof.
  intros Hw Hi Hwh HlenD Hp Hrow HR.
  set (val := fun j => match load_elem hp0 (ptr_add p j) with
                       | Ok v => @Elem T v | Fault _ => Indet end).
  set (loc := fun j => i * w + j).
  assert (Hloc : forall j, 0 <= j < w -> 0 <= loc j < Z.of_nat (length D)).
  { intros j Hj. unfold loc. rewrite HlenD. nia. }
  exists (upd_all loc val D (seqZ 0 w)). split_and!.
  - unfold for_range.
    rewrite <- (list_insert_id (hp0 ++ [Some D; Some R]) (length hp0) (Some D))
      at 1 by apply lookup_last_two_l.
    rewrite (store_loop _ (length hp0) loc val).
    + by rewrite insert_last_two_l.
    + rewrite length_app. simpl. lia.
    + intros j Hj%lookup_seqZ_range. by apply Hloc.
    + intros j cs Hj%lookup_seqZ_range Hlen. rewrite insert_last_two_l.
      set (H' := hp0 ++ [Some cs; Some R]).
      assert (Hold : forall q, points_into q hp0 -> load H' q = load hp0 q).
      { intros q Hq. apply (load_old hp0); [done|].
        intros b Hb. by apply lookup_older. }
      destruct (Hrow j Hj) as (v & Hv).
      assert (E1 : load_row H' (ptr_add source i) = Ok p).
      { apply load_row_Ok. apply load_row_Ok in Hp.
        rewrite Hold; [done|]. by eapply load_Ok_points_into. }
      assert (E2 : load_elem H' (ptr_add p j) = Ok v).
      { apply load_elem_Ok. apply load_elem_Ok in Hv.
        rewrite Hold; [done|]. by eapply load_Ok_points_into. }
      assert (E3 : load_row H' (ptr_add (Ptr (Datatypes.S (length hp0)) 0) i)
                   = Ok (Ptr (length hp0) (i * w))).
      { apply load_row_Ok. simpl ptr_add.
        apply (load_cell _ _ _ R); [apply lookup_last_two_r|lia|done]. }
      rewrite E1, res_bind_Ok, E2, res_bind_Ok, E3, res_bind_Ok.
      unfold val. rewrite Hv. done.
  - apply upd_all_length.
  - intros x Hx. destruct (Hrow x Hx) as (v & Hv). exists v. split; [done|].
    replace (Elem v) with (val x) by (unfold val; by rewrite Hv).
    apply (upd_all_lookup_in loc val).
    + by apply lookup_seqZ_range.
    + intros j Hj%lookup_seqZ_range. by apply Hloc.
    + intros j _ Hj. unfold loc in Hj. f_equal. lia.
  - intros k Hk. apply upd_all_lookup_notin.
    intros j Hj%lookup_seqZ_range. unfold loc in *.
    assert (0 <= i * w) by nia. lia.
Qed.

(** What the copying constructor builds: a buffer and a row table after
    everything that was there, the table laid out as by the sized
    constructor, and cell [y * w + x] holding what [source[y][x]] held. *)
Lemma array2D_from_copy_spec w h source flags hp0 :
  has_flag flags ARRAY2D_BYREFERENCE = false ->
  0 <= w -> 0 <= h -> w * h < 2 ^ 64 ->
  source_ok (T:=T) source w h hp0 ->
  exists R D : list cell,
    array2D_from w h source flags hp0
      = Ok (mk_array2D w h (Ptr (Datatypes.S (length hp0)) 0)
                       (Ptr (length hp0) 0),
            hp0 ++ [Some D; Some R]) /\
    length R = Z.to_nat h /\ length D = Z.to_nat (w * h) /\
    (forall y, 0 <= y < h ->
       R !! Z.to_nat y = Some (Row (Ptr (length hp0) (y * w)))) /\
    (forall y x, 0 <= y < h -> 0 <= x < w ->
       exists v, src_get source y x hp0 = Ok v /\
                 D !! Z.to_nat (y * w + x) = Some (Elem v)).
Proof.
  intros Hflag Hw Hh Hwh Hsrc. assert (0 <= w * h) by nia.
  set (I := fun (i : Z) (hp : heap) =>
    exists R D : list cell,
      hp = hp0 ++ [Some D; Some R] /\
      length R = Z.to_nat h /\ length D = Z.to_nat (w * h) /\
      (forall y, 0 <= y < i ->
         R !! Z.to_nat y = Some (Row (Ptr (length hp0) (y * w)))) /\
      (forall y x, 0 <= y < i -> 0 <= x < w ->
         exists v, src_get source y x hp0 = Ok v /\
                   D !! Z.to_nat (y * w + x) = Some (Elem v))).
  unfold array2D_from, new_array. rewrite Hflag. cbv beta iota zeta.
  simpl negb. cbv iota. rewrite (mul64_small h w) by lia.
  rewrite length_app, <- app_assoc. simpl length. simpl app.
  rewrite Nat.add_1_r.
  match goal with
  | |- context [for_range h ?body ?hp1] =>
      destruct (for_range_inv I body h hp1 Hh) as (hp' & Hrun & HI)
  end.
  - eexists _, _. split; [reflexivity|].
    rewrite !length_replicate. split_and!; [done|f_equal; lia| |]; intros; lia.
  - intros i hp Hi (R & D & -> & HlenR & HlenD & Hrows & Hcells).
    destruct (Hsrc i Hi) as (p & Hp & Hrow).
    rewrite (store_block _ (Datatypes.S (length hp0)) (0 + i) R);
      [|apply lookup_last_two_r|lia].
    rewrite res_bind_Ok, insert_last_two_r. simpl ptr_add.
    rewrite (mul64_small i w) by (pose proof (mul_le_area w h i); lia).
    set (R1 := <[Z.to_nat i := Row (Ptr (length hp0) (i * w))]> R).
    assert (HR1 : R1 !! Z.to_nat i = Some (Row (Ptr (length hp0) (i * w))))
      by (apply list_lookup_insert_eq; lia).
    destruct (copy_row_loop hp0 source w h i R1 D p Hw Hi Hwh HlenD Hp Hrow HR1)
      as (D1 & Hloop & HlenD1 & Hnew & Hkeep).
    exists (hp0 ++ [Some D1; Some R1]). split; [exact Hloop|].
    exists R1, D1. split_and!.
    + done.
    + unfold R1. by rewrite length_insert.
    + congruence.
    + intros y Hy. destruct (decide (y = i)) as [->|Hne]; [done|].
      unfold R1. rewrite list_lookup_insert_ne by lia. apply Hrows. lia.
    + intros y x Hy Hx. destruct (decide (y = i)) as [->|Hne].
      * destruct (Hnew x Hx) as (v & Hv & HD1). exists v. split; [|done].
        unfold src_get. by rewrite Hp, res_bind_Ok.
      * destruct (Hcells y x) as (v & Hv & HD); [lia|done|].
        exists v. split; [done|]. rewrite Hkeep; [done|].
        assert (0 <= y * w) by nia. nia.
  - rewrite Hrun, res_bind_Ok.
    destruct HI as (R & D & -> & HlenR & HlenD & Hrows & Hcells).
    by exists R, D.
Qed.

(** [a[y][x]] reads the row table and one cell; a free store that agrees
    on the table and on that cell gives the same reading. *)
Lemma get_agree a y x hp hp' p :
  0 <= y < height a ->
  load_row hp (ptr_add (rows a) y) = Ok p ->
  load hp' (ptr_add (rows a) y) = load hp (ptr_add (rows a) y) ->
  load hp' (ptr_add p x) = load hp (ptr_add p x) ->
  get a y x hp' = get a y x hp.
Proof.
  intros Hy Hp Hrow Hcell. unfold get, op_index.
  destruct (Z.leb_spec 0 y); [|lia].
  destruct (Z.ltb_spec y (height a)); [|lia]. simpl.
  assert (Hp' : load_row hp' (ptr_add (rows a) y) = Ok p).
  { apply load_row_Ok. rewrite Hrow. by apply load_row_Ok. }
  rewrite Hp, Hp', !res_bind_Ok. unfold load_elem. by rewrite Hcell.
Qed.

(** ** Referencing instances *)

Lemma referencing_inst_ok a source hp : referencing a source hp -> inst_ok a hp.
Proof.
  intros (Hd & r & R & Hr & HR & Hlen & _). unfold inst_ok.
  rewrite Hd, Hr. split_and!.
  - right. by exists r, R.
  - by left.
  - by right.
  - intros r' R' [= <-] HR'. congruence.
Qed.

(** [operator()] on an instance that holds no buffer: it comes out owning,
    with a buffer that did not exist before the call. *)
Lemma op_call_null_spec a w h flags off hp :
  inst_ok a hp -> data a = Null ->
  0 <= w -> 0 <= h -> 0 <= off -> w * h + off < 2 ^ 64 ->
  exists a' hp',
    op_call zero a w h flags off hp = Ok (a', hp') /\
    getWidth a' = w /\ getHeight a' = h /\
    owning a' off hp' /\
    fresh_in (op_flat a') hp /\
    (rows a = Null -> fresh_in (op_rows a') hp) /\
    (length hp <= length hp')%nat /\
    (forall b, (b < length hp)%nat -> rows a <> Ptr b 0 -> hp' !! b = hp !! b) /\
    (has_flag flags ARRAY2D_CLEAR_DATA = true ->
     forall y x, 0 <= y < h -> 0 <= x < w -> get a' y x hp' = Ok zero).
Proof.
  intros Hok Hnull Hw Hh Hoff Hsum. assert (0 <= w * h) by nia.
  assert (Hclear : clear_fits a w h flags off hp).
  { intros _. right. split_and!; [done|done|]. intros _ d D Hd. congruence. }
  destruct (op_call_spec a w h flags off hp Hok Hw Hh ltac:(lia) Hclear)
    as (r & d & R & D & hp' & Hrun & Hrd & HR & HD & HhR & Hent & Hkr & Hkd
        & Hzero & Hlen & Hfr).
  assert (Hkd0 : keeps_data a w h = false)
    by (unfold keeps_data; by rewrite Hnull).
  rewrite Hkd0 in Hkd. destruct Hkd as [Hdfresh HlenD].
  assert (HlenD' : Z.of_nat (length D) = w * h + off).
  { rewrite HlenD. unfold add64. rewrite (mul64_small h w) by lia.
    rewrite (wrap_small off) by lia. rewrite wrap_small by lia. lia. }
  set (a' := mk_array2D w h (Ptr r 0) (Ptr d 0)).
  assert (Hinv : rows_inv a' off hp').
  { exists d, r, R. split_and!; done || congruence. }
  exists a', hp'. split; [exact Hrun|]. split_and!; try done.
  - split; [done|]. split_and!; try done. exists d, D. simpl.
    split_and!; done || lia.
  - by exists d.
  - intros Hrn. exists r. split; [done|].
    assert (Hkr0 : keeps_rows a h = false)
      by (unfold keeps_rows; by rewrite Hrn).
    by rewrite Hkr0 in Hkr.
  - intros b Hb Hbr. apply Hfr; [done|done|congruence].
  - intros Hflag y x Hy Hx. rewrite (get_flat a' off) by done.
    unfold flat_get, op_flat. simpl. apply load_elem_Ok.
    assert (0 <= y * w) by nia.
    apply (load_cell _ _ _ D); [done|lia|].
    assert (Hk := Hzero Hflag (Z.to_nat (off + y * w + x))).
    apply Hk. nia.
Qed.

(** A referencing instance holds one allocation of its own, the row
    table; [free()] and the destructor release that table and leave every
    other allocation of the free store, live or not, exactly as it was. *)
Lemma referencing_release a source hp :
  referencing a source hp ->
  exists r,
    op_rows a = Ptr r 0 /\
    (exists a' hp',
       free a hp = Ok (a', hp') /\
       hp' !! r = Some None /\
       forall b, b <> r -> hp' !! b = hp !! b) /\
    (exists hp',
       array2D_dtor a hp = Ok hp' /\
       hp' !! r = Some None /\
       forall b, b <> r -> hp' !! b = hp !! b).
Proof.
  intros (Hd & r & R & Hr & HR & _). exists r. split; [done|].
  assert (Hlt : (r < length hp)%nat) by (by eapply lookup_lt_Some).
  split.
  - exists (mk_array2D (width a) (height a) Null Null), (<[r := None]> hp).
    unfold free. rewrite Hd, Hr. simpl. rewrite HR. simpl. split_and!.
    + done.
    + by apply list_lookup_insert_eq.
    + intros b Hb. by apply list_lookup_insert_ne.
  - exists (<[r := None]> hp).
    unfold array2D_dtor. rewrite Hd, Hr. simpl. rewrite HR. simpl. split_and!.
    + done.
    + by apply list_lookup_insert_eq.
    + intros b Hb. by apply list_lookup_insert_ne.
Qed.

Lemma from_ref_referencing w h source hp0 (R : list cell) :
  0 <= h -> length R = Z.to_nat h ->
  (forall y, 0 <= y < h ->
     exists p, load_row hp0 (ptr_add source y) = Ok p /\
               R !! Z.to_nat y = Some (Row p)) ->
  referencing (mk_array2D w h (Ptr (length hp0) 0) Null) source
              (hp0 ++ [Some R]).
Proof.
  intros Hh HlenR Hent. split; [done|]. exists (length hp0), R. split_and!.
  - done.
  - by apply list_lookup_middle.
  - simpl. lia.
  - simpl. intros y Hy. destruct (Hent y Hy) as (p & Hp & HR).
    exists p. split; [|done]. apply load_row_Ok. apply load_row_Ok in Hp.
    rewrite (load_old hp0); [done| |].
    + by eapply load_Ok_points_into.
    + intros b Hb. by apply lookup_older.
Qed.

(** ** multi_array2D *)

Lemma has_flag_to_uint flags :
  has_flag (to_uint flags) ARRAY2D_CLEAR_DATA = has_flag flags ARRAY2D_CLEAR_DATA.
Proof.
  unfold has_flag, to_uint, ARRAY2D_CLEAR_DATA.
  rewrite <- Z.land_ones by lia. rewrite <- Z.land_assoc. done.
Qed.

Lemma op_call_to_uint a w h flags off hp :
  op_call zero a w h (to_uint flags) off hp = op_call zero a w h flags off hp.
Proof. unfold op_call. by rewrite has_flag_to_uint. Qed.

Lemma slot_offset_small i offset :
  0 <= i -> i + 1 < 2 ^ 64 -> 0 <= offset -> (i + 1) * offset < 2 ^ 31 ->
  slot_offset i offset = (i + 1) * offset.
Proof.
  intros Hi Hi1 Hoff Hprod. unfold slot_offset, add64, to_int.
  assert (offset < 2 ^ 31) by nia.
  rewrite (wrap_small (i + 1)) by lia. rewrite (wrap_small offset) by lia.
  rewrite mul64_small by nia.
  rewrite Z.mod_small by nia. lia.
Qed.

Lemma owning_live a off hp :
  owning a off hp ->
  exists d r, data a = Ptr d 0 /\ rows a = Ptr r 0 /\
              (d < length hp)%nat /\ (r < length hp)%nat.
Proof.
  intros ((d & r & R & Hd & Hr & Hdr & HR & Hent) & _ & _ & _
          & d' & D & Hd' & HD & _).
  assert (d' = d) as -> by congruence.
  exists d, r. split_and!; try done; by eapply lookup_lt_Some.
Qed.

Lemma owning_frame a off hp hp' :
  owning a off hp ->
  (forall b, (b < length hp)%nat -> hp' !! b = hp !! b) ->
  owning a off hp'.
Proof.
  intros ((d & r & R & Hd & Hr & Hdr & HR & Hent) & Hw & Hh & Hoff
          & d' & D & Hd' & HD & Hlen) Hfr.
  split.
  - exists d, r, R. split_and!; try done.
    rewrite Hfr; [done|]. by eapply lookup_lt_Some.
  - split_and!; try done. exists d', D. split_and!; try done.
    rewrite Hfr; [done|]. by eapply lookup_lt_Some.
Qed.

Lemma get_frame a off hp hp' y x :
  owning a off hp ->
  (forall b, (b < length hp)%nat -> hp' !! b = hp !! b) ->
  0 <= y < height a ->
  get a y x hp' = get a y x hp.
Proof.
  intros Hown Hfr Hy.
  pose proof (owning_frame a off hp hp' Hown Hfr) as Hown'.
  destruct (owning_live a off hp Hown) as (d & r & Hd & Hr & Hdl & Hrl).
  destruct Hown as (Hinv & _). destruct Hown' as (Hinv' & _).
  rewrite !(get_flat a off) by done. unfold flat_get, op_flat, load_elem.
  f_equal. apply load_agree. rewrite Hd. simpl. intros b o [= <- _].
  by apply Hfr.
Qed.

Lemma fresh_in_older p hp hp' :
  fresh_in p hp' -> (length hp <= length hp')%nat -> fresh_in p hp.
Proof. intros (b & -> & Hb) Hle. exists b. split; [done|lia]. Qed.

Lemma fresh_not_live a off hp b :
  owning a off hp -> fresh_in b hp ->
  data a <> b /\ rows a <> b.
Proof.
  intros (d & r & Hd & Hr & Hdl & Hrl)%owning_live (b' & -> & Hb).
  rewrite Hd, Hr. split; intros [= ->]; lia.
Qed.

Lemma multi_index_lookup num (l : list array2D) i a :
  0 <= i < num -> num < 2 ^ 64 ->
  multi_index num l i = Ok a <-> l !! Z.to_nat i = Some a.
Proof.
  intros Hi Hnum. unfold multi_index. rewrite wrap_small by lia.
  destruct (Z.ltb_spec i num); [|lia].
  destruct (Z.leb_spec 0 i); [|lia].
  destruct (l !! Z.to_nat i); split; intros; simplify_eq; done.
Qed.

(** A loop of stores into one allocation leaves the others alone. *)
Lemma store_loop_frame (l : list Z) r (locf : Z -> Z) (valf : Z -> cell) :
  forall hp hp',
    for_each l (fun i hp => store hp (Ptr r (locf i)) (valf i)) hp = Ok hp' ->
    forall b, b <> r -> hp' !! b = hp !! b.
Proof.
  induction l as [|i l IH]; intros hp hp' Hrun b Hb.
  - by injection Hrun as <-.
  - change (store hp (Ptr r (locf i)) (valf i) ≫=
              for_each l (fun i hp => store hp (Ptr r (locf i)) (valf i))
            = Ok hp') in Hrun.
    destruct (store hp (Ptr r (locf i)) (valf i)) as [h1|e] eqn:E;
      [|discriminate Hrun].
    rewrite res_bind_Ok in Hrun. rewrite (IH h1 hp' Hrun b Hb).
    by apply (store_lookup_other _ _ _ _ _ b E).
Qed.

(** What a call of [operator()] that returns has left behind, whether it
    cleared or not: the instance [ar_realloc] built, a row table that
    follows the buffer, and the reuse decisions. *)
Lemma op_call_result a w h flags off hp a' hp' :
  inst_ok a hp -> 0 <= w -> 0 <= h -> w * h < 2 ^ 64 ->
  op_call zero a w h flags off hp = Ok (a', hp') ->
  exists r d (R : list cell) hp1,
    a' = mk_array2D w h (Ptr r 0) (Ptr d 0) /\
    ar_realloc a w h off hp = Ok (a', hp1) /\
    r <> d /\
    hp' !! r = Some (Some R) /\
    h <= Z.of_nat (length R) /\
    (forall i, 0 <= i < h ->
       R !! Z.to_nat i = Some (Row (Ptr d (off + i * w)))) /\
    (if keeps_rows a h then rows a = Ptr r 0 else (length hp <= r)%nat) /\
    (if keeps_data a w h then data a = Ptr d 0 else (length hp <= d)%nat) /\
    (forall b, b <> d -> hp' !! b = hp1 !! b) /\
    (forall b, (b < length hp)%nat -> rows a <> Ptr b 0 -> data a <> Ptr b 0 ->
       hp' !! b = hp !! b).
Proof.
  intros Hok Hw Hh Hwh Hrun.
  destruct (ar_realloc_spec a w h off hp Hok Hw Hh Hwh)
    as (r & d & R & D & hp1 & Hrun1 & Hrd & HR & HD & HhR & Hent & Hkr & Hkd
        & Hlen & Hfr).
  assert (Hsame : a' = mk_array2D w h (Ptr r 0) (Ptr d 0) /\
                  forall b, b <> d -> hp' !! b = hp1 !! b).
  { unfold op_call in Hrun. rewrite Hrun1, res_bind_Ok in Hrun.
    cbv beta iota in Hrun.
    destruct (has_flag flags ARRAY2D_CLEAR_DATA).
    - match type of Hrun with
      | (memset0 zero ?p ?n hp1 ≫= _) = _ =>
          destruct (memset0 zero p n hp1) as [hpM|e] eqn:Eset; [|done]
      end.
      rewrite res_bind_Ok in Hrun. injection Hrun as <- <-.
      split; [done|]. intros b Hb. unfold memset0, for_range in Eset.
      exact (store_loop_frame _ d (fun i => 0 + off + i) _ hp1 hpM Eset b Hb).
    - by injection Hrun as <- <-. }
  destruct Hsame as [-> Hfr'].
  assert (Hkd' : if keeps_data a w h then data a = Ptr d 0
                 else (length hp <= d)%nat).
  { destruct (keeps_data a w h); by destruct Hkd. }
  exists r, d, R, hp1. split_and!; try done.
  - by rewrite Hfr'.
  - intros b Hb Hbr Hbd. rewrite Hfr'; [by apply Hfr|]. intros ->.
    destruct (keeps_data a w h); [done|lia].
Qed.

(** ** The states of the class *)

(** [inst_ok] holds of a default-constructed instance (above) and of what
    the other constructors build, and [operator()] and [free()] keep it. *)
Lemma op_call_inst_ok a w h flags off hp a' hp' :
  inst_ok a hp -> 0 <= w -> 0 <= h -> w * h < 2 ^ 64 ->
  clear_fits a w h flags off hp ->
  op_call zero a w h flags off hp = Ok (a', hp') ->
  inst_ok a' hp'.
Proof.
  intros Hok Hw Hh Hwh Hclear Hrun.
  destruct (op_call_spec a w h flags off hp Hok Hw Hh Hwh Hclear)
    as (r & d & R & D & hp2 & Hrun2 & Hrd & HR & HD & HhR & _).
  rewrite Hrun in Hrun2. injection Hrun2 as -> ->.
  unfold inst_ok. simpl. split_and!.
  - right. by exists r, R.
  - right. by exists d, D.
  - right. congruence.
  - intros r' R' [= <-] HR'. congruence.
Qed.

Lemma free_inst_ok a hp a' hp' :
  free a hp = Ok (a', hp') -> inst_ok a' hp'.
Proof.
  unfold free. destruct (delete_array (data a) hp) as [hp1|]; [|done].
  rewrite res_bind_Ok.
  destruct (delete_array (rows a) hp1) as [hp2|]; [|done].
  rewrite res_bind_Ok. intros [= <- <-].
  unfold inst_ok. simpl. split_and!; [by left|by left|by left|done].
Qed.

Lemma array2D_from_inst_ok w h source flags hp a hp' :
  0 <= w -> 0 <= h -> w * h < 2 ^ 64 ->
  source_ok (T:=T) source w h hp ->
  array2D_from w h source flags hp = Ok (a, hp') ->
  inst_ok a hp'.
Proof.
  intros Hw Hh Hwh Hsrc Hrun.
  destruct (has_flag flags ARRAY2D_BYREFERENCE) eqn:Hflag.
  - destruct (array2D_from_ref_spec w h source flags hp Hflag Hh)
      as (R & Hrun2 & HlenR & Hent).
    { intros y Hy. destruct (Hsrc y Hy) as (p & Hp & _). by exists p. }
    rewrite Hrun in Hrun2. injection Hrun2 as -> ->.
    apply (referencing_inst_ok _ source). by apply from_ref_referencing.
  - destruct (array2D_from_copy_spec w h source flags hp Hflag Hw Hh Hwh Hsrc)
      as (R & D & Hrun2 & HlenR & HlenD & Hrows & _).
    rewrite Hrun in Hrun2. injection Hrun2 as -> ->.
    unfold inst_ok. simpl. split_and!.
    + right. exists (Datatypes.S (length hp)), R. split; [done|].
      apply lookup_last_two_r.
    + right. exists (length hp), D. split; [done|]. apply lookup_last_two_l.
    + right. intros [= Heq]. lia.
    + intros r' R' [= <-] HR'. rewrite lookup_last_two_r in HR'.
      injection HR' as <-. lia.
Qed.

(** ** The statements *)

(** C1, as amended: on every state of the class [free()] succeeds, releases
    the buffer and the row table and leaves both pointers null: afterwards
    the two allocations the instance held are dead, and every other
    allocation of the free store is as it was.  It does not touch [width]
    and [height], so [getWidth()], [getHeight()] and the boolean view still
    report the shape from before the call; a second [free()] changes
    nothing, neither the instance nor the free store. *)
Theorem free_releases_and_is_idempotent a hp :
  inst_ok a hp ->
  exists a' hp',
    free a hp = Ok (a', hp') /\
    op_flat a' = Null /\ op_rows a' = Null /\
    getWidth a' = getWidth a /\ getHeight a' = getHeight a /\
    op_bool a' = op_bool a /\
    length hp' = length hp /\
    (forall b, data a = Ptr b 0 \/ rows a = Ptr b 0 -> hp' !! b = Some None) /\
    (forall b, data a <> Ptr b 0 -> rows a <> Ptr b 0 -> hp' !! b = hp !! b) /\
    free a' hp' = Ok (a', hp').
Proof.
  intros Hok.
  destruct (release_both a hp Hok) as (hp1 & hp2 & E1 & E2 & Hlen & Hfr).
  pose proof (release_both_dead a hp hp1 hp2 Hok E1 E2) as Hdead.
  exists (mk_array2D (width a) (height a) Null Null), hp2.
  unfold free. rewrite E1, res_bind_Ok, E2. by split_and!.
Qed.


(** C3, as amended: a referencing instance does become an owning one when
    it is resized: [operator()] gives it a buffer that did not exist before
    and points every row into it, leaving the memory of the source as it
    was.  [free()], the other member function that changes the instance,
    leaves [data] null. *)
Theorem resize_makes_referencing_owning a source w h flags off hp :
  referencing a source hp ->
  0 <= w -> 0 <= h -> 0 <= off -> w * h + off < 2 ^ 64 ->
  (exists a' hp',
     op_call zero a w h flags off hp = Ok (a', hp') /\
     getWidth a' = w /\ getHeight a' = h /\
     owning a' off hp' /\ fresh_in (op_flat a') hp /\
     (forall b, (b < length hp)%nat -> rows a <> Ptr b 0 ->
        hp' !! b = hp !! b)) /\
  (exists a1 hp1, free a hp = Ok (a1, hp1) /\ op_flat a1 = Null).
Proof.
  intros Href Hw Hh Hoff Hsum.
  pose proof (referencing_inst_ok a source hp Href) as Hok.
  split.
  - destruct Href as (Hnull & _).
    destruct (op_call_null_spec a w h flags off hp Hok Hnull Hw Hh Hoff Hsum)
      as (a' & hp' & Hrun & Hgw & Hgh & Hown & Hfresh & _ & _ & Hfr & _).
    exists a', hp'. by split_and!.
  - destruct (release_both a hp Hok) as (hp1 & hp2 & E1 & E2 & _ & _).
    exists (mk_array2D (width a) (height a) Null Null), hp2.
    unfold free. by rewrite E1, res_bind_Ok, E2.
Qed.

(** C4: built from an [h]-entry table of rows of [w] elements, the array
    reads [a[y][x] = source[y][x]].  Without [BYREFERENCE] the instance
    owns a copy: a later store into any memory that existed before the
    construction is not seen through the array, and a store through the
    array changes none of that memory.  With [BYREFERENCE] the table holds
    the source's row pointers: after [source[y][x] = v] the array reads
    [v] at [(x, y)] and agrees with the source everywhere. *)
Theorem construct_from_rows w h source flags hp0 :
  0 <= w -> 0 <= h -> w * h < 2 ^ 64 ->
  source_ok (T:=T) source w h hp0 ->
  exists a hp,
    array2D_from w h source flags hp0 = Ok (a, hp) /\
    getWidth a = w /\ getHeight a = h /\
    (forall y x, 0 <= y < h -> 0 <= x < w ->
       get a y x hp = src_get source y x hp0) /\
    (has_flag flags ARRAY2D_BYREFERENCE = false ->
     owning a 0 hp /\
     (forall p c hp', points_into p hp0 -> store hp p c = Ok hp' ->
        forall y x, 0 <= y < h -> 0 <= x < w ->
          get a y x hp' = get a y x hp) /\
     (forall y x v hp', 0 <= y < h -> 0 <= x < w ->
        set a y x v hp = Ok hp' ->
        forall p, points_into p hp0 -> load hp' p = load hp0 p)) /\
    (has_flag flags ARRAY2D_BYREFERENCE = true ->
     referencing a source hp /\
     (forall y x v hp', 0 <= y < h -> 0 <= x < w ->
        src_set source y x v hp = Ok hp' ->
        get a y x hp' = Ok v /\
        forall y' x', 0 <= y' < h -> 0 <= x' < w ->
          get a y' x' hp' = src_get source y' x' hp')).
Proof.
  intros Hw Hh Hwh Hsrc. assert (Hn : 0 <= w * h) by nia.
  destruct (has_flag flags ARRAY2D_BYREFERENCE) eqn:Hflag.
  - (* a view of the source *)
    destruct (array2D_from_ref_spec w h source flags hp0 Hflag Hh)
      as (R & Hrun & HlenR & Hent).
    { intros y Hy. destruct (Hsrc y Hy) as (p & Hp & _). by exists p. }
    set (a := mk_array2D w h (Ptr (length hp0) 0) Null).
    set (hp := hp0 ++ [Some R]).
    assert (Hold : forall q, points_into q hp0 -> load hp q = load hp0 q).
    { intros q Hq. apply (load_old hp0); [done|].
      intros b Hb. by apply lookup_older. }
    assert (Hrow : forall y, 0 <= y < h ->
              exists p, load_row hp (ptr_add source y) = Ok p /\
                        load_row hp0 (ptr_add source y) = Ok p /\
                        load_row hp (ptr_add (rows a) y) = Ok p /\
                        forall x, 0 <= x < w ->
                          exists v, load_elem hp0 (ptr_add p x) = Ok v /\
                                    load_elem hp (ptr_add p x) = Ok v).
    { intros y Hy. destruct (Hsrc y Hy) as (p & Hp & Hcells).
      destruct (Hent y Hy) as (p' & Hp' & HR).
      assert (p' = p) as -> by congruence.
      exists p. split_and!.
      - apply load_row_Ok. apply load_row_Ok in Hp.
        rewrite Hold; [done|]. by eapply load_Ok_points_into.
      - done.
      - apply load_row_Ok. simpl.
        apply (load_cell _ _ _ R); [by apply list_lookup_middle|lia|done].
      - intros x Hx. destruct (Hcells x Hx) as (v & Hv). exists v.
        split; [done|]. apply load_elem_Ok. apply load_elem_Ok in Hv.
        rewrite Hold; [done|]. by eapply load_Ok_points_into. }
    assert (Hget : forall hp' y x p, 0 <= y < h ->
              load_row hp' (ptr_add (rows a) y) = Ok p ->
              get a y x hp' = load_elem hp' (ptr_add p x)).
    { intros hp' y x p Hy Hp. unfold get, op_index. simpl height.
      destruct (Z.leb_spec 0 y); [|lia].
      destruct (Z.ltb_spec y h); [|lia]. simpl andb. cbv iota.
      by rewrite Hp, res_bind_Ok. }
    exists a, hp. split; [exact Hrun|]. split_and!; try done.
    + intros y x Hy Hx. destruct (Hrow y Hy) as (p & _ & Hp0 & Hpa & Hcells).
      destruct (Hcells x Hx) as (v & Hv0 & Hv).
      rewrite (Hget hp y x p Hy Hpa), Hv. unfold src_get.
      by rewrite Hp0, res_bind_Ok.
    + intros _. split.
      * split; [done|]. exists (length hp0), R. split_and!.
        -- done.
        -- by apply list_lookup_middle.
        -- simpl. lia.
        -- intros y Hy. simpl in Hy.
           destruct (Hrow y Hy) as (p & Hp & Hp0 & _). exists p.
           split; [done|].
           destruct (Hent y Hy) as (p' & Hp' & HR). congruence.
      * intros y x v hp' Hy Hx Hset.
        destruct (Hrow y Hy) as (p & Hp & Hp0 & Hpa & Hcells).
        unfold src_set in Hset. rewrite Hp, res_bind_Ok in Hset.
        destruct (Hcells x Hx) as (v0 & Hv00 & Hv0).
        assert (Hq : points_into (ptr_add p x) hp0).
        { apply load_elem_Ok in Hv00. by eapply load_Ok_points_into. }
        assert (Htab : forall y', 0 <= y' < h ->
                  load hp' (ptr_add (rows a) y') = load hp (ptr_add (rows a) y')).
        { intros y' Hy'. apply (load_store_other _ _ _ _ _ Hset).
          destruct Hq as (b & o & Hbo & Hb). rewrite Hbo. simpl.
          intros [= -> _]. lia. }
        assert (Hsrc' : forall y', 0 <= y' < h ->
                  load hp' (ptr_add source y') = load hp (ptr_add source y')).
        { intros y' Hy'. apply (load_store_other _ _ _ _ _ Hset).
          intros Heq. destruct (Hrow y' Hy') as (p' & Hp' & _).
          apply load_row_Ok in Hp'. apply load_elem_Ok in Hv0.
          rewrite Heq in Hv0. congruence. }
        assert (Hpa' : forall y' p', 0 <= y' < h ->
                  load_row hp (ptr_add (rows a) y') = Ok p' ->
                  load_row hp' (ptr_add (rows a) y') = Ok p').
        { intros y' p' Hy' Hp'. apply load_row_Ok. rewrite Htab by done.
          by apply load_row_Ok. }
        split.
        -- rewrite (Hget hp' y x p Hy (Hpa' y p Hy Hpa)).
           apply load_elem_Ok. by apply (load_store_same _ _ _ _ Hset).
        -- intros y' x' Hy' Hx'.
           destruct (Hrow y' Hy') as (p' & Hp' & _ & Hpa2 & _).
           rewrite (Hget hp' y' x' p' Hy' (Hpa' y' p' Hy' Hpa2)).
           unfold src_get.
           assert (E : load_row hp' (ptr_add source y') = Ok p').
           { apply load_row_Ok. rewrite Hsrc' by done. by apply load_row_Ok. }
           by rewrite E, res_bind_Ok.
  - (* a copy of the source *)
    destruct (array2D_from_copy_spec w h source flags hp0 Hflag Hw Hh Hwh Hsrc)
      as (R & D & Hrun & HlenR & HlenD & Hrows & Hcells).
    set (d := length hp0). set (r := Datatypes.S (length hp0)).
    set (a := mk_array2D w h (Ptr r 0) (Ptr d 0)).
    set (hp := hp0 ++ [Some D; Some R]).
    assert (Hinv : rows_inv a 0 hp).
    { exists d, r, R.
      split_and!; [done|done|unfold d, r; lia|apply lookup_last_two_r|done]. }
    assert (Hown : owning a 0 hp).
    { split; [done|]. split_and!; try done. exists d, D. split_and!.
      - done.
      - apply lookup_last_two_l.
      - simpl. lia. }
    exists a, hp. split; [exact Hrun|]. split_and!; try done.
    + intros y x Hy Hx. rewrite (get_flat a 0) by done.
      destruct (Hcells y x Hy Hx) as (v & -> & HD).
      unfold flat_get, op_flat. simpl. apply load_elem_Ok.
      apply (load_cell _ _ _ D); [apply lookup_last_two_l|nia|done].
    + intros _. split; [done|]. split.
      * intros p c hp' (b & o & -> & Hb) Hst y x Hy Hx.
        assert (Hinv' : rows_inv a 0 hp').
        { exists d, r, R. split_and!; [done|done|unfold d, r; lia| |done].
          rewrite (store_lookup_other _ _ _ _ _ r Hst) by (unfold r; lia).
          apply lookup_last_two_r. }
        rewrite !(get_flat a 0) by done. unfold flat_get, load_elem.
        f_equal. apply load_agree. simpl. intros b' o' [= <- _].
        apply (store_lookup_other _ _ _ _ _ d Hst). unfold d. lia.
      * intros y x v hp' Hy Hx Hset p (b & o & -> & Hb).
        rewrite (set_flat a 0) in Hset by done. simpl in Hset.
        apply load_agree. intros b' o' [= <- _].
        rewrite (store_lookup_other _ _ _ _ _ b Hset) by (unfold d; lia).
        by apply lookup_older.
Qed.

(** C5, as amended: after the sized constructor and after the copying
    constructor, row [i] of the table is [data + i * width] and [a[y][x]]
    is cell [y * w + x] of the flat view;
    after every call of [operator()] with offset [off] that returns, on
    any state of the class and with any flags, row [i] is
    [data + off + i * width] and [a[y][x]] is cell [off + y * w + x] of the
    flat view, which is cell [y * w + x] only when [off] is 0.  The call
    returns unless it is asked to clear a region that does not fit the
    buffer it keeps. *)
Theorem rows_follow_data a w h flags off hp :
  inst_ok a hp -> 0 <= w -> 0 <= h -> w * h < 2 ^ 64 ->
  (exists a1 hp1,
     array2D_sized zero w h flags hp = Ok (a1, hp1) /\
     getWidth a1 = w /\ getHeight a1 = h /\
     rows_inv a1 0 hp1 /\
     forall y x, 0 <= y < h -> 0 <= x < w ->
       get a1 y x hp1 = flat_get a1 (y * w + x) hp1) /\
  (forall source flags',
     source_ok (T:=T) source w h hp ->
     has_flag flags' ARRAY2D_BYREFERENCE = false ->
     exists a3 hp3,
       array2D_from w h source flags' hp = Ok (a3, hp3) /\
       getWidth a3 = w /\ getHeight a3 = h /\
       rows_inv a3 0 hp3 /\
       forall y x, 0 <= y < h -> 0 <= x < w ->
         get a3 y x hp3 = flat_get a3 (y * w + x) hp3) /\
  (clear_fits a w h flags off hp ->
   exists a2 hp2, op_call zero a w h flags off hp = Ok (a2, hp2)) /\
  (forall a2 hp2,
     op_call zero a w h flags off hp = Ok (a2, hp2) ->
     getWidth a2 = w /\ getHeight a2 = h /\
     rows_inv a2 off hp2 /\
     forall y x, 0 <= y < h -> 0 <= x < w ->
       get a2 y x hp2 = flat_get a2 (off + y * w + x) hp2).
Proof.
  intros Hok Hw Hh Hwh. split; [|split; [|split]].
  2:{ intros source flags' Hsrc Hflag.
      destruct (array2D_from_copy_spec w h source flags' hp Hflag Hw Hh Hwh Hsrc)
        as (R & D & Hrun & _ & _ & Hrows & _).
      eexists _, _. split; [exact Hrun|].
      assert (Hinv : rows_inv
                (mk_array2D w h (Ptr (Datatypes.S (length hp)) 0)
                            (Ptr (length hp) 0)) 0
                (hp ++ [Some D; Some R])).
      { exists (length hp), (Datatypes.S (length hp)), R.
        split_and!; [done|done|lia|apply lookup_last_two_r|done]. }
      split_and!; try done.
      intros y x Hy Hx. by rewrite (get_flat _ 0 (hp ++ [Some D; Some R])). }
  - destruct (array2D_sized_spec w h flags hp Hw Hh Hwh)
      as (R & D & hp1 & Hrun & HR & HD & HlenR & HlenD & Hent & _ & _ & _).
    eexists _, hp1. split; [exact Hrun|].
    assert (Hinv : rows_inv
              (mk_array2D w h (Ptr (Datatypes.S (length hp)) 0)
                          (Ptr (length hp) 0)) 0 hp1).
    { exists (length hp), (Datatypes.S (length hp)), R.
      split_and!; done || lia. }
    split_and!; try done.
    intros y x Hy Hx. by rewrite (get_flat _ 0 hp1).
  - intros Hclear.
    destruct (op_call_spec a w h flags off hp Hok Hw Hh Hwh Hclear)
      as (r & d & R & D & hp2 & Hrun & _).
    by eexists _, hp2.
  - intros a2 hp2 Hrun.
    destruct (op_call_result a w h flags off hp a2 hp2 Hok Hw Hh Hwh Hrun)
      as (r & d & R & hp1 & -> & _ & Hrd & HR & HhR & Hent & _).
    assert (Hinv : rows_inv (mk_array2D w h (Ptr r 0) (Ptr d 0)) off hp2).
    { exists d, r, R. split_and!; done || congruence. }
    split_and!; try done.
    intros y x Hy Hx. by rewrite (get_flat _ off hp2).
Qed.

(** C6, as amended: on an owning instance whose [width * height]
    elements, placed at the offset of its rows, all lie inside its buffer,
    [a[y][x] = v] at a valid coordinate succeeds, [a[y][x]] then reads [v],
    and every other valid coordinate reads what it read before. *)
Theorem write_then_read a off hp y x (v : T) :
  owning a off hp -> 0 <= x < width a -> 0 <= y < height a ->
  exists hp',
    set a y x v hp = Ok hp' /\
    get a y x hp' = Ok v /\
    (forall y' x', 0 <= x' < width a -> 0 <= y' < height a ->
       (x', y') <> (x, y) -> get a y' x' hp' = get a y' x' hp) /\
    owning a off hp'.
Proof.
  intros (Hinv & Hw & Hh & Hoff & d & D & Hd & HD & Hlen) Hx Hy.
  assert (Hin : 0 <= off + y * width a + x < Z.of_nat (length D)) by nia.
  pose proof (store_block hp d _ D (Elem v) HD Hin) as Hst.
  set (hp' := <[d := Some (<[Z.to_nat (off + y * width a + x) := Elem v]> D)]> hp)
    in Hst.
  assert (Hinv' : rows_inv a off hp').
  { destruct Hinv as (d0 & r & R & Hd0 & Hr & Hdr & HR & Hent).
    exists d0, r, R. split_and!; try done.
    assert (d0 = d) as -> by congruence.
    unfold hp'. by rewrite list_lookup_insert_ne. }
  assert (Hset : set a y x v hp = Ok hp').
  { rewrite (set_flat a off) by done. unfold op_flat. rewrite Hd. simpl.
    exact Hst. }
  exists hp'. split_and!.
  - done.
  - rewrite (get_flat a off) by done. unfold flat_get, op_flat, load_elem.
    rewrite Hd. simpl ptr_add. rewrite Z.add_0_l.
    by rewrite (load_store_same _ _ _ _ Hst).
  - intros y' x' Hx' Hy' Hne.
    rewrite !(get_flat a off) by done. unfold flat_get, op_flat, load_elem.
    rewrite Hd. simpl ptr_add. rewrite !Z.add_0_l.
    rewrite (load_store_other _ _ _ _ (Ptr d (off + y' * width a + x')) Hst);
      [done|].
    intros [= Heq]. apply Hne.
    assert (y' = y) as -> by nia. f_equal. lia.
  - split; [done|]. split_and!; try done.
    exists d, (<[Z.to_nat (off + y * width a + x) := Elem v]> D).
    split_and!; [done| |].
    + unfold hp'. apply list_lookup_insert_eq. by eapply lookup_lt_Some.
    + rewrite length_insert. lia.
Qed.

(** C7, as amended: on an owning instance whose rows start at the beginning
    of the buffer (offset 0) [fill(v)] succeeds and every element
    [a[y][x]] reads [v] afterwards; the free store it leaves is the same
    whether the loop runs sequentially or its iterations complete in any
    other order.  (Whatever the offset, the cells written are
    [0 .. w*h) of the flat view.) *)
Theorem fill_sets_flat_cells a off (v : T) hp :
  owning a off hp -> width a * height a < 2 ^ 64 ->
  exists hp',
    (forall sched, fill a v false sched hp = Ok hp') /\
    (forall sched, sched ≡ₚ seqZ 0 (width a * height a) ->
       fill a v true sched hp = Ok hp') /\
    (forall i, 0 <= i < width a * height a -> flat_get a i hp' = Ok v) /\
    (off = 0 ->
     forall y x, 0 <= y < height a -> 0 <= x < width a ->
       get a y x hp' = Ok v).
Proof.
  intros Hown Hwh.
  destruct Hown as (Hinv & Hw & Hh & Hoff & d & D & Hd & HD & Hlen).
  assert (Hn : 0 <= width a * height a) by nia.
  assert (Hcap : 0 <= width a * height a <= Z.of_nat (length D)) by lia.
  destruct (fill_cells a d D v hp (seqZ 0 (width a * height a)) Hd HD Hcap)
    as (D' & Hseq & HlenD' & HD'); [intros i; apply lookup_seqZ_range|].
  exists (<[d := Some D']> hp).
  assert (Hflat : forall i, 0 <= i < width a * height a ->
            flat_get a i (<[d := Some D']> hp) = Ok v).
  { intros i Hi. unfold flat_get, op_flat, load_elem. rewrite Hd. simpl ptr_add.
    rewrite (load_cell _ d (0 + i) D' (Elem v)); [done| |lia|].
    - apply list_lookup_insert_eq. by eapply lookup_lt_Some.
    - rewrite HD'. case_decide; [done|lia]. }
  split_and!.
  - intros sched. unfold fill. rewrite mul64_small by lia. exact Hseq.
  - intros sched Hperm. unfold fill.
    destruct (fill_cells a d D v hp sched Hd HD Hcap)
      as (D2 & Hpar & HlenD2 & HD2).
    { intros i. rewrite Hperm. apply lookup_seqZ_range. }
    rewrite Hpar. do 3 f_equal. apply list_eq. intros k.
    by rewrite HD', HD2.
  - exact Hflat.
  - intros -> y x Hy Hx.
    assert (Hinv' : rows_inv a 0 (<[d := Some D']> hp)).
    { destruct Hinv as (d0 & r & R & Hd0 & Hr & Hdr & HR & Hent).
      exists d0, r, R. split_and!; try done.
      assert (d0 = d) as -> by congruence.
      by rewrite list_lookup_insert_ne. }
    rewrite (get_flat a 0) by done. apply Hflat. nia.
Qed.

(** C8: [multi_array2D<T, num>(width, height, flags, offset)] performs, for
    [i = 0 .. num-1] in turn, the call
    [list[i](width, height, flags, (i + 1) * offset)] on the
    default-constructed slot [i].  Each slot comes out as an owning
    instance of shape [(width, height)] whose rows start
    [(i + 1) * offset] cells into a buffer of its own, allocated by that
    call (cleared if [CLEAR_DATA] was asked for); no two slots share an
    allocation, and memory that existed before is untouched. *)
Theorem multi_array2D_slots num w h flags offset hp :
  0 <= num < 2 ^ 64 -> 0 <= w -> 0 <= h -> 0 <= offset ->
  num * offset < 2 ^ 31 -> w * h + num * offset < 2 ^ 64 ->
  exists l (hs : list heap) hp',
    multi_array2D_ctor zero num w h flags offset hp = Ok (l, hp') /\
    length l = Z.to_nat num /\
    hs !! 0%nat = Some hp /\ hs !! Z.to_nat num = Some hp' /\
    (forall i, 0 <= i < num ->
       exists a hi hi',
         multi_index num l i = Ok a /\
         hs !! Z.to_nat i = Some hi /\ hs !! Z.to_nat (i + 1) = Some hi' /\
         op_call zero array2D_default w h flags ((i + 1) * offset) hi
           = Ok (a, hi') /\
         getWidth a = w /\ getHeight a = h /\
         owning a ((i + 1) * offset) hp' /\
         fresh_in (op_flat a) hp /\ fresh_in (op_rows a) hp /\
         (has_flag flags ARRAY2D_CLEAR_DATA = true ->
          forall y x, 0 <= y < h -> 0 <= x < w -> get a y x hp' = Ok zero)) /\
    (forall i j a b, 0 <= i < j -> j < num ->
       multi_index num l i = Ok a -> multi_index num l j = Ok b ->
       disjoint_slots a b) /\
    (forall b, (b < length hp)%nat -> hp' !! b = hp !! b).
Proof.
  intros Hnum Hw Hh Hoff Hprod Hsum. assert (0 <= w * h) by nia.
  set (slot_ok := fun (hs : list heap) (hc : heap) (j : Z) (a : array2D) =>
    exists hj hj',
      hs !! Z.to_nat j = Some hj /\ hs !! Z.to_nat (j + 1) = Some hj' /\
      op_call zero array2D_default w h flags ((j + 1) * offset) hj
        = Ok (a, hj') /\
      getWidth a = w /\ getHeight a = h /\
      owning a ((j + 1) * offset) hc /\
      fresh_in (op_flat a) hp /\ fresh_in (op_rows a) hp /\
      (has_flag flags ARRAY2D_CLEAR_DATA = true ->
       forall y x, 0 <= y < h -> 0 <= x < w -> get a y x hc = Ok zero)).
  set (I := fun (i : Z) (s : list array2D * heap) =>
    length (fst s) = Z.to_nat num /\
    (forall j, i <= j < num -> fst s !! Z.to_nat j = Some array2D_default) /\
    (length hp <= length (snd s))%nat /\
    (forall b, (b < length hp)%nat -> snd s !! b = hp !! b) /\
    (forall j k a b, 0 <= j < k -> k < i ->
       fst s !! Z.to_nat j = Some a -> fst s !! Z.to_nat k = Some b ->
       disjoint_slots a b) /\
    exists hs : list heap,
      length hs = Datatypes.S (Z.to_nat i) /\
      hs !! 0%nat = Some hp /\ hs !! Z.to_nat i = Some (snd s) /\
      forall j, 0 <= j < i ->
        exists a, fst s !! Z.to_nat j = Some a /\ slot_ok hs (snd s) j a).
  unfold multi_array2D_ctor.
  match goal with
  | |- context [for_range num ?body ?s0] =>
      destruct (for_range_inv I body num s0 ltac:(lia)) as (s' & Hrun & HI)
  end.
  - (* before the loop *)
    unfold I. simpl. split_and!.
    + apply length_replicate.
    + intros j Hj. apply lookup_replicate_2. lia.
    + lia.
    + done.
    + intros; lia.
    + exists [hp]. split_and!; try done. intros; lia.
  - (* one call *)
    intros i [l hc] Hi (Hlen & Hdef & Hle & Hfr & Hdisj & hs & Hlhs & Hhs0
                        & Hhsi & Hslots).
    simpl in Hlen, Hdef, Hle, Hfr, Hdisj, Hhsi, Hslots.
    rewrite (Hdef i) by lia.
    rewrite op_call_to_uint, slot_offset_small by (done || nia).
    destruct (op_call_null_spec array2D_default w h flags ((i + 1) * offset) hc
                (inst_ok_default hc) eq_refl Hw Hh ltac:(nia) ltac:(nia))
      as (a' & hc' & Hcall & Hgw & Hgh & Hown & Hfd & Hfrows & Hle' & Hfr'
          & Hclr).
    rewrite Hcall, res_bind_Ok.
    eexists. split; [reflexivity|].
    assert (Hfr2 : forall b, (b < length hc)%nat -> hc' !! b = hc !! b).
    { intros b Hb. by apply Hfr'. }
    specialize (Hfrows eq_refl).
    unfold I. simpl. split_and!.
    + by rewrite length_insert.
    + intros j Hj. rewrite list_lookup_insert_ne by lia. apply Hdef. lia.
    + lia.
    + intros b Hb. rewrite Hfr2 by lia. by apply Hfr.
    + intros j k a b Hjk Hk Ha Hb.
      rewrite list_lookup_insert_ne in Ha by lia.
      destruct (decide (k = i)) as [->|Hne].
      * rewrite list_lookup_insert_eq in Hb by lia. injection Hb as <-.
        destruct (Hslots j ltac:(lia)) as (a0 & Ha0 & hj & hj' & _ & _ & _ & _
                                           & _ & Hown0 & _).
        assert (a0 = a) as -> by congruence.
        destruct (fresh_not_live a _ hc _ Hown0 Hfd) as [F1 F2].
        destruct (fresh_not_live a _ hc _ Hown0 Hfrows) as [F3 F4].
        unfold op_flat, op_rows in *. by split_and!.
      * rewrite list_lookup_insert_ne in Hb by lia.
        apply (Hdisj j k); done || lia.
    + exists (hs ++ [hc']). split_and!.
      * rewrite length_app. simpl. lia.
      * by apply lookup_app_l_Some.
      * replace (Z.to_nat (i + 1)) with (length hs) by lia.
        by apply list_lookup_middle.
      * intros j Hj. destruct (decide (j = i)) as [->|Hne].
        -- exists a'. split; [apply list_lookup_insert_eq; lia|].
           exists hc, hc'. split_and!; try done.
           ++ by apply lookup_app_l_Some.
           ++ replace (Z.to_nat (i + 1)) with (length hs) by lia.
              by apply list_lookup_middle.
           ++ by apply (fresh_in_older _ hp hc).
           ++ by apply (fresh_in_older _ hp hc).
        -- destruct (Hslots j ltac:(lia))
             as (a0 & Ha0 & hj & hj' & Hj1 & Hj2 & Hc0 & Hw0 & Hh0 & Hown0
                 & Hf1 & Hf2 & Hclr0).
           exists a0. split; [by rewrite list_lookup_insert_ne by lia|].
           exists hj, hj'. split_and!; try done.
           ++ by apply lookup_app_l_Some.
           ++ by apply lookup_app_l_Some.
           ++ by apply (owning_frame a0 _ hc).
           ++ intros Hflag y x Hy Hx.
              rewrite (get_frame a0 _ hc hc')
                by (done || (unfold getHeight in Hh0; lia)).
              by apply Hclr0.
  - (* after the loop *)
    destruct s' as [l hp'].
    destruct HI as (Hlen & _ & _ & Hfr & Hdisj & hs & _ & Hhs0 & Hhsn & Hslots).
    simpl in Hlen, Hfr, Hdisj, Hhsn, Hslots.
    rewrite Hrun. exists l, hs, hp'. split_and!; try done.
    + intros i Hi. destruct (Hslots i Hi) as (a & Ha & hj & hj' & Hrest).
      exists a, hj, hj'. split; [apply multi_index_lookup; done || lia|].
      exact Hrest.
    + intros i j a b Hij Hj Ha Hb.
      apply multi_index_lookup in Ha; [|lia|lia].
      apply multi_index_lookup in Hb; [|lia|lia].
      by apply (Hdisj i j).
Qed.

(** C9: a [BYREFERENCE] construction allocates nothing but the instance's
    own row table.  Whenever the instance is later released, by [free()]
    or by the destructor, that table is the only allocation that changes:
    all memory that existed before the construction, the source table and
    its rows among it, reads exactly as it did just before the release. *)
Theorem byreference_release_spares_source w h source flags hp0 :
  has_flag flags ARRAY2D_BYREFERENCE = true -> 0 <= h ->
  (forall y, 0 <= y < h ->
     exists p, load_row (T:=T) hp0 (ptr_add source y) = Ok p) ->
  exists a hp1,
    array2D_from w h source flags hp0 = Ok (a, hp1) /\
    referencing a source hp1 /\
    op_flat a = Null /\
    forall hp, referencing a source hp ->
      (exists a' hp',
         free a hp = Ok (a', hp') /\
         (forall b, b <> length hp0 -> hp' !! b = hp !! b) /\
         (forall p, points_into p hp0 -> load hp' p = load hp p)) /\
      (exists hp',
         array2D_dtor a hp = Ok hp' /\
         (forall b, b <> length hp0 -> hp' !! b = hp !! b) /\
         (forall p, points_into p hp0 -> load hp' p = load hp p)).
Proof.
  intros Hflag Hh Hsrc.
  destruct (array2D_from_ref_spec w h source flags hp0 Hflag Hh Hsrc)
    as (R & Hrun & HlenR & Hent).
  eexists _, _. split; [exact Hrun|].
  split; [by apply from_ref_referencing|]. split; [done|].
  intros hp Href.
  destruct (referencing_release _ _ _ Href)
    as (r & Hr & (a' & hp' & Hfree & _ & Hfr1) & (hp2 & Hdtor & _ & Hfr2)).
  injection Hr as <-.
  assert (Hloads : forall hp', (forall b, b <> length hp0 -> hp' !! b = hp !! b) ->
            forall p, points_into p hp0 -> load hp' p = load hp p).
  { intros hp3 Hfr p (b & o & -> & Hb). apply load_agree.
    intros b' o' [= <- _]. apply Hfr. lia. }
  split.
  - exists a', hp'. split_and!; [done|done|by apply Hloads].
  - exists hp2. split_and!; [done|done|by apply Hloads].
Qed.

(** C10: [fill] stores through [data] alone (the row table plays no part),
    so on a referencing instance, whose [data] is null, the first
    iteration dereferences the null pointer as soon as [width * height]
    is positive, in either mode; with [width * height == 0] the loop does
    nothing. *)
Theorem fill_needs_a_buffer a source (v : T) hp :
  referencing a source hp ->
  (forall r' mt sched,
     fill (mk_array2D (width a) (height a) r' (data a)) v mt sched hp
     = fill a v mt sched hp) /\
  (0 < mul64 (width a) (height a) ->
   (forall sched, fill a v false sched hp = Fault NullDeref) /\
   (forall sched, sched ≡ₚ seqZ 0 (mul64 (width a) (height a)) ->
      fill a v true sched hp = Fault NullDeref)) /\
  (mul64 (width a) (height a) = 0 ->
   (forall sched, fill a v false sched hp = Ok hp) /\
   (forall sched, sched ≡ₚ seqZ 0 (mul64 (width a) (height a)) ->
      fill a v true sched hp = Ok hp)).
Proof.
  intros (Hd & _). split_and!.
  - done.
  - intros Hpos.
    assert (Hne : forall l, l ≡ₚ seqZ 0 (mul64 (width a) (height a)) ->
              for_each l (fun i hp => store hp (ptr_add (data a) i) (Elem v)) hp
              = Fault NullDeref).
    { intros [|i l] Hl.
      - apply Permutation_nil_l in Hl. rewrite seqZ_cons in Hl by lia. done.
      - simpl. by rewrite Hd. }
    split.
    + intros sched. by apply Hne.
    + intros sched Hperm. by apply Hne.
  - intros Hz. unfold fill. rewrite Hz. split; [done|].
    intros sched Hperm. simpl in Hperm.
    apply Permutation_nil_r in Hperm. by subst.
Qed.

End ClassLemmas.

(** * The statements on concrete instances *)

Lemma ex_inst_ok : inst_ok ex_arr ex_heap.
Proof. exact (owning_inst_ok ex_arr 0 ex_heap ex_owning). Qed.

Lemma ex_source_ok : source_ok ex_source 2 2 ex_src_heap.
Proof.
  intros y Hy. assert (y = 0 \/ y = 1) as [->| ->] by lia.
  - exists (Ptr 0 0). split; [reflexivity|]. intros x Hx.
    assert (x = 0 \/ x = 1) as [->| ->] by lia; eexists; reflexivity.
  - exists (Ptr 1 0). split; [reflexivity|]. intros x Hx.
    assert (x = 0 \/ x = 1) as [->| ->] by lia; eexists; reflexivity.
Qed.

Lemma ex_referencing : referencing ex_ref ex_source ex_ref_heap.
Proof.
  split; [reflexivity|].
  exists 3%nat, [Row (Ptr 0 0); Row (Ptr 1 0)]. split_and!.
  - reflexivity.
  - reflexivity.
  - simpl. lia.
  - simpl. intros y Hy. assert (y = 0 \/ y = 1) as [->| ->] by lia.
    + exists (Ptr 0 0). split; reflexivity.
    + exists (Ptr 1 0). split; reflexivity.
Qed.

(** C1, as stated, fails: after [array2D<int> a(2, 3); a.free();] the
    shape queries still report 2, 3 and [true]. *)
Lemma free_keeps_shape_example :
  exists a hp a' hp',
    array2D_sized 0 2 3 0 ([] : heap Z) = Ok (a, hp) /\
    free a hp = Ok (a', hp') /\
    getWidth a' = 2 /\ getHeight a' = 3 /\ op_bool a' = true /\
    ~ (getWidth a' = 0 /\ getHeight a' = 0 /\ op_bool a' = false).
Proof.
  eexists _, _, _, _. split; [vm_compute; reflexivity|].
  split; [vm_compute; reflexivity|].
  split_and!; try reflexivity. intros (Hw & _). discriminate Hw.
Qed.

Lemma free_releases_and_is_idempotent_witness :
  inst_ok ex_arr ex_heap /\
  exists a' hp',
    free ex_arr ex_heap = Ok (a', hp') /\
    op_flat a' = Null /\ op_rows a' = Null /\
    getWidth a' = 2 /\ getHeight a' = 3 /\ op_bool a' = true /\
    hp' !! 0%nat = Some None /\ hp' !! 1%nat = Some None /\
    free a' hp' = Ok (a', hp').
Proof.
  split; [exact ex_inst_ok|].
  destruct (free_releases_and_is_idempotent ex_arr ex_heap ex_inst_ok)
    as (a' & hp' & H1 & H2 & H3 & H4 & H5 & H6 & _ & Hdead & _ & H7).
  exists a', hp'. split_and!; try done.
  - apply Hdead. by left.
  - apply Hdead. by right.
Defined.



(** C3, as stated, fails: the instance built by reference over the 2-by-2
    source owns a buffer after [r(2, 2)]. *)
Lemma referencing_resized_owns_example :
  exists a' hp',
    array2D_from 2 2 ex_source ARRAY2D_BYREFERENCE ex_src_heap
      = Ok (ex_ref, ex_ref_heap) /\
    referencing ex_ref ex_source ex_ref_heap /\
    op_call 0 ex_ref 2 2 0 0 ex_ref_heap = Ok (a', hp') /\
    op_flat a' = Ptr 4 0 /\
    owning a' 0 hp'.
Proof.
  eexists _, _. split; [vm_compute; reflexivity|].
  split; [exact ex_referencing|].
  split; [vm_compute; reflexivity|]. split; [reflexivity|].
  split; [|split_and!; simpl; try lia].
  - exists 4%nat, 3%nat, [Row (Ptr 4 0); Row (Ptr 4 2)].
    split_and!; try done. simpl. intros i Hi.
    assert (i = 0 \/ i = 1) as [->| ->] by lia; reflexivity.
  - exists 4%nat, (replicate 4 Indet). split_and!; done || (simpl; lia).
Qed.

Lemma resize_makes_referencing_owning_witness :
  referencing ex_ref ex_source ex_ref_heap /\
  0 <= 2 /\ 0 <= 0 /\ 2 * 2 + 0 < 2 ^ 64 /\
  exists a' hp',
    op_call 0 ex_ref 2 2 0 0 ex_ref_heap = Ok (a', hp') /\
    owning a' 0 hp' /\ fresh_in (op_flat a') ex_ref_heap.
Proof.
  split_and!; [exact ex_referencing|lia|lia|lia|].
  destruct (resize_makes_referencing_owning 0 ex_ref ex_source 2 2 0 0
              ex_ref_heap ex_referencing ltac:(lia) ltac:(lia) ltac:(lia)
              ltac:(lia))
    as ((a' & hp' & Hrun & _ & _ & Hown & Hfresh & _) & _).
  exists a', hp'. split_and!; done.
Defined.

Lemma construct_from_rows_witness :
  0 <= 2 /\ 2 * 2 < 2 ^ 64 /\ source_ok ex_source 2 2 ex_src_heap /\
  (exists a hp,
     array2D_from 2 2 ex_source 0 ex_src_heap = Ok (a, hp) /\
     get a 1 0 hp = src_get ex_source 1 0 ex_src_heap /\ owning a 0 hp) /\
  (exists a hp,
     array2D_from 2 2 ex_source ARRAY2D_BYREFERENCE ex_src_heap = Ok (a, hp) /\
     get a 1 0 hp = src_get ex_source 1 0 ex_src_heap /\
     referencing a ex_source hp).
Proof.
  split_and!; [lia|lia|exact ex_source_ok| |].
  - destruct (construct_from_rows 2 2 ex_source 0 ex_src_heap
                ltac:(lia) ltac:(lia) ltac:(lia) ex_source_ok)
      as (a & hp & Hrun & _ & _ & Hget & Hcopy & _).
    exists a, hp. split_and!; [exact Hrun|apply Hget; lia|].
    by destruct (Hcopy eq_refl).
  - destruct (construct_from_rows 2 2 ex_source ARRAY2D_BYREFERENCE ex_src_heap
                ltac:(lia) ltac:(lia) ltac:(lia) ex_source_ok)
      as (a & hp & Hrun & _ & _ & Hget & _ & Href).
    exists a, hp. split_and!; [exact Hrun|apply Hget; lia|].
    by destruct (Href eq_refl).
Defined.

(** C5, as stated, fails for a nonzero offset: after
    [a(2, 1, ARRAY2D_CLEAR_DATA, 1); a[0][1] = 5;] the row table does obey
    [rows[i] = data + 1 + i * width], yet cell [0 * 2 + 1] of the flat view
    holds 0 where [a[0][1]] holds 5. *)
Lemma flat_view_ignores_offset_example :
  exists a hp hp',
    op_call 0 array2D_default 2 1 ARRAY2D_CLEAR_DATA 1 ([] : heap Z)
      = Ok (a, hp) /\
    rows_inv a 1 hp /\
    set a 0 1 5 hp = Ok hp' /\
    get a 0 1 hp' = Ok 5 /\
    flat_get a (0 * 2 + 1) hp' = Ok 0 /\
    get a 0 1 hp' <> flat_get a (0 * 2 + 1) hp'.
Proof.
  eexists _, _, _. split; [vm_compute; reflexivity|]. split.
  { exists 1%nat, 0%nat, [Row (Ptr 1 1)]. split_and!; try done.
    simpl. intros i Hi. assert (i = 0) as -> by lia. reflexivity. }
  split; [vm_compute; reflexivity|].
  split_and!; [reflexivity|reflexivity|]. vm_compute. discriminate.
Qed.

Lemma rows_follow_data_witness :
  inst_ok array2D_default ([] : heap Z) /\ 0 <= 2 /\ 0 <= 1 /\
  2 * 1 < 2 ^ 64 /\
  clear_fits array2D_default 2 1 0 1 ([] : heap Z) /\
  (exists a1 hp1,
     array2D_sized 0 2 1 0 ([] : heap Z) = Ok (a1, hp1) /\
     rows_inv a1 0 hp1) /\
  (exists a2 hp2,
     op_call 0 array2D_default 2 1 0 1 ([] : heap Z) = Ok (a2, hp2) /\
     rows_inv a2 1 hp2 /\
     get a2 0 1 hp2 = flat_get a2 (1 + 0 * 2 + 1) hp2).
Proof.
  assert (Hc : clear_fits array2D_default 2 1 0 1 ([] : heap Z))
    by (intros Hf; vm_compute in Hf; discriminate Hf).
  destruct (rows_follow_data 0 array2D_default 2 1 0 1 []
              (inst_ok_default []) ltac:(lia) ltac:(lia) ltac:(lia))
    as ((a1 & hp1 & Hrun1 & _ & _ & Hinv1 & _) & _ & Hret & Hres).
  destruct (Hret Hc) as (a2 & hp2 & Hrun2).
  destruct (Hres a2 hp2 Hrun2) as (_ & _ & Hinv2 & Hget2).
  split_and!; [exact (inst_ok_default [])|lia|lia|lia|exact Hc| |].
  - by exists a1, hp1.
  - exists a2, hp2. split_and!; [done|done|apply Hget2; lia].
Defined.

(** C6, as stated, fails on an owning instance whose rows run past the end
    of its buffer.  [array2D<int> a(2, 3); a(2, 3, 0, 1);] keeps the six
    cells of the buffer, since the element count has not changed, and moves
    the rows one cell up; the instance still owns its buffer and its row
    table follows it, but the valid coordinate [(1, 2)] is now cell 6, one
    past the end, and [a[2][1] = 7] writes outside the buffer. *)
Lemma write_past_kept_buffer_example :
  exists a hp a' hp',
    array2D_sized 0 2 3 0 ([] : heap Z) = Ok (a, hp) /\
    op_call 0 a 2 3 0 1 hp = Ok (a', hp') /\
    op_flat a' = op_flat a /\ op_flat a' <> Null /\
    rows_inv a' 1 hp' /\
    0 <= 1 < getWidth a' /\ 0 <= 2 < getHeight a' /\
    set a' 2 1 7 hp' = Fault OutOfBounds /\
    ~ (exists hp'', set a' 2 1 7 hp' = Ok hp'' /\ get a' 2 1 hp'' = Ok 7).
Proof.
  eexists _, _, _, _. split; [vm_compute; reflexivity|].
  split; [vm_compute; reflexivity|]. split; [reflexivity|].
  split; [discriminate|]. split.
  { exists 0%nat, 1%nat, [Row (Ptr 0 1); Row (Ptr 0 3); Row (Ptr 0 5)].
    split_and!; try done. simpl. intros i Hi.
    assert (i = 0 \/ i = 1 \/ i = 2) as [->|[->| ->]] by lia; reflexivity. }
  split; [simpl; lia|]. split; [simpl; lia|]. split; [reflexivity|].
  intros (hp'' & Hset & _). vm_compute in Hset. discriminate Hset.
Qed.

Lemma write_then_read_witness :
  owning ex_arr 0 ex_heap /\ 0 <= 1 < width ex_arr /\ 0 <= 2 < height ex_arr /\
  exists hp',
    set ex_arr 2 1 7 ex_heap = Ok hp' /\
    get ex_arr 2 1 hp' = Ok 7 /\
    get ex_arr 0 0 hp' = get ex_arr 0 0 ex_heap.
Proof.
  split; [exact ex_owning|]. split; [simpl; lia|]. split; [simpl; lia|].
  destruct (write_then_read ex_arr 0 ex_heap 2 1 7 ex_owning
              ltac:(simpl; lia) ltac:(simpl; lia))
    as (hp' & Hset & Hget & Hother & _).
  exists hp'. split_and!; [done|done|].
  apply Hother; [simpl; lia|simpl; lia|]. intros [= ? ?]; lia.
Defined.

(** C7, as stated, fails on an owning instance whose rows start past the
    beginning of the buffer: after [a(2, 1, 0, 1); a.fill(9);] the element
    [a[0][1]], cell 2 of the buffer, has not been written. *)
Lemma fill_misses_shifted_rows_example :
  exists a hp hp',
    op_call 0 array2D_default 2 1 0 1 ([] : heap Z) = Ok (a, hp) /\
    owning a 1 hp /\
    fill a 9 false [] hp = Ok hp' /\
    get a 0 0 hp' = Ok 9 /\
    get a 0 1 hp' = Fault Uninitialised /\
    get a 0 1 hp' <> Ok 9.
Proof.
  eexists _, _, _. split; [vm_compute; reflexivity|]. split.
  { split; [|split_and!; simpl; try lia].
    - exists 1%nat, 0%nat, [Row (Ptr 1 1)]. split_and!; try done.
      simpl. intros i Hi. assert (i = 0) as -> by lia. reflexivity.
    - exists 1%nat, (replicate 3 Indet). split_and!; done || (simpl; lia). }
  split; [vm_compute; reflexivity|].
  split_and!; [reflexivity|reflexivity|]. vm_compute. discriminate.
Qed.

Lemma fill_sets_flat_cells_witness :
  owning ex_arr 0 ex_heap /\ width ex_arr * height ex_arr < 2 ^ 64 /\
  exists hp',
    fill ex_arr 9 false [] ex_heap = Ok hp' /\
    fill ex_arr 9 true (rev (seqZ 0 (width ex_arr * height ex_arr))) ex_heap
      = Ok hp' /\
    get ex_arr 2 1 hp' = Ok 9.
Proof.
  split_and!; [exact ex_owning|simpl; lia|].
  destruct (fill_sets_flat_cells ex_arr 0 9 ex_heap ex_owning
              ltac:(simpl; lia))
    as (hp' & Hseq & Hpar & _ & Hall).
  exists hp'. split_and!.
  - apply Hseq.
  - apply Hpar. symmetry. apply Permutation_rev.
  - apply Hall; [reflexivity|simpl; lia|simpl; lia].
Defined.

Lemma multi_array2D_slots_witness :
  0 <= 3 < 2 ^ 64 /\ 0 <= 2 /\ 0 <= 1 /\ 3 * 1 < 2 ^ 31 /\
  2 * 2 + 3 * 1 < 2 ^ 64 /\
  exists l hp',
    multi_array2D_ctor 0 3 2 2 ARRAY2D_CLEAR_DATA 1 ([] : heap Z)
      = Ok (l, hp') /\
    length l = 3%nat /\
    exists a, multi_index 3 l 2 = Ok a /\ owning a ((2 + 1) * 1) hp' /\
              get a 1 1 hp' = Ok 0.
Proof.
  split_and!; try lia.
  destruct (multi_array2D_slots 0 3 2 2 ARRAY2D_CLEAR_DATA 1 []
              ltac:(lia) ltac:(lia) ltac:(lia) ltac:(lia) ltac:(lia)
              ltac:(lia))
    as (l & hs & hp' & Hrun & Hlen & _ & _ & Hslots & _ & _).
  exists l, hp'. split_and!; [exact Hrun|exact Hlen|].
  destruct (Hslots 2 ltac:(lia))
    as (a & hi & hi' & Hidx & _ & _ & _ & _ & _ & Hown & _ & _ & Hclr).
  exists a. split_and!; [exact Hidx|exact Hown|].
  apply Hclr; [reflexivity|lia|lia].
Defined.

Lemma byreference_release_spares_source_witness :
  has_flag ARRAY2D_BYREFERENCE ARRAY2D_BYREFERENCE = true /\ 0 <= 2 /\
  (forall y, 0 <= y < 2 ->
     exists p, load_row ex_src_heap (ptr_add ex_source y) = Ok p) /\
  exists a hp1 a' hp',
    array2D_from 2 2 ex_source ARRAY2D_BYREFERENCE ex_src_heap = Ok (a, hp1) /\
    free a hp1 = Ok (a', hp') /\
    src_get ex_source 1 1 hp' = src_get ex_source 1 1 ex_src_heap.
Proof.
  assert (Hsrc : forall y, 0 <= y < 2 ->
            exists p, load_row ex_src_heap (ptr_add ex_source y) = Ok p).
  { intros y Hy. destruct (ex_source_ok y Hy) as (p & Hp & _). by exists p. }
  split_and!; [reflexivity|lia|exact Hsrc|].
  destruct (byreference_release_spares_source 2 2 ex_source
              ARRAY2D_BYREFERENCE ex_src_heap eq_refl ltac:(lia) Hsrc)
    as (a & hp1 & Hrun & Href & _ & Hrel).
  destruct (Hrel hp1 Href) as ((a' & hp' & Hfree & _ & _) & _).
  exists a, hp1, a', hp'. split_and!; [exact Hrun|exact Hfree|].
  vm_compute in Hrun. injection Hrun as <- <-.
  vm_compute in Hfree. injection Hfree as <- <-. reflexivity.
Defined.

Lemma fill_needs_a_buffer_witness :
  referencing ex_ref ex_source ex_ref_heap /\
  0 < mul64 (width ex_ref) (height ex_ref) /\
  fill ex_ref 9 false [] ex_ref_heap = Fault NullDeref.
Proof.
  split_and!; [exact ex_referencing|reflexivity|].
  destruct (fill_needs_a_buffer ex_ref ex_source 9 ex_ref_heap ex_referencing)
    as (_ & Hpos & _).
  destruct (Hpos eq_refl) as (Hseq & _). apply Hseq.
Defined.

(** * More of the class *)

Section MoreOfTheClass.

Context {T : Type}.
Variable zero : T.
Implicit Types (hp : heap T) (a : array2D) (p q : ptr).

(** The sized constructor: the shape queries report the arguments, the
    boolean view is [w > 0 && h > 0], both allocations are new and nothing
    older is touched; every element reads zero when [ARRAY2D_CLEAR_DATA]
    was given and is uninitialised otherwise. *)
Theorem sized_construction w h flags hp :
  0 <= w -> 0 <= h -> w * h < 2 ^ 64 ->
  exists a hp',
    array2D_sized zero w h flags hp = Ok (a, hp') /\
    getWidth a = w /\ getHeight a = h /\
    op_bool a = (0 <? w) && (0 <? h) /\
    fresh_in (op_flat a) hp /\ fresh_in (op_rows a) hp /\
    op_flat a <> op_rows a /\
    (forall y x, 0 <= y < h -> 0 <= x < w ->
       get a y x hp' = if has_flag flags ARRAY2D_CLEAR_DATA
                       then Ok zero else Fault Uninitialised) /\
    (forall b, (b < length hp)%nat -> hp' !! b = hp !! b).
Proof.
  intros Hw Hh Hwh.
  destruct (array2D_sized_spec zero w h flags hp Hw Hh Hwh)
    as (R & D & hp' & Hrun & HR & HD & HlenR & HlenD & Hent & Hcells & _ & Hfr).
  set (a := mk_array2D w h (Ptr (Datatypes.S (length hp)) 0) (Ptr (length hp) 0)).
  assert (Hinv : rows_inv a 0 hp').
  { exists (length hp), (Datatypes.S (length hp)), R. split_and!; done || lia. }
  exists a, hp'. split; [exact Hrun|]. split_and!; try done.
  - exists (length hp). split; [done|lia].
  - exists (Datatypes.S (length hp)). split; [done|lia].
  - unfold op_flat, op_rows. simpl. intros [= Heq]. lia.
  - intros y x Hy Hx. rewrite (get_flat a 0) by done.
    assert (Hk : 0 <= y * w + x < w * h) by nia.
    assert (Hload : load hp' (ptr_add (op_flat a) (0 + y * width a + x))
              = Ok (if has_flag flags ARRAY2D_CLEAR_DATA
                    then Elem zero else Indet)).
    { apply (load_cell hp' (length hp) _ D); [done|simpl; lia|].
      apply Hcells. simpl. lia. }
    unfold flat_get, load_elem. rewrite Hload.
    by destruct (has_flag flags ARRAY2D_CLEAR_DATA).
Qed.

(** [operator[]]: an index outside [0, height) trips the assertion, and so
    does every element access through it; an index inside yields the
    start of that row, [data + off + index * width]. *)
Theorem op_index_bounds a off hp index :
  rows_inv a off hp ->
  (0 <= index < height a ->
   exists d, op_flat a = Ptr d 0 /\
             op_index a index hp = Ok (Ptr d (off + index * width a))) /\
  (~ (0 <= index < height a) ->
   op_index a index hp = Fault AssertFailed /\
   (forall x, get a index x hp = Fault AssertFailed) /\
   (forall x (v : T), set a index x v hp = Fault AssertFailed)).
Proof.
  intros (d & r & R & Hd & Hr & Hdr & HR & Hent). split.
  - intros Hi. exists d. split; [done|]. unfold op_index.
    destruct (Z.leb_spec 0 index); [|lia].
    destruct (Z.ltb_spec index (height a)); [|lia]. simpl.
    apply load_row_Ok. rewrite Hr. simpl.
    apply (load_cell _ _ _ R); [done|lia|by apply Hent].
  - intros Hi.
    assert (E : op_index (T:=T) a index hp = Fault AssertFailed).
    { unfold op_index. destruct (Z.leb_spec 0 index); [|done].
      destruct (Z.ltb_spec index (height a)); [lia|done]. }
    split; [done|]. split; intros; unfold get, set; by rewrite E.
Qed.

Lemma dtor_spec a hp :
  inst_ok a hp ->
  exists hp',
    array2D_dtor a hp = Ok hp' /\
    length hp' = length hp /\
    (forall b, data a = Ptr b 0 \/ rows a = Ptr b 0 -> hp' !! b = Some None) /\
    (forall b, data a <> Ptr b 0 -> rows a <> Ptr b 0 -> hp' !! b = hp !! b).
Proof.
  intros Hok. pose proof Hok as (Hrows & Hdata & Hdist & _).
  destruct (delete_array_ok _ _ Hdata) as (hp1 & E1 & Hl1 & Hfr1 & Hdead1).
  assert (Hrows1 : deletable (rows a) hp1).
  { destruct Hrows as [->|(b & c & Hb & Hc)]; [by left|right].
    exists b, c. split; [done|]. rewrite Hfr1; [done|].
    destruct Hdist as [Hn|Hne]; congruence. }
  destruct (delete_array_ok _ _ Hrows1) as (hp2 & E2 & Hl2 & Hfr2 & Hdead2).
  exists hp2. split_and!.
  - unfold array2D_dtor. by rewrite E1, res_bind_Ok.
  - congruence.
  - intros b [Hb|Hb]; [|by apply Hdead2].
    destruct (decide (rows a = Ptr b 0)) as [Hr|Hr]; [by apply Hdead2|].
    rewrite Hfr2 by done. by apply Hdead1.
  - intros b Hd Hr. rewrite Hfr2 by done. by apply Hfr1.
Qed.

(** The destructor, on every state of the class: it succeeds, the
    allocations of the instance are dead afterwards and no other entry of
    the free store changes.  [free()] leaves the very same store, and a
    destructor that runs after [free()] releases nothing a second time. *)
Theorem destructor_releases_instance a hp :
  inst_ok a hp ->
  exists hp',
    array2D_dtor a hp = Ok hp' /\
    length hp' = length hp /\
    (forall b, data a = Ptr b 0 \/ rows a = Ptr b 0 -> hp' !! b = Some None) /\
    (forall b, data a <> Ptr b 0 -> rows a <> Ptr b 0 -> hp' !! b = hp !! b) /\
    exists a1, free a hp = Ok (a1, hp') /\ array2D_dtor a1 hp' = Ok hp'.
Proof.
  intros Hok.
  destruct (dtor_spec a hp Hok)
    as (hp' & Hdtor & Hlen & Hdead & Hkeep).
  exists hp'. split_and!; try done.
  exists (mk_array2D (width a) (height a) Null Null). split; [|reflexivity].
  unfold array2D_dtor in Hdtor. unfold free.
  destruct (delete_array (data a) hp) as [hp1|]; [|discriminate Hdtor].
  change (delete_array (rows a) hp1 = Ok hp') in Hdtor.
  rewrite res_bind_Ok. by rewrite Hdtor.
Qed.

(** [multi_array2D::operator[]]: for a collection of at most
    [2^64 - 2^31] slots, an [int] index inside [0, num) yields that slot
    and every other index, the negative ones included, trips the
    assertion. *)
Theorem multi_index_bounds num (l : list array2D) index :
  length l = Z.to_nat num -> 0 <= num <= 2 ^ 64 - 2 ^ 31 ->
  - 2 ^ 31 <= index < 2 ^ 31 ->
  (0 <= index < num ->
   exists a, multi_index num l index = Ok a /\ l !! Z.to_nat index = Some a) /\
  (~ (0 <= index < num) -> multi_index num l index = Fault AssertFailed).
Proof.
  intros Hlen Hnum Hidx. split.
  - intros Hi. destruct (lookup_lt_is_Some_2 l (Z.to_nat index)) as (a & Ha);
      [lia|].
    exists a. split; [|done]. apply multi_index_lookup; done || lia.
  - intros Hi. unfold multi_index.
    destruct (Z.ltb_spec (wrap index) num) as [Hlt|]; [|done].
    exfalso. unfold wrap in Hlt.
    destruct (decide (0 <= index)) as [Hpos|Hneg].
    + rewrite Z.mod_small in Hlt by lia. lia.
    + rewrite <- (Z.mod_add index 1 (2 ^ 64)) in Hlt by lia.
      rewrite Z.mod_small in Hlt by lia. lia.
Qed.

(** ** Resizing *)

Lemma op_call_no_clear a w h flags off hp :
  has_flag flags ARRAY2D_CLEAR_DATA = false ->
  op_call zero a w h flags off hp = ar_realloc a w h off hp.
Proof.
  intros Hflag. unfold op_call.
  destruct (ar_realloc a w h off hp) as [[a' hp']|e]; [|done].
  rewrite res_bind_Ok. by rewrite Hflag.
Qed.

Lemma owning_data a off hp :
  owning a off hp ->
  exists d r (D : list (cell T)),
    data a = Ptr d 0 /\ rows a = Ptr r 0 /\ hp !! d = Some (Some D) /\
    0 <= width a /\ 0 <= height a /\ 0 <= off /\
    off + width a * height a <= Z.of_nat (length D).
Proof.
  intros ((d & r & R & Hd & Hr & _) & Hw & Hh & Hoff & d' & D & Hd' & HD & Hlen).
  assert (d' = d) as -> by congruence. by exists d, r, D.
Qed.

Lemma keeps_data_owning a off0 hp w' h' :
  owning a off0 hp -> width a * height a < 2 ^ 64 ->
  0 <= w' -> 0 <= h' -> w' * h' < 2 ^ 64 ->
  keeps_data a w' h' =
  (w' * h' <=? width a * height a) && (width a * height a / 4 <=? w' * h').
Proof.
  intros (d & r & D & Hd & _ & _ & Hw & Hh & _)%owning_data Hwh Hw' Hh' Hwh'.
  unfold keeps_data. rewrite Hd. simpl.
  rewrite (mul64_small h' w') by nia. rewrite mul64_small by nia.
  by rewrite (Z.mul_comm h' w').
Qed.



(** A resize that allocates a buffer and does not clear leaves every
    element uninitialised: nothing is carried over from the old buffer.
    This is what happens from every state in which no buffer is held
    (default-constructed, freed, referencing) and from an owning one when
    the new element count is outside the band. *)
Theorem resize_realloc_uninitialised a w h flags off hp :
  inst_ok a hp -> 0 <= w -> 0 <= h -> 0 <= off -> w * h + off < 2 ^ 64 ->
  has_flag flags ARRAY2D_CLEAR_DATA = false ->
  keeps_data a w h = false ->
  exists a' hp',
    op_call zero a w h flags off hp = Ok (a', hp') /\
    fresh_in (op_flat a') hp /\
    forall y x, 0 <= y < h -> 0 <= x < w ->
      get a' y x hp' = Fault Uninitialised.
Proof.
  intros Hok Hw Hh Hoff Hsum Hflag Hk. assert (0 <= w * h) by nia.
  destruct (ar_realloc_spec a w h off hp Hok Hw Hh ltac:(lia))
    as (r & d & R & D & hp' & Hrun & Hrd & HR & HD & HhR & Hent & _ & Hkd & _).
  rewrite Hk in Hkd. destruct Hkd as [Hfresh ->].
  set (a' := mk_array2D w h (Ptr r 0) (Ptr d 0)).
  exists a', hp'. split; [by rewrite op_call_no_clear|].
  split; [by exists d|].
  intros y x Hy Hx.
  assert (Hinv' : rows_inv a' off hp').
  { exists d, r, R. split_and!; done || congruence. }
  rewrite (get_flat a' off) by done.
  assert (Hload : load hp' (ptr_add (op_flat a') (off + y * width a' + x))
            = Ok Indet).
  { assert (0 <= y * w) by nia.
    apply (load_cell hp' d _ _ _ HD); [simpl; lia|].
    apply lookup_replicate_2. simpl.
    unfold add64. rewrite (mul64_small h w) by lia.
    rewrite (wrap_small off) by lia. rewrite wrap_small by lia. nia. }
  unfold flat_get, load_elem. by rewrite Hload.
Qed.

(** [free()] followed by a resize: although [free()] left the old extents
    in place, the resize allocates both the buffer and the row table anew
    and the instance comes out owning, with the requested shape. *)
Theorem resize_after_free a w h flags off hp :
  inst_ok a hp -> 0 <= w -> 0 <= h -> 0 <= off -> w * h + off < 2 ^ 64 ->
  exists a1 hp1 a2 hp2,
    free a hp = Ok (a1, hp1) /\
    op_call zero a1 w h flags off hp1 = Ok (a2, hp2) /\
    getWidth a2 = w /\ getHeight a2 = h /\
    owning a2 off hp2 /\
    fresh_in (op_flat a2) hp /\ fresh_in (op_rows a2) hp.
Proof.
  intros Hok Hw Hh Hoff Hsum.
  destruct (release_both a hp Hok) as (hp1 & hp2 & E1 & E2 & Hlen & _).
  set (a1 := mk_array2D (width a) (height a) Null Null).
  assert (Hfree : free a hp = Ok (a1, hp2))
    by (unfold free; by rewrite E1, res_bind_Ok, E2).
  pose proof (free_inst_ok a hp a1 hp2 Hfree) as Hok1.
  destruct (op_call_null_spec zero a1 w h flags off hp2 Hok1 eq_refl
              Hw Hh Hoff Hsum)
    as (a2 & hp3 & Hrun & Hgw & Hgh & Hown & Hfd & Hfr & _).
  exists a1, hp2, a2, hp3. split_and!; try done.
  - destruct Hfd as (b & Hb & Hle). exists b. split; [done|lia].
  - destruct (Hfr eq_refl) as (b & Hb & Hle). exists b. split; [done|lia].
Qed.

(** A buffer allocated for offset [off0] is kept by a resize to the same
    shape with a larger offset: the rows move up and the last element
    falls past the end of the buffer, so that reading or writing it is an
    out-of-bounds access. *)
Theorem raised_offset_overruns_kept_buffer a off0 off flags hp d
    (D : list (cell T)) (v : T) :
  owning a off0 hp ->
  data a = Ptr d 0 -> hp !! d = Some (Some D) ->
  Z.of_nat (length D) = off0 + width a * height a ->
  0 < width a -> 0 < height a ->
  width a * height a < 2 ^ 64 -> 4 * height a < 2 ^ 64 ->
  off0 < off ->
  has_flag flags ARRAY2D_CLEAR_DATA = false ->
  exists a' hp',
    op_call zero a (width a) (height a) flags off hp = Ok (a', hp') /\
    op_flat a' = op_flat a /\ op_rows a' = op_rows a /\
    get a' (height a - 1) (width a - 1) hp' = Fault OutOfBounds /\
    set a' (height a - 1) (width a - 1) v hp' = Fault OutOfBounds.
Proof.
  intros Hown Hd HD HlenD Hw Hh Hwh H4 Hoff Hflag.
  pose proof (owning_inst_ok a off0 hp Hown) as Hok.
  destruct (owning_data a off0 hp Hown) as (d0 & r0 & D0 & Hd0 & Hr0 & _ & _
                                            & _ & Hoff0 & _).
  destruct (ar_realloc_spec a (width a) (height a) off hp Hok
              ltac:(lia) ltac:(lia) Hwh)
    as (r & d' & R & D' & hp' & Hrun & Hrd & HR & HD' & HhR & Hent & Hkr
        & Hkd & _).
  rewrite (keeps_data_owning a off0 hp) in Hkd by (done || lia).
  destruct (Z.leb_spec (width a * height a) (width a * height a)); [|lia].
  destruct (Z.leb_spec (width a * height a / 4) (width a * height a)).
  2:{ pose proof (Z.div_le_upper_bound (width a * height a) 4
                    (width a * height a)). nia. }
  simpl in Hkd. destruct Hkd as [Hd' HD0].
  assert (d' = d) as -> by congruence.
  assert (D' = D) as -> by congruence.
  assert (Hk : keeps_rows a (height a) = true).
  { unfold keeps_rows. rewrite Hr0. simpl. rewrite mul64_small by lia.
    destruct (Z.leb_spec (height a) (height a)); [|lia].
    destruct (Z.leb_spec (height a) (4 * height a)); [done|lia]. }
  rewrite Hk in Hkr.
  set (a' := mk_array2D (width a) (height a) (Ptr r 0) (Ptr d 0)).
  assert (Hinv' : rows_inv a' off hp').
  { exists d, r, R. split_and!; done || congruence. }
  assert (Hload : load hp'
            (ptr_add (op_flat a')
               (off + (height a - 1) * width a' + (width a - 1)))
            = Fault OutOfBounds).
  { unfold load. simpl. rewrite HD'.
    destruct (Z.leb_spec 0 (0 + (off + (height a - 1) * width a + (width a - 1))));
      [|done].
    rewrite (lookup_ge_None_2 D); [done|]. nia. }
  exists a', hp'. split; [by rewrite op_call_no_clear|].
  unfold op_flat, op_rows. simpl. split_and!; try congruence.
  - rewrite (get_flat a' off) by (done || (simpl; lia)).
    unfold flat_get, load_elem. by rewrite Hload.
  - rewrite (set_flat a' off) by (done || (simpl; lia)).
    unfold store. simpl. rewrite HD'.
    destruct (Z.ltb_spec (0 + (off + (height a - 1) * width a + (width a - 1)))
                (Z.of_nat (length D))); [nia|].
    by rewrite andb_false_r.
Qed.

(** [operator()] with [ARRAY2D_CLEAR_DATA]: what [ar_realloc] left and
    what the [memset] then does to the buffer. *)
Lemma op_call_clear_spec a w h flags off hp :
  inst_ok a hp -> 0 <= w -> 0 <= h -> 0 <= off -> w * h + off < 2 ^ 64 ->
  has_flag flags ARRAY2D_CLEAR_DATA = true ->
  (keeps_data a w h = true ->
   forall d D, data a = Ptr d 0 -> hp !! d = Some (Some D) ->
     off + w * h <= Z.of_nat (length D)) ->
  exists r d (R D0 D : list (cell T)) hp1,
    op_call zero a w h flags off hp
      = Ok (mk_array2D w h (Ptr r 0) (Ptr d 0), <[d := Some D]> hp1) /\
    r <> d /\ hp1 !! r = Some (Some R) /\ hp1 !! d = Some (Some D0) /\
    (forall i, 0 <= i < h ->
       R !! Z.to_nat i = Some (Row (Ptr d (off + i * w)))) /\
    length D = length D0 /\
    (forall k : nat, D !! k =
       if decide (off <= Z.of_nat k < off + w * h)
       then Some (Elem zero) else D0 !! k) /\
    (if keeps_data a w h
     then data a = Ptr d 0 /\ hp !! d = Some (Some D0)
     else (length hp <= d)%nat /\
          D0 = replicate (Z.to_nat (w * h + off)) Indet).
Proof.
  intros Hok Hw Hh Hoff Hsum Hflag Hfit. assert (0 <= w * h) by nia.
  destruct (ar_realloc_spec a w h off hp Hok Hw Hh ltac:(lia))
    as (r & d & R & D0 & hp1 & Hrun & Hrd & HR & HD & HhR & Hent & _ & Hkd & _).
  assert (Hn : add64 (mul64 h w) (wrap off) = w * h + off).
  { unfold add64. rewrite (mul64_small h w) by lia.
    rewrite (wrap_small off) by lia. rewrite wrap_small by lia. lia. }
  rewrite Hn in Hkd.
  assert (HlenD : off + w * h <= Z.of_nat (length D0)).
  { destruct (keeps_data a w h).
    - destruct Hkd as [Hd HD0]. by apply (Hfit eq_refl d).
    - destruct Hkd as [_ ->]. rewrite length_replicate. lia. }
  destruct (memset0_spec zero hp1 d D0 (0 + off) (w * h) HD)
    as (D & Hset & HlenD' & HD'); [lia|lia|lia|].
  exists r, d, R, D0, D, hp1. split_and!; try done.
  unfold op_call. rewrite Hrun, res_bind_Ok. cbv beta iota. rewrite Hflag.
  simpl ptr_add. simpl width. simpl height.
  rewrite (mul64_small w h) by lia. by rewrite Hset.
Qed.

(** A resize with [ARRAY2D_CLEAR_DATA], when the region to clear fits the
    buffer that is kept (it always fits a new one): every element reads
    zero afterwards, and of a kept buffer nothing but the
    [w * h] cells from [offset] on is changed. *)
Theorem resize_clear_zeroes a w h flags off hp :
  inst_ok a hp -> 0 <= w -> 0 <= h -> 0 <= off -> w * h + off < 2 ^ 64 ->
  has_flag flags ARRAY2D_CLEAR_DATA = true ->
  (keeps_data a w h = true ->
   forall d D, data a = Ptr d 0 -> hp !! d = Some (Some D) ->
     off + w * h <= Z.of_nat (length D)) ->
  exists a' hp',
    op_call zero a w h flags off hp = Ok (a', hp') /\
    (forall y x, 0 <= y < h -> 0 <= x < w -> get a' y x hp' = Ok zero) /\
    (op_flat a' = op_flat a ->
     forall i, ~ (off <= i < off + w * h) ->
       flat_get a' i hp' = flat_get a i hp).
Proof.
  intros Hok Hw Hh Hoff Hsum Hflag Hfit.
  destruct (op_call_clear_spec a w h flags off hp Hok Hw Hh Hoff Hsum Hflag Hfit)
    as (r & d & R & D0 & D & hp1 & Hrun & Hrd & HR & HD0 & Hent & HlenD & HD
        & Hkd).
  set (a' := mk_array2D w h (Ptr r 0) (Ptr d 0)).
  set (hp' := <[d := Some D]> hp1).
  assert (Hd' : hp' !! d = Some (Some D)).
  { apply list_lookup_insert_eq. by eapply lookup_lt_Some. }
  assert (Hinv' : rows_inv a' off hp').
  { exists d, r, R. split_and!; [done|done|congruence| |done].
    unfold hp'. by rewrite list_lookup_insert_ne. }
  exists a', hp'. split; [exact Hrun|]. split.
  - intros y x Hy Hx. rewrite (get_flat a' off) by done.
    unfold flat_get, op_flat. simpl. apply load_elem_Ok.
    assert (0 <= y * w) by nia.
    apply (load_cell _ _ _ D); [done|lia|].
    rewrite HD. case_decide; [done|nia].
  - intros Hsame i Hi. destruct (keeps_data a w h).
    + destruct Hkd as [Hd HDa].
      unfold flat_get, op_flat, load_elem. rewrite Hd. simpl data.
      f_equal. unfold load. simpl. rewrite Hd', HDa.
      destruct (Z.leb_spec 0 (0 + i)); [|done].
      rewrite HD. case_decide; [lia|done].
    + destruct Hkd as [Hfresh _]. unfold op_flat in Hsame. simpl in Hsame.
      destruct Hok as (_ & [Hn|(b & c & Hb & Hc)] & _); [congruence|].
      rewrite Hb in Hsame. injection Hsame as ->.
      apply lookup_lt_Some in Hc. lia.
Qed.

(** The buffer a resize allocates has exactly [w * h + offset] cells.  The
    first [offset] of them lie before row 0 and are never written, not
    even under [ARRAY2D_CLEAR_DATA]: they stay uninitialised; a flat index
    outside the buffer is out of bounds. *)
Theorem offset_headroom_uninitialised a w h flags off hp :
  inst_ok a hp -> keeps_data a w h = false ->
  0 <= w -> 0 <= h -> 0 <= off -> w * h + off < 2 ^ 64 ->
  exists a' hp',
    op_call zero a w h flags off hp = Ok (a', hp') /\
    (forall i, 0 <= i < off -> flat_get a' i hp' = Fault Uninitialised) /\
    (forall i, i < 0 \/ off + w * h <= i ->
       flat_get a' i hp' = Fault OutOfBounds).
Proof.
  intros Hok Hk Hw Hh Hoff Hsum. assert (0 <= w * h) by nia.
  assert (Hgen : forall d (D : list (cell T)) hp',
            hp' !! d = Some (Some D) ->
            Z.of_nat (length D) = w * h + off ->
            (forall k : nat, Z.of_nat k < off -> D !! k = Some Indet) ->
            (forall i, 0 <= i < off ->
               flat_get (mk_array2D w h (Ptr 0 0) (Ptr d 0)) i hp'
               = Fault Uninitialised) /\
            (forall i, i < 0 \/ off + w * h <= i ->
               flat_get (mk_array2D w h (Ptr 0 0) (Ptr d 0)) i hp'
               = Fault OutOfBounds)).
  { intros d D hp' Hd HlenD Hlow. split.
    - intros i Hi.
      assert (Hload : load hp' (ptr_add (Ptr d 0) i) = Ok Indet).
      { apply (load_cell hp' d _ D); [done|simpl; lia|].
        apply Hlow. simpl. lia. }
      unfold flat_get, op_flat, load_elem. simpl data. by rewrite Hload.
    - intros i Hi.
      assert (Hload : load hp' (ptr_add (Ptr d 0) i) = Fault OutOfBounds).
      { unfold load, ptr_add. rewrite Hd.
        destruct (Z.leb_spec 0 (0 + i)); [|done].
        rewrite (lookup_ge_None_2 D); [done|lia]. }
      unfold flat_get, op_flat, load_elem. simpl data. by rewrite Hload. }
  destruct (has_flag flags ARRAY2D_CLEAR_DATA) eqn:Hflag.
  - destruct (op_call_clear_spec a w h flags off hp Hok Hw Hh Hoff Hsum Hflag)
      as (r & d & R & D0 & D & hp1 & Hrun & Hrd & HR & HD0 & Hent & HlenD & HD
          & Hkd); [congruence|].
    rewrite Hk in Hkd. destruct Hkd as [_ ->].
    eexists _, _. split; [exact Hrun|].
    apply (Hgen d D (<[d := Some D]> hp1)).
    + apply list_lookup_insert_eq. by eapply lookup_lt_Some.
    + rewrite HlenD, length_replicate. lia.
    + intros k Hlt. rewrite HD. case_decide; [lia|].
      apply lookup_replicate_2. lia.
  - destruct (ar_realloc_spec a w h off hp Hok Hw Hh ltac:(lia))
      as (r & d & R & D & hp' & Hrun & _ & _ & HD & _ & _ & _ & Hkd & _).
    rewrite Hk in Hkd. destruct Hkd as [_ ->].
    assert (Hn : add64 (mul64 h w) (wrap off) = w * h + off).
    { unfold add64. rewrite (mul64_small h w) by lia.
      rewrite (wrap_small off) by lia. rewrite wrap_small by lia. lia. }
    rewrite Hn in HD.
    eexists _, _. split; [by rewrite op_call_no_clear|].
    apply (Hgen d _ hp' HD).
    + rewrite length_replicate. lia.
    + intros k Hlt. apply lookup_replicate_2. lia.
Qed.

(** What [ar_realloc] replaces it has released. *)
Lemma ar_realloc_dead a w h off hp a' hp' :
  inst_ok a hp ->
  ar_realloc a w h off hp = Ok (a', hp') ->
  (forall b, data a = Ptr b 0 -> keeps_data a w h = false ->
     hp' !! b = Some None) /\
  (forall b, rows a = Ptr b 0 -> keeps_rows a h = false ->
     hp' !! b = Some None).
Proof.
  intros (Hrows & Hdata & Hdist & Hcap) Hrun.
  unfold ar_realloc in Hrun.
  set (c1 := negb (is_null (rows a)) &&
             ((height a <? h) || (mul64 4 h <? height a))) in Hrun.
  set (c2 := negb (is_null (data a)) &&
             ((mul64 (width a) (height a) <? mul64 h w) ||
              (mul64 h w <? mul64 (width a) (height a) / 4))) in Hrun.
  destruct (phase_spec c1 (rows a) h hp Hrows)
    as (p1 & hp1 & r & R1 & hp2 & E1 & E2 & HR1 & Hlen1 & Hfr1 & Hid1).
  assert (Hdata2 : deletable (data a) hp2).
  { destruct Hdata as [->|(d0 & D0 & Hd & HD0)]; [by left|right].
    exists d0, D0. split; [done|]. rewrite Hfr1; [done| |by eapply lookup_lt_Some].
    destruct Hdist as [->|Hne]; [done|congruence]. }
  destruct (phase_spec c2 (data a) (add64 (mul64 h w) (wrap off)) hp2 Hdata2)
    as (q1 & hp3 & d & D & hp4 & E3 & E4 & HD & Hlen2 & Hfr2 & Hid2).
  rewrite E1, res_bind_Ok in Hrun. cbv beta iota in Hrun. rewrite E2 in Hrun.
  rewrite E3, res_bind_Ok in Hrun. cbv beta iota in Hrun. rewrite E4 in Hrun.
  match type of Hrun with
  | (for_range h ?body hp4 ≫= _) = _ =>
      destruct (for_range h body hp4) as [hpL|e] eqn:Eloop; [|done]
  end.
  rewrite res_bind_Ok in Hrun. injection Hrun as _ <-.
  assert (Hloop : forall b, b <> r -> hpL !! b = hp4 !! b).
  { intros b Hb. unfold for_range in Eloop.
    exact (store_loop_frame _ r (fun i => 0 + i) _ hp4 hpL Eloop b Hb). }
  assert (Hrlt : (r < length hp2)%nat) by (by eapply lookup_lt_Some).
  assert (Hdr : data a <> Ptr r 0).
  { destruct Hid1 as [(Hr & _ & _)|(-> & _ & _ & _)].
    - destruct Hdist as [Hn|Hne]; congruence.
    - destruct Hdata as [->|(d0 & D0 & -> & HD0)]; [done|].
      apply lookup_lt_Some in HD0. intros [= ->]. lia. }
  assert (HR4 : hp4 !! r = Some (Some R1)) by (by rewrite Hfr2).
  split.
  - intros b Hb Hk. rewrite keeps_data_cond, Hb in Hk. simpl in Hk.
    apply negb_false_iff in Hk.
    assert (Hc2 : c2 = true) by (unfold c2; rewrite Hb; simpl; exact Hk).
    destruct Hdata2 as [Hn|(b' & c & Hb' & Hc)]; [congruence|].
    assert (b' = b) as -> by congruence.
    unfold release_if in E3. rewrite Hc2, Hb in E3. simpl in E3.
    rewrite Hc in E3. simpl in E3. injection E3 as <- <-.
    unfold alloc_if_null, new_array in E4. simpl in E4. injection E4 as _ <-.
    assert (Hdead : (<[b := None]> hp2 ++
                     [Some (replicate (Z.to_nat (add64 (mul64 h w) (wrap off)))
                              (@Indet T))]) !! b = Some None).
    { apply lookup_lt_Some in Hc.
      rewrite lookup_app_l by (by rewrite length_insert).
      by apply list_lookup_insert_eq. }
    rewrite Hloop; [done|]. intros ->. congruence.
  - intros b Hb Hk. rewrite keeps_rows_cond, Hb in Hk. simpl in Hk.
    apply negb_false_iff in Hk.
    assert (Hc1 : c1 = true) by (unfold c1; rewrite Hb; simpl; exact Hk).
    destruct Hrows as [Hn|(b' & c & Hb' & Hc)]; [congruence|].
    assert (b' = b) as -> by congruence.
    unfold release_if in E1. rewrite Hc1, Hb in E1. simpl in E1.
    rewrite Hc in E1. simpl in E1. injection E1 as <- <-.
    unfold alloc_if_null, new_array in E2. simpl in E2.
    injection E2 as Hr <-. rewrite length_insert in Hr.
    apply lookup_lt_Some in Hc as Hblt.
    assert (Hdead2 : (<[b := None]> hp ++
                      [Some (replicate (Z.to_nat h) (@Indet T))]) !! b
                     = Some None).
    { rewrite lookup_app_l by (by rewrite length_insert).
      by apply list_lookup_insert_eq. }
    rewrite Hloop by lia. rewrite Hfr2.
    + exact Hdead2.
    + destruct Hdist as [Hn|Hne]; congruence.
    + rewrite length_app, length_insert. simpl. lia.
Qed.

(** No leak on resize: when a resize hands out a different buffer, the
    old one has been released, and likewise for the row table; what the
    instance held before is either still held or dead.  This holds of every
    resize that returns, on any state of the class, with any flags and any
    offset, and the resize returns unless it is asked to clear a region
    that does not fit the buffer it keeps. *)
Theorem resize_releases_what_it_replaces a w h flags off hp :
  inst_ok a hp -> 0 <= w -> 0 <= h -> w * h < 2 ^ 64 ->
  (clear_fits a w h flags off hp ->
   exists a' hp', op_call zero a w h flags off hp = Ok (a', hp')) /\
  (forall a' hp',
     op_call zero a w h flags off hp = Ok (a', hp') ->
     (forall b, data a = Ptr b 0 -> op_flat a' <> op_flat a ->
        hp' !! b = Some None) /\
     (forall b, rows a = Ptr b 0 -> op_rows a' <> op_rows a ->
        hp' !! b = Some None)).
Proof.
  intros Hok Hw Hh Hwh. split.
  { intros Hclear.
    destruct (op_call_spec zero a w h flags off hp Hok Hw Hh Hwh Hclear)
      as (r & d & R & D & hp' & Hrun & _).
    by eexists _, hp'. }
  intros a' hp' Hrun.
  destruct (op_call_result zero a w h flags off hp a' hp' Hok Hw Hh Hwh Hrun)
    as (r & d & R & hp1 & -> & Hrun1 & Hrd & HR & _ & _ & Hkr & Hkd & Hfr & _).
  destruct (ar_realloc_dead a w h off hp _ hp1 Hok Hrun1) as [Hdd Hdr].
  unfold op_flat, op_rows. simpl. split.
  - intros b Hb Hne.
    assert (Hk : keeps_data a w h = false).
    { destruct (keeps_data a w h); [|done]. congruence. }
    rewrite Hfr; [by apply Hdd|]. intros ->. congruence.
  - intros b Hb Hne.
    assert (Hk : keeps_rows a h = false).
    { destruct (keeps_rows a h); [|done]. congruence. }
    rewrite Hfr; [by apply Hdr|]. intros ->.
    destruct (ar_realloc_spec a w h off hp Hok Hw Hh Hwh)
      as (r1 & d1 & R1 & D1 & hp2 & Hrun2 & _ & _ & HD1 & _).
    rewrite Hrun1 in Hrun2. injection Hrun2 as <- <- <-.
    specialize (Hdr d Hb Hk). congruence.
Qed.

(** ** Filling *)

(** [fill] on an owning instance whose rows start [off] cells into the
    buffer, sequential or parallel with the iterations completing in any
    order: only the buffer changes, and of it only the cells
    [0 .. w*h); an element reads [v] afterwards when its cell
    [off + y*w + x] is among these and reads what it read before when it is
    not. *)
Theorem fill_touches_the_first_cells a off (v : T) hp :
  owning a off hp -> width a * height a < 2 ^ 64 ->
  exists hp',
    (forall sched, fill a v false sched hp = Ok hp') /\
    (forall sched, sched ≡ₚ seqZ 0 (width a * height a) ->
       fill a v true sched hp = Ok hp') /\
    length hp' = length hp /\
    (forall b, op_flat a <> Ptr b 0 -> hp' !! b = hp !! b) /\
    (forall i, width a * height a <= i -> flat_get a i hp' = flat_get a i hp) /\
    (forall y x, 0 <= y < height a -> 0 <= x < width a ->
       get a y x hp' =
       if decide (off + y * width a + x < width a * height a)
       then Ok v else get a y x hp).
Proof.
  intros Hown Hwh.
  destruct Hown as (Hinv & Hw & Hh & Hoff & d & D & Hd & HD & Hlen).
  assert (Hn : 0 <= width a * height a) by nia.
  assert (Hcap : 0 <= width a * height a <= Z.of_nat (length D)) by lia.
  destruct (fill_cells a d D v hp (seqZ 0 (width a * height a)) Hd HD Hcap)
    as (D' & Hseq & HlenD' & HD'); [intros i; apply lookup_seqZ_range|].
  set (hp' := <[d := Some D']> hp).
  assert (Hd' : hp' !! d = Some (Some D')).
  { apply list_lookup_insert_eq. by eapply lookup_lt_Some. }
  assert (Hflat : forall i,
            flat_get a i hp' =
            if decide (0 <= i < width a * height a) then Ok v
            else flat_get a i hp).
  { intros i. unfold flat_get, op_flat, load_elem. rewrite Hd.
    simpl ptr_add. unfold load. rewrite Hd', HD.
    destruct (Z.leb_spec 0 (0 + i)).
    - rewrite HD'. case_decide; case_decide; try lia; done.
    - case_decide; [lia|done]. }
  assert (Hinv' : rows_inv a off hp').
  { destruct Hinv as (d0 & r & R & Hd0 & Hr & Hdr & HR & Hent).
    exists d0, r, R. split_and!; try done.
    assert (d0 = d) as -> by congruence.
    unfold hp'. by rewrite list_lookup_insert_ne. }
  exists hp'. split_and!.
  - intros sched. unfold fill. rewrite mul64_small by lia. exact Hseq.
  - intros sched Hperm. unfold fill.
    destruct (fill_cells a d D v hp sched Hd HD Hcap)
      as (D2 & Hpar & HlenD2 & HD2).
    { intros i. rewrite Hperm. apply lookup_seqZ_range. }
    rewrite Hpar. unfold hp'. do 3 f_equal.
    apply list_eq. intros k. by rewrite HD', HD2.
  - apply length_insert.
  - intros b Hb. apply list_lookup_insert_ne. unfold op_flat in Hb. congruence.
  - intros i Hi. rewrite Hflat. case_decide; [lia|done].
  - intros y x Hy Hx. rewrite (get_flat a off hp') by done.
    rewrite (get_flat a off hp) by done. rewrite Hflat.
    assert (0 <= y * width a) by nia.
    case_decide; case_decide; try lia; done.
Qed.

(** A later [fill] decides alone: [fill(v)] followed by [fill(u)] leaves
    the store that [fill(u)] leaves. *)
Theorem fill_overwrites a off (v u : T) hp :
  owning a off hp -> width a * height a < 2 ^ 64 ->
  exists hp1 hp2,
    fill a v false [] hp = Ok hp1 /\
    fill a u false [] hp1 = Ok hp2 /\
    fill a u false [] hp = Ok hp2.
Proof.
  intros Hown Hwh.
  destruct Hown as (Hinv & Hw & Hh & Hoff & d & D & Hd & HD & Hlen).
  assert (Hn : 0 <= width a * height a) by nia.
  assert (Hcap : 0 <= width a * height a <= Z.of_nat (length D)) by lia.
  destruct (fill_cells a d D v hp (seqZ 0 (width a * height a)) Hd HD Hcap)
    as (D1 & Hrun1 & HlenD1 & HD1); [intros i; apply lookup_seqZ_range|].
  assert (Hd1 : <[d := Some D1]> hp !! d = Some (Some D1)).
  { apply list_lookup_insert_eq. by eapply lookup_lt_Some. }
  destruct (fill_cells a d D1 u (<[d := Some D1]> hp)
              (seqZ 0 (width a * height a)) Hd Hd1)
    as (D2 & Hrun2 & HlenD2 & HD2);
    [lia|intros i; apply lookup_seqZ_range|].
  destruct (fill_cells a d D u hp (seqZ 0 (width a * height a)) Hd HD Hcap)
    as (D3 & Hrun3 & HlenD3 & HD3); [intros i; apply lookup_seqZ_range|].
  exists (<[d := Some D1]> hp), (<[d := Some D3]> hp).
  unfold fill. rewrite mul64_small by lia. split_and!; [done| |done].
  rewrite Hrun2, list_insert_insert_eq. do 3 f_equal.
  apply list_eq. intros k. rewrite HD2, HD3, HD1.
  repeat case_decide; done.
Qed.

(** ** Sharing and lifetime *)

Lemma store_where_loaded hp p (c c' : cell T) :
  load hp p = Ok c -> exists hp', store hp p c' = Ok hp'.
Proof.
  destruct p as [|b o]; [done|]. unfold load, store.
  destruct (hp !! b) as [[cells|]|]; try done.
  destruct (Z.leb_spec 0 o); [|done].
  destruct (cells !! Z.to_nat o) eqn:Hc; [|done]. intros _.
  apply lookup_lt_Some in Hc.
  destruct (Z.ltb_spec o (Z.of_nat (length cells))); [|lia].
  simpl. eauto.
Qed.

(** A referencing instance writes into the source: [a[y][x] = v] on an
    instance built with [ARRAY2D_BYREFERENCE] succeeds, [source[y][x]]
    reads [v] afterwards, and the instance and the source still agree at
    every coordinate. *)
Theorem byreference_write_reaches_source a source hp y x (v : T) :
  referencing a source hp ->
  source_ok (T:=T) source (width a) (height a) hp ->
  0 <= y < height a -> 0 <= x < width a ->
  exists hp',
    set a y x v hp = Ok hp' /\
    src_get source y x hp' = Ok v /\
    get a y x hp' = Ok v /\
    forall y' x', 0 <= y' < height a -> 0 <= x' < width a ->
      get a y' x' hp' = src_get source y' x' hp'.
Proof.
  intros (Hnull & r & R & Hr & HR & HlenR & Hent) Hsrc Hy Hx.
  assert (Hrow : forall y', 0 <= y' < height a ->
            exists p, load_row hp (ptr_add source y') = Ok p /\
                      load_row hp (ptr_add (rows a) y') = Ok p /\
                      forall x', 0 <= x' < width a ->
                        exists v0, load_elem hp (ptr_add p x') = Ok v0).
  { intros y' Hy'. destruct (Hent y' Hy') as (p & Hp & HRp).
    destruct (Hsrc y' Hy') as (p' & Hp' & Hcells).
    assert (p' = p) as -> by congruence.
    exists p. split_and!; [done| |done].
    apply load_row_Ok. rewrite Hr. simpl.
    apply (load_cell _ _ _ R); [done|lia|done]. }
  destruct (Hrow y Hy) as (p & Hp & Hpa & Hcells).
  destruct (Hcells x Hx) as (v0 & Hv0). apply load_elem_Ok in Hv0.
  destruct (store_where_loaded hp (ptr_add p x) _ (Elem v) Hv0) as (hp' & Hst).
  assert (Hother : forall q q', load_row hp q = Ok q' -> load hp' q = load hp q).
  { intros q q' Hq%load_row_Ok. apply (load_store_other _ _ _ _ _ Hst).
    intros Heq. rewrite Heq in Hv0. congruence. }
  assert (Hget : forall y' x' p', 0 <= y' < height a ->
            load_row hp (ptr_add (rows a) y') = Ok p' ->
            get a y' x' hp' = load_elem hp' (ptr_add p' x')).
  { intros y' x' p' Hy' Hp'. unfold get, op_index.
    destruct (Z.leb_spec 0 y'); [|lia].
    destruct (Z.ltb_spec y' (height a)); [|lia]. simpl andb. cbv iota.
    assert (E : load_row hp' (ptr_add (rows a) y') = Ok p').
    { apply load_row_Ok. rewrite (Hother _ _ Hp'). by apply load_row_Ok. }
    by rewrite E, res_bind_Ok. }
  assert (Hsget : forall y' x' p', load_row hp (ptr_add source y') = Ok p' ->
            src_get source y' x' hp' = load_elem hp' (ptr_add p' x')).
  { intros y' x' p' Hp'. unfold src_get.
    assert (E : load_row hp' (ptr_add source y') = Ok p').
    { apply load_row_Ok. rewrite (Hother _ _ Hp'). by apply load_row_Ok. }
    by rewrite E, res_bind_Ok. }
  assert (Hv : load_elem hp' (ptr_add p x) = Ok v).
  { apply load_elem_Ok. by apply (load_store_same _ _ _ _ Hst). }
  exists hp'. split_and!.
  - unfold set, op_index.
    destruct (Z.leb_spec 0 y); [|lia].
    destruct (Z.ltb_spec y (height a)); [|lia]. simpl andb. cbv iota.
    by rewrite Hpa, res_bind_Ok.
  - by rewrite (Hsget y x p Hp).
  - by rewrite (Hget y x p Hy Hpa).
  - intros y' x' Hy' Hx'. destruct (Hrow y' Hy') as (p' & Hp' & Hpa' & _).
    by rewrite (Hget y' x' p' Hy' Hpa'), (Hsget y' x' p' Hp').
Qed.

(** Scope lifetime: an array that is constructed and then destroyed leaves
    nothing behind.  The store is the old one followed by two dead
    entries. *)
Theorem sized_lifetime_leaves_nothing w h flags hp :
  0 <= w -> 0 <= h -> w * h < 2 ^ 64 ->
  exists a hp1 hp2,
    array2D_sized zero w h flags hp = Ok (a, hp1) /\
    array2D_dtor a hp1 = Ok hp2 /\
    hp2 = hp ++ [None; None].
Proof.
  intros Hw Hh Hwh.
  destruct (array2D_sized_spec zero w h flags hp Hw Hh Hwh)
    as (R & D & hp1 & Hrun & HR & HD & _ & _ & _ & _ & Hlen & Hfr).
  set (a := mk_array2D w h (Ptr (Datatypes.S (length hp)) 0) (Ptr (length hp) 0)).
  assert (Hok : inst_ok a hp1).
  { unfold inst_ok. simpl. split_and!.
    - right. by exists (Datatypes.S (length hp)), R.
    - right. by exists (length hp), D.
    - right. intros [= Heq]. lia.
    - intros r' R' [= <-] HR'. rewrite HR in HR'. injection HR' as <-.
      destruct (decide (h <= Z.of_nat (length R))) as [|Hn]; [done|].
      exfalso.
      destruct (array2D_sized_spec zero w h flags hp Hw Hh Hwh)
        as (R2 & D2 & hp1' & Hrun2 & HR2 & _ & HlenR2 & _).
      rewrite Hrun in Hrun2. injection Hrun2 as <-.
      rewrite HR in HR2. injection HR2 as <-. lia. }
  destruct (dtor_spec a hp1 Hok)
    as (hp2 & Hdtor & Hlen2 & Hdead & Hkeep).
  exists a, hp1, hp2. split_and!; [done|done|].
  apply list_eq. intros b.
  destruct (decide (b < length hp)%nat) as [Hb|Hb].
  - rewrite lookup_app_l by done. rewrite Hkeep; [by apply Hfr| |];
      simpl; intros [= Heq]; lia.
  - destruct (decide (b = length hp)) as [->|Hb1].
    + rewrite Hdead by (by left). by rewrite list_lookup_middle.
    + destruct (decide (b = Datatypes.S (length hp))) as [->|Hb2].
      * rewrite Hdead by (by right). rewrite lookup_app_r by lia.
        by replace (Datatypes.S (length hp) - length hp)%nat with 1%nat by lia.
      * rewrite lookup_ge_None_2 by lia.
        symmetry. apply lookup_ge_None_2. rewrite length_app. simpl. lia.
Qed.

End MoreOfTheClass.

(** * More of the class, on concrete instances *)

Lemma sized_construction_witness :
  0 <= 2 /\ 0 <= 3 /\ 2 * 3 < 2 ^ 64 /\
  exists a hp',
    array2D_sized 0 2 3 ARRAY2D_CLEAR_DATA ([] : heap Z) = Ok (a, hp') /\
    op_bool a = true /\ get a 2 1 hp' = Ok 0.
Proof.
  split_and!; try lia.
  destruct (sized_construction 0 2 3 ARRAY2D_CLEAR_DATA ([] : heap Z)
              ltac:(lia) ltac:(lia) ltac:(lia))
    as (a & hp' & Hrun & _ & _ & Hbool & _ & _ & _ & Hget & _).
  exists a, hp'. split_and!; [exact Hrun|exact Hbool|].
  apply (Hget 2 1); lia.
Defined.

Lemma op_index_bounds_witness :
  rows_inv ex_arr 0 ex_heap /\
  op_index ex_arr 3 ex_heap = Fault AssertFailed /\
  op_index ex_arr 2 ex_heap = Ok (Ptr 0 4).
Proof.
  assert (Hinv : rows_inv ex_arr 0 ex_heap) by exact (proj1 ex_owning).
  split; [exact Hinv|]. split.
  - destruct (op_index_bounds ex_arr 0 ex_heap 3 Hinv) as [_ Hout].
    apply Hout. simpl. lia.
  - destruct (op_index_bounds ex_arr 0 ex_heap 2 Hinv) as [Hin _].
    destruct Hin as (d & Hd & Hidx); [simpl; lia|].
    injection Hd as <-. exact Hidx.
Defined.

Lemma destructor_releases_instance_witness :
  inst_ok ex_arr ex_heap /\
  exists hp',
    array2D_dtor ex_arr ex_heap = Ok hp' /\
    hp' !! 0%nat = Some None /\ hp' !! 1%nat = Some None.
Proof.
  split; [exact ex_inst_ok|].
  destruct (destructor_releases_instance ex_arr ex_heap ex_inst_ok)
    as (hp' & Hrun & _ & Hdead & _).
  exists hp'. split_and!; [exact Hrun| |].
  - apply Hdead. by left.
  - apply Hdead. by right.
Defined.

Lemma multi_index_bounds_witness :
  length (replicate 3 array2D_default) = Z.to_nat 3 /\
  0 <= 3 <= 2 ^ 64 - 2 ^ 31 /\ - 2 ^ 31 <= -1 < 2 ^ 31 /\
  multi_index 3 (replicate 3 array2D_default) (-1) = Fault AssertFailed.
Proof.
  split; [reflexivity|]. split; [lia|]. split; [lia|].
  destruct (multi_index_bounds 3 (replicate 3 array2D_default) (-1)
              eq_refl ltac:(lia) ltac:(lia)) as [_ Hout].
  apply Hout. lia.
Defined.



Lemma resize_realloc_uninitialised_witness :
  inst_ok array2D_default ([] : heap Z) /\ 0 <= 2 /\ 0 <= 0 /\
  2 * 2 + 0 < 2 ^ 64 /\ has_flag 0 ARRAY2D_CLEAR_DATA = false /\
  keeps_data array2D_default 2 2 = false /\
  exists a' hp',
    op_call 0 array2D_default 2 2 0 0 ([] : heap Z) = Ok (a', hp') /\
    get a' 1 1 hp' = Fault Uninitialised.
Proof.
  split; [exact (inst_ok_default [])|]. split_and!; try lia; try reflexivity.
  destruct (resize_realloc_uninitialised 0 array2D_default 2 2 0 0 []
              (inst_ok_default []) ltac:(lia) ltac:(lia) ltac:(lia)
              ltac:(lia) eq_refl eq_refl)
    as (a' & hp' & Hrun & _ & Hget).
  exists a', hp'. split; [exact Hrun|]. apply Hget; lia.
Defined.

Lemma resize_after_free_witness :
  inst_ok ex_arr ex_heap /\ 0 <= 4 /\ 0 <= 0 /\ 4 * 4 + 0 < 2 ^ 64 /\
  exists a1 hp1 a2 hp2,
    free ex_arr ex_heap = Ok (a1, hp1) /\
    op_call 0 a1 4 4 0 0 hp1 = Ok (a2, hp2) /\
    owning a2 0 hp2.
Proof.
  split; [exact ex_inst_ok|]. split_and!; try lia.
  destruct (resize_after_free 0 ex_arr 4 4 0 0 ex_heap ex_inst_ok
              ltac:(lia) ltac:(lia) ltac:(lia) ltac:(lia))
    as (a1 & hp1 & a2 & hp2 & Hfree & Hrun & _ & _ & Hown & _).
  by exists a1, hp1, a2, hp2.
Defined.

Lemma raised_offset_overruns_kept_buffer_witness :
  owning ex_arr 0 ex_heap /\
  ex_heap !! 0%nat = Some (Some (replicate 6 Indet)) /\
  Z.of_nat (length (replicate 6 (@Indet Z))) = 0 + width ex_arr * height ex_arr /\
  0 < 1 /\
  exists a' hp',
    op_call 0 ex_arr 2 3 0 1 ex_heap = Ok (a', hp') /\
    set a' 2 1 7 hp' = Fault OutOfBounds.
Proof.
  split; [exact ex_owning|]. split; [reflexivity|]. split; [reflexivity|].
  split; [lia|].
  destruct (raised_offset_overruns_kept_buffer 0 ex_arr 0 1 0 ex_heap 0%nat
              (replicate 6 Indet) 7 ex_owning eq_refl eq_refl eq_refl
              ltac:(simpl; lia) ltac:(simpl; lia) ltac:(simpl; lia)
              ltac:(simpl; lia) ltac:(lia) eq_refl)
    as (a' & hp' & Hrun & _ & _ & _ & Hset).
  exists a', hp'. split; [exact Hrun|exact Hset].
Defined.

Lemma resize_clear_zeroes_witness :
  inst_ok ex_arr ex_heap /\ 0 <= 2 /\ 0 <= 3 /\ 0 <= 0 /\
  2 * 3 + 0 < 2 ^ 64 /\
  has_flag ARRAY2D_CLEAR_DATA ARRAY2D_CLEAR_DATA = true /\
  (forall d (D : list (cell Z)),
     data ex_arr = Ptr d 0 -> ex_heap !! d = Some (Some D) ->
     0 + 2 * 3 <= Z.of_nat (length D)) /\
  exists a' hp',
    op_call 0 ex_arr 2 3 ARRAY2D_CLEAR_DATA 0 ex_heap = Ok (a', hp') /\
    get a' 2 1 hp' = Ok 0.
Proof.
  assert (Hfit : forall d (D : list (cell Z)),
            data ex_arr = Ptr d 0 -> ex_heap !! d = Some (Some D) ->
            0 + 2 * 3 <= Z.of_nat (length D)).
  { intros d D Hd HD. injection Hd as <-. injection HD as <-. simpl. lia. }
  split; [exact ex_inst_ok|]. split_and!; try lia; [reflexivity|exact Hfit|].
  destruct (resize_clear_zeroes 0 ex_arr 2 3 ARRAY2D_CLEAR_DATA 0 ex_heap
              ex_inst_ok ltac:(lia) ltac:(lia) ltac:(lia) ltac:(lia) eq_refl
              (fun _ => Hfit))
    as (a' & hp' & Hrun & Hget & _).
  exists a', hp'. split; [exact Hrun|]. apply Hget; lia.
Defined.

Lemma offset_headroom_uninitialised_witness :
  inst_ok array2D_default ([] : heap Z) /\
  keeps_data array2D_default 2 1 = false /\
  0 <= 2 /\ 0 <= 1 /\ 2 * 1 + 2 < 2 ^ 64 /\
  exists a' hp',
    op_call 0 array2D_default 2 1 ARRAY2D_CLEAR_DATA 2 ([] : heap Z)
      = Ok (a', hp') /\
    flat_get a' 1 hp' = Fault Uninitialised /\
    flat_get a' 4 hp' = Fault OutOfBounds.
Proof.
  split; [exact (inst_ok_default [])|]. split; [reflexivity|].
  split_and!; try lia.
  destruct (offset_headroom_uninitialised 0 array2D_default 2 1
              ARRAY2D_CLEAR_DATA 2 [] (inst_ok_default []) eq_refl
              ltac:(lia) ltac:(lia) ltac:(lia) ltac:(lia))
    as (a' & hp' & Hrun & Hlow & Hout).
  exists a', hp'. split_and!; [exact Hrun|apply Hlow; lia|apply Hout; lia].
Defined.

Lemma resize_releases_what_it_replaces_witness :
  inst_ok ex_arr ex_heap /\ 0 <= 4 /\ 4 * 4 < 2 ^ 64 /\
  clear_fits ex_arr 4 4 ARRAY2D_CLEAR_DATA 0 ex_heap /\
  exists a' hp',
    op_call 0 ex_arr 4 4 ARRAY2D_CLEAR_DATA 0 ex_heap = Ok (a', hp') /\
    hp' !! 0%nat = Some None /\ hp' !! 1%nat = Some None.
Proof.
  assert (Hc : clear_fits ex_arr 4 4 ARRAY2D_CLEAR_DATA 0 ex_heap).
  { intros _. right. split_and!; [lia|lia|].
    intros Hk. vm_compute in Hk. discriminate Hk. }
  split; [exact ex_inst_ok|]. split_and!; try lia; [exact Hc|].
  destruct (resize_releases_what_it_replaces 0 ex_arr 4 4 ARRAY2D_CLEAR_DATA 0
              ex_heap ex_inst_ok ltac:(lia) ltac:(lia) ltac:(lia))
    as (Hret & Hres).
  destruct (Hret Hc) as (a' & hp' & Hrun).
  destruct (Hres a' hp' Hrun) as (Hdata & Hrows).
  exists a', hp'. split; [exact Hrun|].
  assert (Ha : a' = mk_array2D 4 4 (Ptr 2 0) (Ptr 3 0)).
  { vm_compute in Hrun. by injection Hrun as <- _. }
  split.
  - apply Hdata; [reflexivity|]. rewrite Ha. discriminate.
  - apply Hrows; [reflexivity|]. rewrite Ha. discriminate.
Defined.

Lemma fill_touches_the_first_cells_witness :
  owning ex_arr 0 ex_heap /\ width ex_arr * height ex_arr < 2 ^ 64 /\
  exists hp',
    fill ex_arr 9 false [] ex_heap = Ok hp' /\
    fill ex_arr 9 true (rev (seqZ 0 (width ex_arr * height ex_arr))) ex_heap
      = Ok hp' /\
    hp' !! 1%nat = ex_heap !! 1%nat /\
    get ex_arr 2 1 hp' = Ok 9.
Proof.
  split; [exact ex_owning|]. split; [simpl; lia|].
  destruct (fill_touches_the_first_cells ex_arr 0 9 ex_heap ex_owning
              ltac:(simpl; lia))
    as (hp' & Hseq & Hpar & _ & Hfr & _ & Hget).
  exists hp'. split_and!; [apply Hseq| | |].
  - apply Hpar. symmetry. apply Permutation_rev.
  - apply Hfr. discriminate.
  - rewrite Hget by (simpl; lia). reflexivity.
Defined.

Lemma fill_overwrites_witness :
  owning ex_arr 0 ex_heap /\ width ex_arr * height ex_arr < 2 ^ 64 /\
  exists hp1 hp2,
    fill ex_arr 1 false [] ex_heap = Ok hp1 /\
    fill ex_arr 2 false [] hp1 = Ok hp2 /\
    fill ex_arr 2 false [] ex_heap = Ok hp2.
Proof.
  split; [exact ex_owning|]. split; [simpl; lia|].
  exact (fill_overwrites ex_arr 0 1 2 ex_heap ex_owning ltac:(simpl; lia)).
Defined.

Lemma byreference_write_reaches_source_witness :
  referencing ex_ref ex_source ex_ref_heap /\
  source_ok ex_source (width ex_ref) (height ex_ref) ex_ref_heap /\
  exists hp',
    set ex_ref 1 0 7 ex_ref_heap = Ok hp' /\
    src_get ex_source 1 0 hp' = Ok 7.
Proof.
  assert (Hsrc : source_ok ex_source (width ex_ref) (height ex_ref) ex_ref_heap).
  { intros y Hy. simpl in Hy. assert (y = 0 \/ y = 1) as [->| ->] by lia.
    - exists (Ptr 0 0). split; [reflexivity|]. intros x Hx. simpl in Hx.
      assert (x = 0 \/ x = 1) as [->| ->] by lia; eexists; reflexivity.
    - exists (Ptr 1 0). split; [reflexivity|]. intros x Hx. simpl in Hx.
      assert (x = 0 \/ x = 1) as [->| ->] by lia; eexists; reflexivity. }
  split; [exact ex_referencing|]. split; [exact Hsrc|].
  destruct (byreference_write_reaches_source ex_ref ex_source ex_ref_heap 1 0 7
              ex_referencing Hsrc ltac:(simpl; lia) ltac:(simpl; lia))
    as (hp' & Hset & Hsget & _).
  by exists hp'.
Defined.

Lemma sized_lifetime_leaves_nothing_witness :
  0 <= 2 /\ 0 <= 3 /\ 2 * 3 < 2 ^ 64 /\
  exists a hp1,
    array2D_sized 0 2 3 0 ([] : heap Z) = Ok (a, hp1) /\
    array2D_dtor a hp1 = Ok [None; None].
Proof.
  split_and!; try lia.
  destruct (sized_lifetime_leaves_nothing 0 2 3 0 ([] : heap Z)
              ltac:(lia) ltac:(lia) ltac:(lia))
    as (a & hp1 & hp2 & Hrun & Hdtor & ->).
  by exists a, hp1.
Defined.
